(** * y1d: data pipeline, strategy sizing and result aggregation

    A shallow embedding of [data_handling.py], [backtest_strategy.py],
    [analyze_results.py] and [config.py], and the properties of the
    specification that these sources decide.

    Conventions of the embedding.
    - A pandas timestamp is an integer count of nanoseconds since
      1970-01-01T00:00 ([Z]). The cell of a price frame is an exact
      rational ([Q]), a missing one (NaN) is [None]; the code only moves
      these cells around. Where the code computes with numbers (the share
      count of the strategy, the averages of the statistics) they are
      IEEE 754 doubles, the primitive [float] with its own operations.
    - A price frame keeps its [Date] apart from the other columns; the
      fetched document is taken to have a [Date] column whose entries all
      parse as dates, so that [pd.to_datetime(df['Date'])] is the identity
      on the embedded frame.
    - Code that prints, creates directories, writes files or talks to the
      network returns the list of these events next to its result.
    - What the program reads from outside (HTTP responses, the CSV parser,
      the clock, the results directory) is a field of a world record. *)

From Stdlib Require Import PrimFloat.
From Stdlib Require SpecFloat FloatOps Uint63.
From Stdlib Require Import ZArith QArith Qround List String Ascii Bool Lia.
From Stdlib Require Import Sorted Permutation DecimalString DecimalNat.
From stdpp Require Import gmap strings.
Import ListNotations.
Open Scope string_scope.
Open Scope list_scope.
Open Scope Z_scope.

(** ** Exceptions, results and traced programs *)

Inductive exn :=
| KeyError | IndexError | ValueError | TypeError | OverflowError
| HTTPError | ConnectionError | ParserError.

(** [LookupError] is the base class of [KeyError] and [IndexError]. *)
Definition is_LookupError (e : exn) : bool :=
  match e with KeyError | IndexError => true | _ => false end.

Inductive result (A : Type) :=
| Ok (a : A)
| Raise (e : exn).
Arguments Ok {A} a.
Arguments Raise {A} e.

Inductive value :=
| VNum (x : float)
| VStr (s : string)
| VTime (t : Z)
| VNaN.

Record Summary := mkSummary {
  avg_return : value;
  avg_sharpe : value;
  avg_drawdown : value;
  avg_win_rate : value;
  avg_trades : value;
  ticker : string;
  investment_amount : float;
  lookback_years : Z;
  num_backtests : nat;
  analysis_date : string
}.

Inductive event :=
| HttpGet (url : string)
| Print (line : string)
| PrintReport (s : Summary)
| MakeDirs (path : string)
| WriteCsv (path : string) (s : Summary)
| SaveFig (path : string)
| ShowPlot.

Definition prog (A : Type) : Type := (list event * result A)%type.

Definition ret {A} (a : A) : prog A := ([], Ok a).
Definition raise {A} (e : exn) : prog A := ([], Raise e).
Definition emit (e : event) : prog unit := ([e], Ok tt).
Definition lift {A} (r : result A) : prog A := ([], r).

Definition bind {A B} (m : prog A) (k : A -> prog B) : prog B :=
  match m with
  | (t1, Ok a) => let '(t2, r) := k a in (t1 ++ t2, r)
  | (t1, Raise e) => (t1, Raise e)
  end.

Definition rbind {A B} (m : result A) (k : A -> result B) : result B :=
  match m with
  | Ok a => k a
  | Raise e => Raise e
  end.

Notation "'do' x <- m ; k" := (bind m (fun x => k))
  (at level 10, x name, m at level 100, k at level 200).
Notation "'run' m ; k" := (bind m (fun _ => k))
  (at level 10, m at level 100, k at level 200).
Notation "'try' x <- m ; k" := (rbind m (fun x => k))
  (at level 10, x name, m at level 100, k at level 200).

(** ** config.py *)

(** The three numbers are doubles: the integers of [config.py] as the
    doubles they convert to in arithmetic, and the command line parses
    [--investment] as a float. The commission rate is the double nearest
    to [0.001]. *)
Record Config := mkConfig {
  TICKER : string;
  INVESTMENT_AMOUNT : float;
  LOOKBACK_YEARS : Z;
  DATA_GRANULARITY : string;
  COMMISSION_RATE : float;
  INITIAL_CASH : float;
  RESULTS_PATH : string
}.

Definition config : Config :=
  {| TICKER := "TSLA";
     INVESTMENT_AMOUNT := 10000;
     LOOKBACK_YEARS := 5;
     DATA_GRANULARITY := "Daily";
     COMMISSION_RATE := 0x1.0624dd2f1a9fcp-10;
     INITIAL_CASH := 100000;
     RESULTS_PATH := "results/" |}.

(** ** Strings *)

(** Python's [needle in hay]. *)
Fixpoint contains (needle hay : string) : bool :=
  String.prefix needle hay ||
  match hay with
  | EmptyString => false
  | String _ rest => contains needle rest
  end.

Definition ends_with (suffix s : string) : bool :=
  (String.length suffix <=? String.length s)%nat &&
  String.eqb
    (substring (String.length s - String.length suffix) (String.length suffix) s)
    suffix.

(** [str(n)] for a natural number. *)
Definition decimal (n : nat) : string := NilEmpty.string_of_uint (Nat.to_uint n).

(** ** Calendar: the buckets of [resample('D')], [('W')] and [('M')] *)

Module Calendar.

Definition ns_per_day : Z := 86400 * 1000000000.

(** Days since 1970-01-01 of a timestamp. *)
Definition day_of (t : Z) : Z := t / ns_per_day.

(** Days from 0000-03-01 to the first of March of year [y]. *)
Definition year_start (y : Z) : Z := 365 * y + y / 4 - y / 100 + y / 400.

(** Months are counted from March of year 0: month [k] is month
    [k mod 12] (0 = March) of the March-based year [k / 12].
    [month_start k] is the day number (since 1970-01-01) of its first day. *)
Definition month_start (k : Z) : Z :=
  year_start (k / 12) + (153 * (k mod 12) + 2) / 5 - 719468.

(** The month containing day [d]: eras of 400 years, then centuries, then
    four-year cycles, then years, then the month within the year. *)
Definition month_index (d : Z) : Z :=
  let z := d + 719468 in
  let era := z / 146097 in
  let doe := z mod 146097 in
  let c := Z.min 3 (doe / 36524) in
  let doc := doe - 36524 * c in
  let q := doc / 1461 in
  let doq := doc mod 1461 in
  let a := Z.min 3 (doq / 365) in
  let doy := doq - 365 * a in
  12 * (400 * era + 100 * c + 4 * q + a) + (5 * doy + 2) / 153.

(** The frequency codes of the granularity table. *)
Inductive freq := D | W | M.

Definition freq_code (f : freq) : string :=
  match f with D => "D" | W => "W" | M => "M" end.

(** The ordinal of the bucket a timestamp falls in.
    - ['D']: the calendar day.
    - ['W'] (weeks ending on Sunday, closed on the right): day 3 is
      Sunday 1970-01-04, and bucket [k] holds Monday [7k-3] to Sunday [7k+3].
    - ['M'] (month end, closed on the right): the calendar month. *)
Definition bucket_of (f : freq) (t : Z) : Z :=
  match f with
  | D => day_of t
  | W => (day_of t + 3) / 7
  | M => month_index (day_of t)
  end.

(** The timestamp a bucket is labelled with: midnight of the day, of the
    closing Sunday, of the last day of the month. *)
Definition bucket_label (f : freq) (k : Z) : Z :=
  match f with
  | D => k * ns_per_day
  | W => (7 * k + 3) * ns_per_day
  | M => (month_start (k + 1) - 1) * ns_per_day
  end.

End Calendar.
Import Calendar.

(** ** Price frames and the pandas operations the pipeline calls *)

Module Pandas.

Definition cell := option Q.

Record Row := mkRow { Date : Z; cells : list cell }.

(** [columns] names the columns other than [Date], in order; a row holds
    one cell per column. *)
Record DataFrame := mkDF { columns : list string; rows : list Row }.

Definition is_valid (c : cell) : bool :=
  match c with Some _ => true | None => false end.

(** Position of a column label. *)
Fixpoint index_of (name : string) (cols : list string) : option nat :=
  match cols with
  | [] => None
  | c :: cs => if String.eqb c name then Some O else option_map S (index_of name cs)
  end.

Definition column_at (j : nat) (rs : list Row) : list cell :=
  map (fun r => nth j (cells r) None) rs.

(** [df[name]]: a [KeyError] when the label is absent. *)
Definition get_column (df : DataFrame) (name : string) : result (list cell) :=
  match index_of name (columns df) with
  | Some j => Ok (column_at j (rows df))
  | None => Raise KeyError
  end.

(** The cell of row [r] under label [name] (NaN when there is none). *)
Definition cell_at (df : DataFrame) (r : Row) (name : string) : cell :=
  match index_of name (columns df) with
  | Some j => nth j (cells r) None
  | None => None
  end.

(** [df[name] = col]: overwrite the column in place if the label exists,
    append it as the last column otherwise. *)
Definition assign_cell (j : option nat) (rc : Row * cell) : Row :=
  match j with
  | Some j => mkRow (Date (fst rc)) (<[j := snd rc]> (cells (fst rc)))
  | None => mkRow (Date (fst rc)) (cells (fst rc) ++ [snd rc])
  end.

Definition set_column (df : DataFrame) (name : string) (col : list cell) : DataFrame :=
  let j := index_of name (columns df) in
  mkDF (match j with Some _ => columns df | None => columns df ++ [name] end)
       (map (assign_cell j) (combine (rows df) col)).

(** [df.ffill()]: every missing cell takes the last valid value above it
    in its column; cells above the first valid value stay missing. *)
Definition fill_cell (prev cur : cell) : cell :=
  match cur with Some _ => cur | None => prev end.

Fixpoint fill_cells (prev cur : list cell) : list cell :=
  match cur with
  | [] => []
  | c :: cs => fill_cell (hd None prev) c :: fill_cells (tl prev) cs
  end.

Fixpoint ffill_rows (prev : list cell) (rs : list Row) : list Row :=
  match rs with
  | [] => []
  | r :: rs' =>
      let filled := fill_cells prev (cells r) in
      mkRow (Date r) filled :: ffill_rows filled rs'
  end.

Definition ffill (df : DataFrame) : DataFrame :=
  mkDF (columns df) (ffill_rows [] (rows df)).

(** [df.dropna()]: keep the rows without a missing cell. *)
Definition complete (r : Row) : bool := forallb is_valid (cells r).

Definition dropna (df : DataFrame) : DataFrame :=
  mkDF (columns df) (List.filter complete (rows df)).

(** [series.shift(p)]. Nothing is moved when [p] is zero or the column is
    empty. Otherwise the periods are converted with [np.intp], which
    refuses a number outside the 64-bit signed integers; then the values
    are rolled and the places vacated are made missing. *)
Definition fits_intp (p : Z) : bool := (- 2 ^ 63 <=? p) && (p <=? 2 ^ 63 - 1).

(** The values moved [p] places down (up when [p] is negative); the
    places vacated are missing, the length is kept. *)
Definition roll_fill (p : Z) (col : list cell) : list cell :=
  let n := length col in
  let k := Z.to_nat (Z.min (Z.abs p) (Z.of_nat n)) in
  if 0 <=? p then repeat None k ++ firstn (n - k) col
  else skipn k col ++ repeat None k.

Definition shift (p : Z) (col : list cell) : result (list cell) :=
  if (p =? 0) || (length col =? 0)%nat then Ok col
  else if fits_intp p then Ok (roll_fill p col)
  else Raise OverflowError.

(** Resampling orders the rows by date first; the sort is stable. *)
Fixpoint insert_by_date (r : Row) (l : list Row) : list Row :=
  match l with
  | [] => [r]
  | x :: l' => if Date r <=? Date x then r :: l else x :: insert_by_date r l'
  end.

Definition sort_by_date (l : list Row) : list Row :=
  fold_right insert_by_date [] l.

(** [GroupBy.last()]: per column, the last valid value of the group,
    missing when the group has none (so also for an empty group). *)
Definition last_valid (col : list cell) : cell :=
  fold_left fill_cell col None.

Definition group_last (ncols : nat) (g : list Row) : list cell :=
  map (fun j => last_valid (column_at j g)) (seq 0 ncols).

Definition Zrange (lo hi : Z) : list Z :=
  map (fun i => lo + Z.of_nat i) (seq 0 (Z.to_nat (hi + 1 - lo))).

Definition in_bucket (f : freq) (k : Z) (r : Row) : bool :=
  bucket_of f (Date r) =? k.

(** [df.resample(freq).last()] on a frame indexed by [Date]: one row per
    bucket from the bucket of the earliest date to the bucket of the
    latest, labelled by the bucket, holding the group's last values. *)
Definition resample_last (f : freq) (df : DataFrame) : DataFrame :=
  let sorted := sort_by_date (rows df) in
  match sorted with
  | [] => mkDF (columns df) []
  | first :: _ =>
      let lo := bucket_of f (Date first) in
      let hi := bucket_of f (Date (List.last sorted first)) in
      mkDF (columns df)
           (map (fun k => mkRow (bucket_label f k)
                            (group_last (length (columns df))
                               (List.filter (in_bucket f k) sorted)))
                (Zrange lo hi))
  end.

End Pandas.
Import Pandas.

(** ** data_handling.py *)

Module DataHandling.

Record Response := mkResponse { status_code : Z; text : string }.

(** What the fetcher reads from outside: the answer of [requests.get] to a
    URL, the frame [pd.read_csv] parses from a document, and the clock
    ([datetime.now()], in nanoseconds). *)
Record World := mkWorld {
  http_get : string -> result Response;
  read_csv : string -> result DataFrame;
  now : Z
}.

Definition get_url_dict : gmap string string :=
  list_to_map
    [ ("APPL", "https://edubuas-my.sharepoint.com/:x:/g/personal/davarynejad_m_buas_nl/EUjD8nLdpt1FmcNq1kQckBAB9gfHTn2Y_hl1zGOo5ecrYQ?e=AEmTL8");
      ("AMZN", "https://edubuas-my.sharepoint.com/:x:/g/personal/davarynejad_m_buas_nl/ERqUB631cFlEilFPtvFw5MkBlq_bVvc4xa27svDLWGlU3A?e=nHbTKw");
      ("FANG", "https://edubuas-my.sharepoint.com/:x:/g/personal/davarynejad_m_buas_nl/EejmVAFQLv5PqJGuFXcvgVYBGswiq_oQJ4LhzslJbLAoAA?e=SN9BLa");
      ("GOOG", "https://edubuas-my.sharepoint.com/:x:/g/personal/davarynejad_m_buas_nl/ET6y-MR3SidHjGGmm8DQMn4BtpSO-GnAokJ8GI4LsghZDw?e=st6IyB");
      ("TSLA", "https://edubuas-my.sharepoint.com/:x:/g/personal/davarynejad_m_buas_nl/Ecv4R01Cn75Koj7y8UFjxHMBazIVliolR9rioUwyT03vcw?e=uq2TSF") ].

(** [d[k]] on a dict. *)
Definition dict_get (d : gmap string string) (k : string) : result string :=
  match d !! k with
  | Some v => Ok v
  | None => Raise KeyError
  end.

Definition download_url (url : string) : string :=
  if contains "download=1" url then url
  else url +:+ (if contains "?" url then "&download=1" else "?download=1").

Definition requests_get (w : World) (url : string) : prog Response :=
  run emit (HttpGet url); lift (http_get w url).

(** [response.raise_for_status()]: client and server error codes raise. *)
Definition raise_for_status (r : Response) : result unit :=
  if (400 <=? status_code r) && (status_code r <? 600)
  then Raise HTTPError else Ok tt.

(** The literal dict [{'Daily': 'D', 'Weekly': 'W', 'Monthly': 'M'}]
    indexed by the granularity. *)
Definition granularity_freq (granularity : string) : result freq :=
  if String.eqb granularity "Daily" then Ok D
  else if String.eqb granularity "Weekly" then Ok W
  else if String.eqb granularity "Monthly" then Ok M
  else Raise KeyError.

Definition fetch_stock_data (w : World) (ticker granularity : string)
  : prog DataFrame :=
  do url <- lift (dict_get get_url_dict ticker);
  do response <- requests_get w (download_url url);
  run lift (raise_for_status response);
  do df <- lift (read_csv w (text response));
  let df := ffill df in
  if negb (String.eqb granularity "Minute") then
    do freq <- lift (granularity_freq granularity);
    run emit (Print ("The set level of Granularity is: " +:+ freq_code freq +:+ "."));
    ret (dropna (resample_last freq df))
  else ret df.

Definition lag_name (i : nat) : string := "Lag_" +:+ decimal i.

(** The loop [for i in range(1, num_lags + 1)] over a list of indices. *)
Fixpoint add_lag_columns (indices : list nat) (lag_gap : Z) (df : DataFrame)
  : result DataFrame :=
  match indices with
  | [] => Ok df
  | i :: rest =>
      try close <- get_column df "Close";
      try lag <- shift (Z.of_nat i * lag_gap) close;
      add_lag_columns rest lag_gap (set_column df (lag_name i) lag)
  end.

Definition add_lags (df : DataFrame) (num_lags lag_gap : Z) : result DataFrame :=
  try df <- add_lag_columns (seq 1 (Z.to_nat num_lags)) lag_gap df;
  Ok (dropna df).

(** [timedelta(days=n)]: at most 999999999 days either way. *)
Definition timedelta_days (days : Z) : result Z :=
  if Z.abs days <=? 999999999 then Ok (days * ns_per_day)
  else Raise OverflowError.

(** [datetime.min] is 0001-01-01T00:00 and [datetime.max] is
    9999-12-31T23:59:59.999999. *)
Definition datetime_min : Z := -719162 * ns_per_day.
Definition datetime_max : Z := 2932897 * ns_per_day - 1000.

(** [t - delta] on datetimes: the result has to be a datetime. *)
Definition datetime_sub (t delta : Z) : result Z :=
  let r := t - delta in
  if (datetime_min <=? r) && (r <=? datetime_max) then Ok r
  else Raise OverflowError.

(** [datetime.now() - timedelta(days=365 * years_lookback)]. *)
Definition start_date (now : Z) (years_lookback : Z) : result Z :=
  try delta <- timedelta_days (365 * years_lookback);
  datetime_sub now delta.

(** [df[df['Date'] >= start_date]]. *)
Definition filter_since (start : Z) (df : DataFrame) : DataFrame :=
  mkDF (columns df) (List.filter (fun r => start <=? Date r) (rows df)).

Definition required_columns : list string :=
  ["Open"; "High"; "Low"; "Close"; "Volume"].

Definition has_column (df : DataFrame) (name : string) : bool :=
  existsb (String.eqb name) (columns df).

Fixpoint check_columns (required : list string) (df : DataFrame) : result unit :=
  match required with
  | [] => Ok tt
  | column :: rest =>
      if has_column df column then check_columns rest df else Raise ValueError
  end.

Definition get_data_for_backtesting (w : World) (ticker granularity : string)
    (years_lookback : Z) : prog DataFrame :=
  do df <- fetch_stock_data w ticker granularity;
  do start <- lift (start_date (now w) years_lookback);
  let df := filter_since start df in
  run lift (check_columns required_columns df);
  ret df.

End DataHandling.
Import DataHandling.

(** ** backtest_strategy.py *)

Module BacktestStrategy.

(** What [next] asks of the engine. *)
Inductive order :=
| ClosePosition
| Buy (size : Z).

(** [BuyBeforeOpenSellAtOpen.init] *)
Definition init (c : Config) : float := INVESTMENT_AMOUNT c.

(** [math.floor(x)] on a double: the greatest integer not above [x]; an
    infinity is refused with [OverflowError], a NaN with [ValueError]. A
    finite double is [m * 2 ^ e] with a sign. *)
Definition math_floor (x : float) : result Z :=
  match FloatOps.Prim2SF x with
  | SpecFloat.S754_zero _ => Ok 0
  | SpecFloat.S754_finite s m e =>
      let n := if s then Z.neg m else Z.pos m in
      Ok (if 0 <=? e then n * 2 ^ e else n / 2 ^ (- e))
  | SpecFloat.S754_infinity _ => Raise OverflowError
  | SpecFloat.S754_nan => Raise ValueError
  end.

(** [math.floor(investment_amount / price)]; the close is a numpy
    float64, so the quotient is the double-precision one, and a zero price
    gives an infinity (or a NaN for [0 / 0]) instead of an exception of the
    division. *)
Definition floor_div (investment_amount price : float) : result Z :=
  math_floor (investment_amount / price)%float.

(** [BuyBeforeOpenSellAtOpen.next]: [position] tells whether a position is
    open, [price] is [self.data.Close[-1]]. *)
Definition next (investment_amount : float) (position : bool) (price : float)
  : result (list order) :=
  let closing := if position then [ClosePosition] else [] in
  try num_shares <- floor_div investment_amount price;
  Ok (closing ++ (if 1 <=? num_shares then [Buy num_shares] else [])).

End BacktestStrategy.
Import BacktestStrategy.

(** ** analyze_results.py *)

Module AnalyzeResults.

(** A frame of run statistics: the cells are numbers, strings, timestamps
    or missing ([VNaN], also standing for NaT). *)
Record Table := mkTable { tcolumns : list string; trows : list (list value) }.

(** The results directory as the aggregator sees it: whether it exists,
    the names of its files in the order [glob] lists them, what
    [pd.read_csv] makes of each, [pd.to_datetime] with the format
    ['%Y%m%d_%H%M%S'], and the clock in the two formats the script prints. *)
Record Disk := mkDisk {
  dir_exists : bool;
  dir_files : list string;
  read_stats : string -> result Table;
  to_datetime : string -> result Z;
  clock_compact : string;
  clock_long : string
}.

(** [os.path.join(a, b)] for a relative [b]. *)
Definition path_join (a b : string) : string :=
  if String.eqb a EmptyString || ends_with "/" a then a +:+ b else a +:+ "/" +:+ b.

(** The glob pattern [stats_*.csv] on a file name. *)
Definition stats_match (name : string) : bool :=
  String.prefix "stats_" name && ends_with ".csv" name
  && (10 <=? String.length name)%nat.

Definition glob_stats (d : Disk) : list string :=
  if dir_exists d then List.filter stats_match (dir_files d) else [].

Definition is_digit (c : ascii) : bool :=
  (48 <=? nat_of_ascii c)%nat && (nat_of_ascii c <=? 57)%nat.

Fixpoint all_digits (s : string) : bool :=
  match s with
  | EmptyString => true
  | String c rest => is_digit c && all_digits rest
  end.

(** The regular expression [stats_(\d{8}_\d{6})] matched at the start of
    [s]; the result is the captured group. *)
Definition stamp_at (s : string) : option string :=
  let body := substring 6 15 s in
  if String.prefix "stats_" s
     && (String.length body =? 15)%nat
     && all_digits (substring 0 8 body)
     && String.eqb (substring 8 1 body) "_"
     && all_digits (substring 9 6 body)
  then Some body else None.

(** [str.extract]: the first match, searching from the left. *)
Fixpoint extract_stamp (s : string) : option string :=
  match stamp_at s with
  | Some m => Some m
  | None =>
      match s with
      | EmptyString => None
      | String _ rest => extract_stamp rest
      end
  end.

Fixpoint tindex (name : string) (cols : list string) : option nat :=
  match cols with
  | [] => None
  | c :: cs => if String.eqb c name then Some O else option_map S (tindex name cs)
  end.

(** [df[name] = v] with a scalar [v]. *)
Definition tset (t : Table) (name : string) (v : value) : Table :=
  match tindex name (tcolumns t) with
  | Some j => mkTable (tcolumns t) (map (fun r => <[j := v]> r) (trows t))
  | None => mkTable (tcolumns t ++ [name]) (map (fun r => r ++ [v]) (trows t))
  end.

(** [df[name]] *)
Definition tget (t : Table) (name : string) : result (list value) :=
  match tindex name (tcolumns t) with
  | Some j => Ok (map (fun r => nth j r VNaN) (trows t))
  | None => Raise KeyError
  end.

(** The body of the loop of [load_results] for one file. *)
Definition load_file (d : Disk) (file : string) : result Table :=
  try df <- read_stats d file;
  let df := tset df "filename" (VStr file) in
  try stamp <-
    match trows df with
    | [] => Raise IndexError
    | _ :: _ => Ok (extract_stamp file)
    end;
  try time <-
    match stamp with
    | Some s => try t <- to_datetime d s; Ok (VTime t)
    | None => Ok VNaN
    end;
  Ok (tset df "timestamp" time).

Fixpoint load_files (d : Disk) (files : list string) : result (list Table) :=
  match files with
  | [] => Ok []
  | file :: rest =>
      try df <- load_file d file;
      try dfs <- load_files d rest;
      Ok (df :: dfs)
  end.

(** [pd.concat(dfs, ignore_index=True)]: the default outer join. The
    columns are the union of the frames' columns in order of first
    appearance; a row has a missing cell under each label its frame lacks. *)
Definition add_label (acc : list string) (c : string) : list string :=
  if existsb (String.eqb c) acc then acc else acc ++ [c].

Definition union_columns (dfs : list Table) : list string :=
  fold_left (fun acc t => fold_left add_label (tcolumns t) acc) dfs [].

Definition reindex (cols : list string) (t : Table) (r : list value) : list value :=
  map (fun c => match tindex c (tcolumns t) with
                | Some j => nth j r VNaN
                | None => VNaN
                end) cols.

Definition concat (dfs : list Table) : Table :=
  let cols := union_columns dfs in
  mkTable cols (flat_map (fun t => map (reindex cols t) (trows t)) dfs).

Definition load_results (d : Disk) (results_dir : string) : prog (option Table) :=
  let csv_files := glob_stats d in
  match csv_files with
  | [] =>
      run emit (Print ("No result files found in " +:+ results_dir));
      ret None
  | _ :: _ =>
      do dfs <- lift (load_files d csv_files);
      ret (Some (concat dfs))
  end.

(** [DataFrame.empty] *)
Definition table_empty (t : Table) : bool :=
  (length (tcolumns t) =? 0)%nat || (length (trows t) =? 0)%nat.

(** [ndarray.sum()] on doubles. numpy adds pairwise: fewer than 8 numbers
    from left to right, starting from [-0.0]; up to 128 numbers in 8
    running sums, one for each position modulo 8, which are added up in
    pairs at the end, before the numbers left over beyond a multiple of 8;
    more than 128 numbers in two parts, the first half rounded down to a
    multiple of 8. *)
Fixpoint add_groups (groups : nat) (r l : list float) : list float * list float :=
  match groups with
  | O => (r, l)
  | S g =>
      add_groups g (map (fun p => (fst p + snd p)%float) (combine r (firstn 8 l)))
                 (skipn 8 l)
  end.

Definition block_sum (l : list float) : float :=
  let '(r, rest) := add_groups (length l / 8 - 1) (firstn 8 l) (skipn 8 l) in
  let r_ i := nth i r 0%float in
  let add := PrimFloat.add in
  fold_left add rest
    (add (add (add (r_ 0%nat) (r_ 1%nat)) (add (r_ 2%nat) (r_ 3%nat)))
         (add (add (r_ 4%nat) (r_ 5%nat)) (add (r_ 6%nat) (r_ 7%nat)))).

Fixpoint pairwise_sum (fuel : nat) (l : list float) : float :=
  let n := length l in
  if (n <? 8)%nat then fold_left PrimFloat.add l (-0)%float
  else if (n <=? 128)%nat then block_sum l
  else
    match fuel with
    | O => block_sum l
    | S fuel' =>
        let n2 := (n / 2 - (n / 2) mod 8)%nat in
        (pairwise_sum fuel' (firstn n2 l) + pairwise_sum fuel' (skipn n2 l))%float
    end.

Definition np_sum (l : list float) : float := pairwise_sum (length l) l.

(** [Series.mean()]: the column has to be numeric; the missing values
    count as zero in the sum and are left out of the count, and the mean of
    nothing is missing. *)
Definition is_missing (v : value) : bool :=
  match v with
  | VNaN => true
  | VNum x => is_nan x
  | _ => false
  end.

Fixpoint numeric (col : list value) : result (list float) :=
  match col with
  | [] => Ok []
  | VNum x :: rest =>
      try xs <- numeric rest; Ok ((if is_nan x then 0%float else x) :: xs)
  | VNaN :: rest => try xs <- numeric rest; Ok (0%float :: xs)
  | _ :: _ => Raise TypeError
  end.

Definition of_nat (n : nat) : float := of_uint63 (Uint63.of_Z (Z.of_nat n)).

Definition of_float (x : float) : value := if is_nan x then VNaN else VNum x.

Definition mean (col : list value) : result value :=
  try xs <- numeric col;
  let count := length (List.filter (fun v => negb (is_missing v)) col) in
  if (count =? 0)%nat then Ok VNaN
  else Ok (of_float (np_sum xs / of_nat count)%float).

Definition column_mean (t : Table) (name : string) : result value :=
  try col <- tget t name; mean col.

Definition analyze_trades (c : Config) (d : Disk) (results_df : option Table)
  : prog (option Summary) :=
  match results_df with
  | None => run emit (Print "No results to analyze"); ret None
  | Some df =>
      if table_empty df then run emit (Print "No results to analyze"); ret None
      else
        do r <- lift (column_mean df "Return [%]");
        do s <- lift (column_mean df "Sharpe Ratio");
        do dd <- lift (column_mean df "Max. Drawdown [%]");
        do wr <- lift (column_mean df "Win Rate [%]");
        do tr <- lift (column_mean df "# Trades");
        let stats_summary :=
          mkSummary r s dd wr tr (TICKER c) (INVESTMENT_AMOUNT c)
                    (LOOKBACK_YEARS c) (length (trows df)) (clock_long d) in
        run emit (PrintReport stats_summary);
        let summary_file :=
          path_join (RESULTS_PATH c)
                    ("strategy_summary_" +:+ clock_compact d +:+ ".csv") in
        run emit (WriteCsv summary_file stats_summary);
        run emit (Print ("Strategy summary saved to " +:+ summary_file));
        ret (Some stats_summary)
  end.

Definition plot_performance_metrics (c : Config) (d : Disk)
    (results_df : option Table) : prog unit :=
  match results_df with
  | None => emit (Print "No results to plot")
  | Some df =>
      if table_empty df then emit (Print "No results to plot")
      else
        do _ts <- lift (tget df "timestamp");
        do _r <- lift (tget df "Return [%]");
        do _s <- lift (tget df "Sharpe Ratio");
        do _dd <- lift (tget df "Max. Drawdown [%]");
        do _wr <- lift (tget df "Win Rate [%]");
        let save_path :=
          path_join (RESULTS_PATH c)
                    ("performance_metrics_" +:+ clock_compact d +:+ ".png") in
        run emit (SaveFig save_path);
        run emit (Print ("Performance metrics plot saved to " +:+ save_path));
        emit ShowPlot
  end.

(** [main]; [load_results()] is called with its default argument, the
    results path of the configuration. *)
Definition main (c : Config) (d : Disk) : prog unit :=
  if negb (dir_exists d) then
    run emit (MakeDirs (RESULTS_PATH c));
    run emit (Print ("Created results directory: " +:+ RESULTS_PATH c));
    emit (Print "No backtest results found. Run the backtest first.")
  else
    do results <- load_results d (RESULTS_PATH c);
    match results with
    | Some df =>
        if negb (table_empty df) then
          do _summary <- analyze_trades c d results;
          plot_performance_metrics c d results
        else ret tt
    | None => ret tt
    end.

End AnalyzeResults.
Import AnalyzeResults.

(** ** Vocabulary of the properties *)

Module Spec.

(** Every row holds one cell per column. *)
Definition well_formed (df : DataFrame) : Prop :=
  Forall (fun r => length (cells r) = length (columns df)) (rows df).

Definition no_missing (df : DataFrame) : Prop :=
  Forall (fun r => complete r = true) (rows df).

(** A row that is complete and holds [n] cells. *)
Definition full (n : nat) (r : Row) : Prop :=
  complete r = true /\ length (cells r) = n.

(** Rows in date order. *)
Definition date_le (a b : Row) : Prop := Date a <= Date b.
Definition date_sorted (l : list Row) : Prop := StronglySorted date_le l.

(** The first bar of the document, if any, has no missing value. *)
Definition first_row_complete (df : DataFrame) : Prop :=
  match rows df with
  | [] => True
  | r :: _ => complete r = true
  end.

(** The latest value a column has at position [i] or above it; missing
    when it has none there. *)
Fixpoint latest_value (col : list cell) (i : nat) : cell :=
  match nth i col None with
  | Some q => Some q
  | None =>
      match i with
      | O => None
      | S i' => latest_value col i'
      end
  end.

Definition dates (df : DataFrame) : list Z := map Date (rows df).

Definition strictly_increasing (l : list Z) : Prop := StronglySorted Z.lt l.

(** The dates of the frame increase strictly from bar to bar, and no date
    occurs twice. *)
Definition ordered_dates (df : DataFrame) : Prop :=
  strictly_increasing (dates df) /\ List.NoDup (dates df).

(** The last bar of a list of bars: the one with the greatest date, and
    among bars of that date the one that comes last in the list. *)
Fixpoint latest (l : list Row) : option Row :=
  match l with
  | [] => None
  | r :: rest =>
      match latest rest with
      | None => Some r
      | Some b => if Date b <? Date r then Some r else Some b
      end
  end.

(** The bars of a bucket, and the distinct buckets with at least one bar. *)
Definition bucket_rows (f : freq) (k : Z) (l : list Row) : list Row :=
  List.filter (in_bucket f k) l.

Definition bucket_keys (f : freq) (l : list Row) : list Z :=
  nodup Z.eq_dec (map (fun r => bucket_of f (Date r)) l).

(** The world answers the request for [ticker], whose table entry is
    [url], with a document that parses to the frame [raw]. *)
Definition serves (w : World) (ticker url : string) (raw : DataFrame) : Prop :=
  get_url_dict !! ticker = Some url /\
  exists resp,
    http_get w (download_url url) = Ok resp /\
    raise_for_status resp = Ok tt /\
    read_csv w (text resp) = Ok raw.

(** Events that leave an artefact of the analysis: the summary record and
    the plot. *)
Definition is_output (e : event) : bool :=
  match e with
  | WriteCsv _ _ | SaveFig _ | ShowPlot | PrintReport _ => true
  | _ => false
  end.

Definition has_label (t : Table) (c : string) : bool :=
  existsb (String.eqb c) (tcolumns t).

(** The value of a record under a label of its frame. *)
Definition tcell (cols : list string) (r : list value) (c : string) : value :=
  match tindex c cols with
  | Some j => nth j r VNaN
  | None => VNaN
  end.

(** The labels of the frames, frame after frame. *)
Definition all_labels (dfs : list Table) : list string := flat_map tcolumns dfs.

(** The labels of a list in order of first appearance, each once. *)
Fixpoint first_appearances (l : list string) : list string :=
  match l with
  | [] => []
  | c :: rest =>
      c :: List.filter (fun x => negb (String.eqb x c)) (first_appearances rest)
  end.

(** The records of the frames, frame after frame, each with the frame it
    comes from. *)
Definition records (dfs : list Table) : list (Table * list value) :=
  flat_map (fun t => map (pair t) (trows t)) dfs.

(** The real number a finite double stands for. *)
Definition real_value (x : float) : option Q :=
  match FloatOps.Prim2SF x with
  | SpecFloat.S754_zero _ => Some 0%Q
  | SpecFloat.S754_finite s m e =>
      let n := if s then Z.neg m else Z.pos m in
      Some (if 0 <=? e then inject_Z (n * 2 ^ e) else n # Z.to_pos (2 ^ (- e)))
  | _ => None
  end.

(** The sizes of the buy orders among the orders of one bar. *)
Fixpoint buys (orders : list order) : list Z :=
  match orders with
  | [] => []
  | Buy n :: rest => n :: buys rest
  | ClosePosition :: rest => buys rest
  end.

End Spec.
Import Spec.

(** ** Concrete inputs *)

Module Examples.

Definition ohlcv : list string := ["Open"; "High"; "Low"; "Close"; "Volume"].

Definition price (n : Z) : cell := Some (inject_Z n).

(** A bar dated [day] days after 1970-01-01. *)
Definition bar (day : Z) (o h l c : Z) (v : cell) : Row :=
  mkRow (day * ns_per_day) [price o; price h; price l; price c; v].

(** A world that answers every request with status 200 and whose
    documents all parse to [raw]; the clock shows 2026-11-04T00:00. *)
Definition world_of (raw : DataFrame) : World :=
  {| http_get := fun _ => Ok (mkResponse 200 "Date,Open,High,Low,Close,Volume");
     read_csv := fun _ => Ok raw;
     now := 1793750400 * 1000000000 |}.

Definition tsla_url : string :=
  "https://edubuas-my.sharepoint.com/:x:/g/personal/davarynejad_m_buas_nl/Ecv4R01Cn75Koj7y8UFjxHMBazIVliolR9rioUwyT03vcw?e=uq2TSF".

(** Five bars of January and February 1970, two of them without volume. *)
Definition raw_1970 : DataFrame :=
  mkDF ohlcv
    [ bar 4 10 12 9 11 (price 500);
      bar 5 11 13 10 12 None;
      bar 12 12 14 11 13 (price 700);
      bar 40 13 15 12 14 (price 900);
      bar 41 14 16 13 15 None ].

(** One bar, whose volume is missing. *)
Definition raw_no_volume : DataFrame :=
  mkDF ohlcv [ bar 20000 10 12 9 11 None ].

(** Three complete bars of October 2026 (days 20727 to 20729). *)
Definition raw_2026 : DataFrame :=
  mkDF ohlcv
    [ bar 20727 10 12 9 11 (price 500);
      bar 20728 11 13 10 12 (price 600);
      bar 20729 12 14 11 13 (price 700) ].

(** A results directory with two runs whose statistics have different
    columns. *)
Definition run_a : Table :=
  mkTable ["Return [%]"; "Sharpe Ratio"] [[VNum 5; VNum 0.5]].
Definition run_b : Table :=
  mkTable ["Return [%]"; "# Trades"] [[VNum 7; VNum 9]].

Definition disk_mismatch : Disk :=
  {| dir_exists := true;
     dir_files := ["stats_20240101_120000.csv"; "stats_20240102_120000.csv"];
     read_stats := fun f =>
       if String.eqb f "stats_20240101_120000.csv" then Ok run_a else Ok run_b;
     to_datetime := fun s =>
       if String.eqb s "20240101_120000" then Ok 1704110400000000000
       else Ok 1704196800000000000;
     clock_compact := "20261104_000000";
     clock_long := "2026-11-04 00:00:00" |}.

(** A results directory holding only files that are no run statistics. *)
Definition disk_no_stats : Disk :=
  {| dir_exists := true;
     dir_files := ["notes.txt"; "backtest_plot_20240101_120000.html"];
     read_stats := fun _ => Raise ParserError;
     to_datetime := fun _ => Raise ValueError;
     clock_compact := "20261104_000000";
     clock_long := "2026-11-04 00:00:00" |}.

End Examples.
Import Examples.

(** ** backtest_strategy.py: run_backtest *)

Module Runner.

(** The statistics of a run: a series of named values. *)
Definition Stats := list (string * value).

(** [pd.DataFrame([stats])]: one record, one column per entry. *)
Definition stats_frame (s : Stats) : Table := mkTable (map fst s) [map snd s].

(** The [backtesting] package as [run_backtest] uses it:
    [Backtest(data, strategy, cash=..., commission=...,
    exclusive_orders=True).run()], where the strategy is handed over as
    its [next]; [bt.plot(filename=...)]; and the text of an exception. *)
Record Engine := mkEngine {
  bt_run : DataFrame -> (bool -> float -> result (list order)) -> float -> float
           -> result Stats;
  bt_plot : option string -> result unit;
  exn_text : exn -> string
}.

(** What [run_backtest] does to the outside: the events of the data
    pipeline, and its own. *)
Inductive run_event :=
| Fetch (e : event)
| PrintStats (s : Stats)
| MkDir (path : string)
| ToCsv (path : string) (t : Table)
| Plot (filename : option string)
| Say (line : string).

(** The name of the statistics file of a run, after the directory. *)
Definition stats_name (timestamp : string) : string :=
  "stats_" +:+ timestamp +:+ ".csv".

(** [run_backtest(visualize, save_results)]. [path_exists] is
    [os.path.exists(config.RESULTS_PATH)] and [timestamp] is
    [datetime.now().strftime("%Y%m%d_%H%M%S")] at the time of the call. *)
Definition run_backtest (c : Config) (w : World) (eng : Engine)
    (path_exists : bool) (timestamp : string) (visualize save_results : bool)
  : list run_event * result Stats :=
  match get_data_for_backtesting w (TICKER c) (DATA_GRANULARITY c)
                                 (LOOKBACK_YEARS c) with
  | (tr, Raise e) => (map Fetch tr, Raise e)
  | (tr, Ok data) =>
      match bt_run eng data (next (init c)) (INITIAL_CASH c) (COMMISSION_RATE c) with
      | Raise e => (map Fetch tr, Raise e)
      | Ok stats =>
          let made :=
            if save_results && negb path_exists
            then [MkDir (RESULTS_PATH c)] else [] in
          let saved :=
            if save_results
            then [ToCsv (RESULTS_PATH c +:+ "/" +:+ stats_name timestamp)
                        (stats_frame stats)]
            else [] in
          let plotted :=
            if visualize then
              let filename :=
                if save_results
                then Some (RESULTS_PATH c +:+ "/backtest_plot_" +:+ timestamp +:+ ".html")
                else None in
              Plot filename ::
              match bt_plot eng filename with
              | Ok _ =>
                  [Say (match filename with
                        | Some f => "Interactive plot saved to " +:+ f
                        | None => "Plot displayed"
                        end)]
              | Raise e =>
                  [Say ("Error: Unable to generate plot: " +:+ exn_text eng e);
                   Say "Please make sure you have installed Bokeh version 2.4.3:";
                   Say "pip install bokeh==2.4.3";
                   Say "The backtest results are still valid and have been saved to CSV."]
              end
            else [] in
          (map Fetch tr ++ [PrintStats stats] ++ made ++ saved ++ plotted, Ok stats)
      end
  end.

(** The shape of [strftime("%Y%m%d_%H%M%S")] for a year of four digits:
    eight digits, an underscore, six digits. *)
Definition is_stamp (s : string) : bool :=
  (String.length s =? 15)%nat
  && all_digits (substring 0 8 s)
  && String.eqb (substring 8 1 s) "_"
  && all_digits (substring 9 6 s).

(** Events by which [run_backtest] itself creates a directory or names a
    file to be written. *)
Definition writes_file (e : run_event) : bool :=
  match e with
  | MkDir _ | ToCsv _ _ | Plot (Some _) => true
  | _ => false
  end.

End Runner.
Import Runner.

(** ** More sample data *)

Module Fixtures.

(** An engine that reports a return of 5 % and nine trades, and whose
    plotting fails. *)
Definition sample_stats : Stats :=
  [("Return [%]", VNum 5); ("# Trades", VNum 9)].

Definition engine_no_plot : Engine :=
  {| bt_run := fun _ _ _ _ => Ok sample_stats;
     bt_plot := fun _ => Raise ValueError;
     exn_text := fun _ => "bokeh" |}.

(** A run with all the headline metrics. *)
Definition headline : list string :=
  ["Return [%]"; "Sharpe Ratio"; "Max. Drawdown [%]"; "Win Rate [%]"; "# Trades"].

Definition run_1 : Table :=
  mkTable headline [[VNum 5; VNum 0.5; VNum (-3); VNum 60; VNum 9]].
Definition run_2 : Table :=
  mkTable headline [[VNum 7; VNaN; VNum (-5); VNum 40; VNum 11]].

(** A results directory with two complete runs and a file that is not a
    statistics file. *)
Definition disk_two_runs : Disk :=
  {| dir_exists := true;
     dir_files := ["stats_20240101_120000.csv"; "notes.txt"; "stats_20240102_120000.csv"];
     read_stats := fun f =>
       if String.eqb f "stats_20240101_120000.csv" then Ok run_1 else Ok run_2;
     to_datetime := fun s =>
       if String.eqb s "20240101_120000" then Ok 1704110400000000000
       else Ok 1704196800000000000;
     clock_compact := "20261104_000000";
     clock_long := "2026-11-04 00:00:00" |}.

(** A results directory whose second statistics file has a header and no
    record. *)
Definition disk_empty_run : Disk :=
  {| dir_exists := true;
     dir_files := ["stats_20240101_120000.csv"; "stats_20240102_120000.csv"];
     read_stats := fun f =>
       if String.eqb f "stats_20240101_120000.csv" then Ok run_1
       else Ok (mkTable headline []);
     to_datetime := fun _ => Ok 1704110400000000000;
     clock_compact := "20261104_000000";
     clock_long := "2026-11-04 00:00:00" |}.

End Fixtures.
Import Fixtures.

(** * Properties *)

(** ** The fetcher's control flow *)

Lemma fetch_unknown_ticker w ticker granularity :
  get_url_dict !! ticker = None ->
  fetch_stock_data w ticker granularity = ([], Raise KeyError).
Proof.
  intros H. unfold fetch_stock_data, dict_get. rewrite H. reflexivity.
Qed.

Lemma fetch_known_ticker w ticker granularity url :
  get_url_dict !! ticker = Some url ->
  exists tr r,
    fetch_stock_data w ticker granularity = (HttpGet (download_url url) :: tr, r).
Proof.
  intros H. unfold fetch_stock_data, dict_get, requests_get. rewrite H. cbn.
  destruct (http_get w (download_url url)) as [resp|e]; cbn; [|eauto].
  destruct (raise_for_status resp) as [[]|e]; cbn; [|eauto].
  destruct (read_csv w (text resp)) as [raw|e]; cbn; [|eauto].
  destruct (negb (String.eqb granularity "Minute")); cbn; [|eauto].
  destruct (granularity_freq granularity); cbn; eauto.
Qed.

Lemma fetch_minute w ticker url raw :
  serves w ticker url raw ->
  fetch_stock_data w ticker "Minute" = ([HttpGet (download_url url)], Ok (ffill raw)).
Proof.
  intros (Hu & resp & Hget & Hst & Hcsv).
  unfold fetch_stock_data, dict_get, requests_get. rewrite Hu. cbn.
  rewrite Hget. cbn. rewrite Hst. cbn. rewrite Hcsv. reflexivity.
Qed.

Lemma granularity_freq_not_minute granularity f :
  granularity_freq granularity = Ok f -> String.eqb granularity "Minute" = false.
Proof.
  intros H. destruct (String.eqb granularity "Minute") eqn:E; [|reflexivity].
  apply String.eqb_eq in E. subst. discriminate.
Qed.

Lemma fetch_resampled w ticker url raw granularity f :
  serves w ticker url raw ->
  granularity_freq granularity = Ok f ->
  fetch_stock_data w ticker granularity
  = ([HttpGet (download_url url);
      Print ("The set level of Granularity is: " +:+ freq_code f +:+ ".")],
     Ok (dropna (resample_last f (ffill raw)))).
Proof.
  intros (Hu & resp & Hget & Hst & Hcsv) Hf.
  unfold fetch_stock_data, dict_get, requests_get. rewrite Hu. cbn.
  rewrite Hget. cbn. rewrite Hst. cbn. rewrite Hcsv. cbn.
  rewrite (granularity_freq_not_minute _ _ Hf). cbn. rewrite Hf. reflexivity.
Qed.

Lemma granularity_freq_cases granularity f :
  granularity_freq granularity = Ok f <->
  (granularity = "Daily" /\ f = D) \/ (granularity = "Weekly" /\ f = W)
  \/ (granularity = "Monthly" /\ f = M).
Proof.
  unfold granularity_freq. split.
  - destruct (String.eqb granularity "Daily") eqn:E1.
    { apply String.eqb_eq in E1. intros [= <-]. auto. }
    destruct (String.eqb granularity "Weekly") eqn:E2.
    { apply String.eqb_eq in E2. intros [= <-]. auto. }
    destruct (String.eqb granularity "Monthly") eqn:E3.
    { apply String.eqb_eq in E3. intros [= <-]. auto. }
    discriminate.
  - intros [[-> ->]|[[-> ->]|[-> ->]]]; reflexivity.
Qed.

Lemma serves_example raw : serves (world_of raw) "TSLA" tsla_url raw.
Proof.
  split; [reflexivity|]. exists (mkResponse 200 "Date,Open,High,Low,Close,Volume").
  repeat split.
Qed.

(** The five tickers of the table. *)
Lemma url_dict_domain ticker :
  is_Some (get_url_dict !! ticker) <->
  In ticker ["APPL"; "AMZN"; "FANG"; "GOOG"; "TSLA"].
Proof.
  unfold get_url_dict. cbn [list_to_map foldr fst snd List.In].
  rewrite !lookup_insert, lookup_empty.
  repeat case_decide; subst; split; intros Hyp;
    try (eexists; reflexivity); try (destruct Hyp as [? [=]]; fail);
    try (cbn; tauto).
Qed.

(** C6. A ticker outside the symbol table makes the fetcher fail with a
    [KeyError], an exception of the [LookupError] class, before any network
    request is made (the trace is empty); for a ticker of the table the
    lookup returns its URL and the fetcher goes on to request it. *)
Theorem C6_unknown_ticker_lookup_error (w : World) (ticker granularity : string) :
  (get_url_dict !! ticker = None ->
   exists e, fetch_stock_data w ticker granularity = ([], Raise e)
             /\ is_LookupError e = true) /\
  (forall url, get_url_dict !! ticker = Some url ->
   dict_get get_url_dict ticker = Ok url /\
   exists tr r, fetch_stock_data w ticker granularity
                = (HttpGet (download_url url) :: tr, r)).
Proof.
  split.
  - intros H. exists KeyError. split; [|reflexivity].
    now apply fetch_unknown_ticker.
  - intros url H. split.
    + unfold dict_get. now rewrite H.
    + now apply fetch_known_ticker.
Qed.

Lemma C6_witness :
  (exists e, fetch_stock_data (world_of raw_2026) "MSFT" "Daily" = ([], Raise e)
             /\ is_LookupError e = true) /\
  (dict_get get_url_dict "TSLA" = Ok tsla_url /\
   exists tr r, fetch_stock_data (world_of raw_2026) "TSLA" "Daily"
                = (HttpGet (download_url tsla_url) :: tr, r)).
Proof.
  split.
  - apply (C6_unknown_ticker_lookup_error (world_of raw_2026) "MSFT" "Daily").
    reflexivity.
  - apply (C6_unknown_ticker_lookup_error (world_of raw_2026) "TSLA" "Daily").
    reflexivity.
Defined.

(** ** Strategy sizing *)

Lemma buys_app (a b : list order) : buys (a ++ b) = buys a ++ buys b.
Proof.
  induction a as [|[|n] a IH]; cbn; [reflexivity|assumption|now rewrite IH].
Qed.

(** [math.floor] of a finite double is the floor of the real number it
    stands for. *)
Lemma math_floor_exact (x : float) (q : Q) :
  real_value x = Some q -> math_floor x = Ok (Qfloor q).
Proof.
  unfold real_value, math_floor.
  destruct (FloatOps.Prim2SF x) as [s|s| |s m e]; try discriminate.
  - intros [= <-]. reflexivity.
  - destruct (0 <=? e) eqn:E; intros [= <-]; f_equal; cbn [Qfloor inject_Z].
    + now rewrite Z.div_1_r.
    + apply Z.leb_gt in E. rewrite Z2Pos.id; [reflexivity|].
      apply Z.pow_pos_nonneg; lia.
Qed.

Lemma math_floor_not_finite (x : float) :
  real_value x = None ->
  math_floor x = Raise OverflowError \/ math_floor x = Raise ValueError.
Proof.
  unfold real_value, math_floor.
  destruct (FloatOps.Prim2SF x) as [s|s| |s m e]; try discriminate; auto.
Qed.

(** C2, as amended. On a bar with close price [P] and notional [M], the
    quotient the code floors is the double-precision quotient [M / P].
    When it is finite and stands for the real number [q], [next] places a
    buy order of exactly [floor q] shares when that number is at least one,
    and no buy order otherwise. When it is an infinity or a NaN (a zero
    price, a price so small that the quotient overflows) [next] raises
    [OverflowError] or [ValueError] and no order is placed. *)
Theorem C2_whole_share_sizing (M P : float) (position : bool) :
  (forall q, real_value (M / P)%float = Some q ->
     exists orders,
       next M position P = Ok orders /\
       (1 <= Qfloor q -> buys orders = [Qfloor q]) /\
       (Qfloor q < 1 -> buys orders = [])) /\
  (real_value (M / P)%float = None ->
     next M position P = Raise OverflowError \/
     next M position P = Raise ValueError).
Proof.
  split.
  - intros q Hq. unfold next, floor_div. rewrite (math_floor_exact _ _ Hq).
    cbn [rbind]. eexists. split; [reflexivity|].
    rewrite buys_app.
    assert (Hc : buys (if position then [ClosePosition] else []) = [])
      by (destruct position; reflexivity).
    rewrite Hc. cbn [app].
    split; intros Hn.
    + apply Z.leb_le in Hn. now rewrite Hn.
    + apply Z.leb_gt in Hn. now rewrite Hn.
  - intros Hq. unfold next, floor_div.
    destruct (math_floor_not_finite _ Hq) as [-> | ->]; cbn [rbind]; auto.
Qed.

Lemma C2_witness :
  exists orders, next 10000 true 300 = Ok orders /\ buys orders = [33].
Proof.
  edestruct (proj1 (C2_whole_share_sizing 10000 300 true))
    as (orders & Hnext & Hbuy & _).
  - vm_compute. reflexivity.
  - exists orders. split; [exact Hnext|]. apply Hbuy. vm_compute. discriminate.
Defined.

(** The claim C2 as stated fails when [floor (M / P)] is read on real
    numbers. The double nearest to 3333.3333333333335 is a price [p] with
    [3 * p > 10000]: the real quotient [10000 / p] lies below 3 and its
    floor is 2, but the double-precision quotient rounds to 3 and [next]
    buys 3 shares, for more than the notional. And the smallest positive
    double as price makes the quotient overflow: [next] raises and opens
    nothing, although the price is positive. *)
Lemma C2_counterexample :
  exists m p,
    real_value 10000 = Some m /\ real_value 0x1.a0aaaaaaaaaabp+11 = Some p /\
    Qfloor (m / p) = 2 /\ (m < inject_Z 3 * p)%Q /\
    next 10000 false 0x1.a0aaaaaaaaaabp+11 = Ok [Buy 3] /\
    next 10000 false 0x0.0000000000001p-1022 = Raise OverflowError.
Proof.
  eexists. eexists.
  split; [vm_compute; reflexivity|]. split; [vm_compute; reflexivity|].
  split; [vm_compute; reflexivity|]. split; [vm_compute; reflexivity|].
  split; vm_compute; reflexivity.
Qed.

(** ** The date-range filter *)

Lemma start_date_ok (now years start : Z) :
  start_date now years = Ok start <->
  Z.abs (365 * years) <= 999999999 /\
  datetime_min <= now - 365 * years * ns_per_day <= datetime_max /\
  start = now - 365 * years * ns_per_day.
Proof.
  unfold start_date, timedelta_days, datetime_sub. cbn.
  destruct (Z.abs (365 * years) <=? 999999999) eqn:E1; cbn.
  - apply Z.leb_le in E1.
    destruct (datetime_min <=? now - 365 * years * ns_per_day) eqn:E2; cbn.
    + apply Z.leb_le in E2.
      destruct (now - 365 * years * ns_per_day <=? datetime_max) eqn:E3; cbn.
      * apply Z.leb_le in E3. split; [intros [= <-]; lia|].
        intros (_ & _ & ->). reflexivity.
      * apply Z.leb_gt in E3. split; [discriminate|lia].
    + apply Z.leb_gt in E2. split; [discriminate|lia].
  - apply Z.leb_gt in E1. split; [discriminate|lia].
Qed.

Lemma filter_since_In (start : Z) (df : DataFrame) (r : Row) :
  In r (rows (filter_since start df)) <-> In r (rows df) /\ start <= Date r.
Proof.
  unfold filter_since. cbn. rewrite filter_In, Z.leb_le. reflexivity.
Qed.

Lemma has_column_In (df : DataFrame) (name : string) :
  has_column df name = true <-> In name (columns df).
Proof.
  unfold has_column. rewrite existsb_exists. split.
  - intros (c & Hc & E). apply String.eqb_eq in E. now subst.
  - intros H. exists name. split; [assumption|apply String.eqb_refl].
Qed.

Lemma check_columns_ok (required : list string) (df : DataFrame) :
  (forall c, In c required -> In c (columns df)) ->
  check_columns required df = Ok tt.
Proof.
  induction required as [|c rest IH]; cbn; intros H; [reflexivity|].
  assert (Hc : has_column df c = true) by (apply has_column_In, H; auto).
  rewrite Hc. apply IH. intros c' Hc'. apply H. auto.
Qed.

Lemma get_data_ok w ticker granularity years tr df start :
  fetch_stock_data w ticker granularity = (tr, Ok df) ->
  start_date (now w) years = Ok start ->
  (forall c, In c required_columns -> In c (columns df)) ->
  get_data_for_backtesting w ticker granularity years
  = (tr, Ok (filter_since start df)).
Proof.
  intros Hf Hs Hc. unfold get_data_for_backtesting. rewrite Hf.
  cbn -[check_columns required_columns start_date filter_since].
  rewrite Hs. cbn -[check_columns required_columns filter_since].
  rewrite check_columns_ok by exact Hc. cbn -[filter_since].
  now rewrite app_nil_r.
Qed.

Lemma start_date_overflow (now years : Z) :
  ~ (Z.abs (365 * years) <= 999999999 /\
     datetime_min <= now - 365 * years * ns_per_day <= datetime_max) ->
  start_date now years = Raise OverflowError.
Proof.
  intros H. destruct (start_date now years) as [start|e] eqn:E.
  - apply start_date_ok in E. tauto.
  - revert E. unfold start_date, timedelta_days, datetime_sub.
    destruct (Z.abs (365 * years) <=? 999999999); cbn [rbind];
      [|now intros [= <-]].
    destruct ((datetime_min <=? now - 365 * years * ns_per_day)
              && (now - 365 * years * ns_per_day <=? datetime_max));
      [discriminate|now intros [= <-]].
Qed.

(** C4, as amended. For a fetched series and a year count [Y]:
    when [now - 365 * Y days] is a datetime (at most 999999999 days, and
    the subtraction does not leave the years 1 to 9999), the filter retains
    a bar of the fetched series if and only if its date is at or after that
    cutoff, and the retained bars are what [get_data_for_backtesting]
    returns; for every other [Y] the subtraction raises [OverflowError] and
    nothing is returned. *)
Theorem C4_filter_retains_since_cutoff
    (w : World) (ticker granularity : string) (Y : Z)
    (tr : list event) (df : DataFrame) :
  fetch_stock_data w ticker granularity = (tr, Ok df) ->
  (Z.abs (365 * Y) <= 999999999 /\
   datetime_min <= now w - 365 * Y * ns_per_day <= datetime_max ->
   start_date (now w) Y = Ok (now w - 365 * Y * ns_per_day) /\
   (forall r, In r (rows (filter_since (now w - 365 * Y * ns_per_day) df))
              <-> In r (rows df) /\ now w - 365 * Y * ns_per_day <= Date r) /\
   ((forall c, In c required_columns -> In c (columns df)) ->
    get_data_for_backtesting w ticker granularity Y
    = (tr, Ok (filter_since (now w - 365 * Y * ns_per_day) df)))) /\
  (~ (Z.abs (365 * Y) <= 999999999 /\
      datetime_min <= now w - 365 * Y * ns_per_day <= datetime_max) ->
   get_data_for_backtesting w ticker granularity Y = (tr, Raise OverflowError)).
Proof.
  intros Hf. split.
  - intros Hrep.
    assert (Hs : start_date (now w) Y = Ok (now w - 365 * Y * ns_per_day))
      by (apply start_date_ok; tauto).
    split; [exact Hs|]. split; [intros r; apply filter_since_In|].
    intros Hc. now apply get_data_ok.
  - intros Hno. unfold get_data_for_backtesting. rewrite Hf.
    cbn -[check_columns required_columns start_date filter_since].
    rewrite (start_date_overflow _ _ Hno). cbn. now rewrite app_nil_r.
Qed.

Lemma C4_witness :
  get_data_for_backtesting (world_of raw_2026) "TSLA" "Daily" 1
  = ([HttpGet (download_url tsla_url);
      Print "The set level of Granularity is: D."],
     Ok (filter_since (1793750400 * 1000000000 - 365 * 1 * ns_per_day)
           (dropna (resample_last D (ffill raw_2026))))).
Proof.
  refine (proj2 (proj2 (proj1 (C4_filter_retains_since_cutoff (world_of raw_2026)
            "TSLA" "Daily" 1
            [HttpGet (download_url tsla_url);
             Print "The set level of Granularity is: D."]
            (dropna (resample_last D (ffill raw_2026))) _) _)) _).
  - vm_compute. reflexivity.
  - vm_compute. split; [discriminate|]. split; discriminate.
  - intros c Hc. vm_compute. cbn in Hc. tauto.
Defined.

(** The claim C4 as stated fails for a year count whose cutoff is no
    datetime: with the clock at 2026-11-04 and 3000 years, every fetched
    bar is at or after [now - 365 * 3000 days], yet no bar is retained:
    the subtraction raises [OverflowError]. *)
Lemma C4_counterexample :
  get_data_for_backtesting (world_of raw_2026) "TSLA" "Daily" 3000
  = ([HttpGet (download_url tsla_url);
      Print "The set level of Granularity is: D."], Raise OverflowError) /\
  exists df,
    snd (fetch_stock_data (world_of raw_2026) "TSLA" "Daily") = Ok df /\
    rows df <> [] /\
    Forall (fun r => now (world_of raw_2026) - 365 * 3000 * ns_per_day <= Date r) (rows df).
Proof.
  split; [vm_compute; reflexivity|].
  eexists. split; [vm_compute; reflexivity|].
  split; [discriminate|].
  repeat constructor; vm_compute; discriminate.
Qed.

(** C10, as amended. When the cutoff [now - 365 * Y days] is a datetime,
    every fetched bar lies before it and the frame has the columns Open,
    High, Low, Close and Volume, [get_data_for_backtesting] returns the
    empty series with the same columns and raises nothing: the column
    check passes on the empty frame. *)
Theorem C10_all_bars_before_cutoff_returns_empty
    (w : World) (ticker granularity : string) (Y : Z)
    (tr : list event) (df : DataFrame) (start : Z) :
  fetch_stock_data w ticker granularity = (tr, Ok df) ->
  start_date (now w) Y = Ok start ->
  (forall r, In r (rows df) -> Date r < start) ->
  (forall c, In c ["Open"; "High"; "Low"; "Close"; "Volume"] -> In c (columns df)) ->
  get_data_for_backtesting w ticker granularity Y
  = (tr, Ok (mkDF (columns df) [])).
Proof.
  intros Hf Hs Hbefore Hc.
  rewrite (get_data_ok _ _ _ _ _ _ _ Hf Hs Hc).
  unfold filter_since. do 3 f_equal.
  induction (rows df) as [|r l IH]; cbn; [reflexivity|].
  assert (Hr : (start <=? Date r) = false)
    by (apply Z.leb_gt, Hbefore; left; reflexivity).
  rewrite Hr. apply IH. intros r' Hr'. apply Hbefore. now right.
Qed.

Lemma C10_witness :
  get_data_for_backtesting (world_of raw_1970) "TSLA" "Daily" 5
  = ([HttpGet (download_url tsla_url);
      Print "The set level of Granularity is: D."],
     Ok (mkDF ohlcv [])).
Proof.
  refine (C10_all_bars_before_cutoff_returns_empty (world_of raw_1970)
            "TSLA" "Daily" 5 _ (dropna (resample_last D (ffill raw_1970)))
            (1793750400 * 1000000000 - 365 * 5 * ns_per_day) _ _ _ _).
  - vm_compute. reflexivity.
  - vm_compute. reflexivity.
  - intros r Hr. vm_compute in Hr.
    repeat (destruct Hr as [<-|Hr]; [vm_compute; reflexivity|]). destruct Hr.
  - intros c Hc. vm_compute. cbn in Hc. tauto.
Defined.

(** The claim C10 as stated fails when the cutoff is no datetime: with the
    clock at 2026-11-04 and a year count of -8000 the cutoff lies after the
    year 9999; every fetched bar lies before it and the frame has the five
    columns, yet the call raises [OverflowError] instead of returning an
    empty series. *)
Lemma C10_counterexample :
  get_data_for_backtesting (world_of raw_2026) "TSLA" "Daily" (-8000)
  = ([HttpGet (download_url tsla_url);
      Print "The set level of Granularity is: D."], Raise OverflowError) /\
  exists df,
    snd (fetch_stock_data (world_of raw_2026) "TSLA" "Daily") = Ok df /\
    columns df = ["Open"; "High"; "Low"; "Close"; "Volume"] /\
    Forall (fun r => Date r < now (world_of raw_2026) - 365 * (-8000) * ns_per_day) (rows df).
Proof.
  split; [vm_compute; reflexivity|].
  eexists. split; [vm_compute; reflexivity|].
  split; [reflexivity|].
  repeat constructor.
Qed.

(** ** The aggregator on a directory without run statistics *)

Lemma filter_none {A} (p : A -> bool) (l : list A) :
  Forall (fun x => p x = false) l -> List.filter p l = [].
Proof.
  induction 1 as [|x l Hx _ IH]; cbn; [reflexivity|]. now rewrite Hx.
Qed.

Lemma glob_stats_none (d : Disk) :
  Forall (fun f => stats_match f = false) (dir_files d) -> glob_stats d = [].
Proof.
  intros H. unfold glob_stats. destruct (dir_exists d); [|reflexivity].
  now apply filter_none.
Qed.

(** C7. When no file of the results directory matches [stats_*.csv], [main]
    prints that no result files were found and returns normally; its events
    contain no summary record and no plot. (When the directory itself is
    missing it is created, and two notices are printed instead.) *)
Theorem C7_no_stats_files_clean_exit (c : Config) (d : Disk) :
  Forall (fun f => stats_match f = false) (dir_files d) ->
  main c d
  = (if dir_exists d
     then [Print ("No result files found in " +:+ RESULTS_PATH c)]
     else [MakeDirs (RESULTS_PATH c);
           Print ("Created results directory: " +:+ RESULTS_PATH c);
           Print "No backtest results found. Run the backtest first."],
     Ok tt)
  /\ Forall (fun e => is_output e = false) (fst (main c d)).
Proof.
  intros H.
  assert (E : main c d
    = (if dir_exists d
       then [Print ("No result files found in " +:+ RESULTS_PATH c)]
       else [MakeDirs (RESULTS_PATH c);
             Print ("Created results directory: " +:+ RESULTS_PATH c);
             Print "No backtest results found. Run the backtest first."],
       Ok tt)).
  { unfold main, load_results. rewrite (glob_stats_none d H).
    destruct (dir_exists d); reflexivity. }
  split; [exact E|]. rewrite E.
  destruct (dir_exists d); cbn; repeat constructor.
Qed.

Lemma C7_witness :
  main config disk_no_stats
  = ([Print "No result files found in results/"], Ok tt)
  /\ Forall (fun e => is_output e = false) (fst (main config disk_no_stats)).
Proof.
  apply (C7_no_stats_files_clean_exit config disk_no_stats).
  repeat constructor.
Defined.

(** ** Concatenation of the run statistics *)

Lemma tindex_Some (c : string) (cols : list string) (j : nat) :
  tindex c cols = Some j -> (j < length cols)%nat /\ nth j cols EmptyString = c.
Proof.
  revert j. induction cols as [|x cols IH]; cbn; intros j H; [discriminate|].
  destruct (String.eqb x c) eqn:E.
  - injection H as <-. apply String.eqb_eq in E. split; [lia|assumption].
  - destruct (tindex c cols) as [i|]; [|discriminate].
    injection H as <-. destruct (IH i eq_refl). split; [lia|assumption].
Qed.

Lemma tindex_In (c : string) (cols : list string) :
  In c cols -> exists j, tindex c cols = Some j.
Proof.
  induction cols as [|x cols IH]; cbn; intros H; [contradiction|].
  destruct (String.eqb x c) eqn:E; [eauto|].
  destruct H as [->|H]; [rewrite String.eqb_refl in E; discriminate|].
  destruct (IH H) as [j ->]. cbn. eauto.
Qed.

Lemma tindex_None (c : string) (cols : list string) :
  tindex c cols = None -> ~ In c cols.
Proof.
  intros H Hin. destruct (tindex_In _ _ Hin) as [j Hj]. congruence.
Qed.

Lemma add_label_In (acc : list string) (c c' : string) :
  In c' (add_label acc c) <-> In c' acc \/ c' = c.
Proof.
  unfold add_label. destruct (existsb (String.eqb c) acc) eqn:E.
  - apply existsb_exists in E as (x & Hx & Ex). apply String.eqb_eq in Ex. subst x.
    split; [auto|]. intros [H| ->]; assumption.
  - rewrite in_app_iff. cbn. split; intros [H|H]; auto.
    + destruct H as [<-|[]]. auto.
Qed.

Lemma add_labels_In (cols acc : list string) (c : string) :
  In c (fold_left add_label cols acc) <-> In c acc \/ In c cols.
Proof.
  revert acc. induction cols as [|x cols IH]; cbn; intros acc; [tauto|].
  rewrite IH, add_label_In. split; intros H; intuition (subst; auto).
Qed.

Lemma union_columns_In_acc (dfs : list Table) (acc : list string) (c : string) :
  In c (fold_left (fun acc t => fold_left add_label (tcolumns t) acc) dfs acc)
  <-> In c acc \/ exists t, In t dfs /\ In c (tcolumns t).
Proof.
  revert acc. induction dfs as [|t dfs IH]; cbn; intros acc.
  - split; [auto|]. intros [H|(t & [] & _)]. assumption.
  - rewrite IH, add_labels_In. split.
    + intros [[H|H]|(t' & Ht' & Hc)]; eauto 6.
    + intros [H|(t' & [<-|Ht'] & Hc)]; eauto 6.
Qed.

Lemma union_columns_In (dfs : list Table) (c : string) :
  In c (union_columns dfs) <-> exists t, In t dfs /\ In c (tcolumns t).
Proof.
  unfold union_columns. rewrite union_columns_In_acc. cbn. tauto.
Qed.

Lemma reindex_cell (cols : list string) (t : Table) (r : list value) (c : string) :
  In c cols ->
  tcell cols (reindex cols t r) c = tcell (tcolumns t) r c.
Proof.
  intros Hc. unfold tcell at 1. destruct (tindex_In _ _ Hc) as [j Hj].
  rewrite Hj. destruct (tindex_Some _ _ _ Hj) as [Hlt Hnth].
  unfold reindex.
  rewrite (nth_indep _ VNaN
             (match tindex EmptyString (tcolumns t) with
              | Some j0 => nth j0 r VNaN
              | None => VNaN
              end)) by (rewrite length_map; exact Hlt).
  rewrite (map_nth (fun c0 => match tindex c0 (tcolumns t) with
                              | Some j0 => nth j0 r VNaN
                              | None => VNaN
                              end) cols EmptyString j).
  rewrite Hnth. reflexivity.
Qed.

Lemma tcell_absent (t : Table) (r : list value) (c : string) :
  has_label t c = false -> tcell (tcolumns t) r c = VNaN.
Proof.
  intros H. unfold tcell. destruct (tindex c (tcolumns t)) as [j|] eqn:E; [|reflexivity].
  destruct (tindex_Some _ _ _ E) as [Hlt Hnth].
  unfold has_label in H.
  assert (Hex : existsb (String.eqb c) (tcolumns t) = true).
  { apply existsb_exists. exists c. split; [|apply String.eqb_refl].
    rewrite <- Hnth. now apply nth_In. }
  congruence.
Qed.

(** The accumulated labels of [pd.concat] against the plain description:
    the labels in order of first appearance. *)
Lemma filter_filter {A} (p q : A -> bool) (l : list A) :
  List.filter p (List.filter q l) = List.filter (fun x => q x && p x) l.
Proof.
  induction l as [|x l IH]; cbn; [reflexivity|].
  destruct (q x); cbn; [destruct (p x); now rewrite IH|exact IH].
Qed.

Lemma filter_all {A} (p : A -> bool) (l : list A) :
  (forall x, In x l -> p x = true) -> List.filter p l = l.
Proof.
  induction l as [|x l IH]; cbn; intros H; [reflexivity|].
  rewrite (H x (or_introl eq_refl)). f_equal. apply IH. auto.
Qed.

Lemma add_labels_first_appearances (l acc : list string) :
  fold_left add_label l acc
  = acc ++ List.filter (fun x => negb (existsb (String.eqb x) acc))
             (first_appearances l).
Proof.
  revert acc. induction l as [|c l IH]; intros acc; cbn [fold_left first_appearances].
  - cbn. now rewrite app_nil_r.
  - rewrite IH. unfold add_label. cbn [List.filter].
    destruct (existsb (String.eqb c) acc) eqn:E; cbn [negb].
    + f_equal. rewrite filter_filter. apply filter_ext. intros x.
      destruct (String.eqb x c) eqn:Ex; cbn [negb andb]; [|reflexivity].
      apply String.eqb_eq in Ex. subst x. now rewrite E.
    + rewrite <- app_assoc. cbn [app]. do 2 f_equal.
      rewrite filter_filter. apply filter_ext. intros x.
      rewrite existsb_app. cbn [existsb]. rewrite orb_false_r, negb_orb.
      apply andb_comm.
Qed.

Lemma union_columns_flat (dfs : list Table) (acc : list string) :
  fold_left (fun acc t => fold_left add_label (tcolumns t) acc) dfs acc
  = fold_left add_label (flat_map tcolumns dfs) acc.
Proof.
  revert acc. induction dfs as [|t dfs IH]; intros acc; cbn; [reflexivity|].
  now rewrite IH, fold_left_app.
Qed.

Lemma union_columns_first_appearances (dfs : list Table) :
  union_columns dfs = first_appearances (all_labels dfs).
Proof.
  unfold union_columns, all_labels.
  rewrite union_columns_flat, add_labels_first_appearances. cbn [app].
  now apply filter_all.
Qed.

Lemma first_appearances_In (l : list string) (c : string) :
  In c (first_appearances l) -> In c l.
Proof.
  induction l as [|x l IH]; cbn; [auto|].
  intros [->|H]; [now left|]. apply filter_In in H as [H _]. right. now apply IH.
Qed.

Lemma first_appearances_NoDup (l : list string) : List.NoDup (first_appearances l).
Proof.
  induction l as [|c l IH]; cbn [first_appearances]; constructor.
  - intros H. apply filter_In in H as [_ H]. now rewrite String.eqb_refl in H.
  - now apply List.NoDup_filter.
Qed.

Lemma concat_records (cols : list string) (dfs : list Table) :
  List.Forall2
    (fun out src =>
       length out = length cols /\
       forall c, In c cols ->
         tcell cols out c
         = if has_label (fst src) c then tcell (tcolumns (fst src)) (snd src) c
           else VNaN)
    (flat_map (fun t => map (reindex cols t) (trows t)) dfs)
    (records dfs).
Proof.
  unfold records. induction dfs as [|t dfs IH]; cbn [flat_map]; [constructor|].
  apply Forall2_app; [|exact IH].
  induction (trows t) as [|r rs IHr]; cbn [map]; constructor; [|exact IHr].
  cbn [fst snd]. split; [unfold reindex; apply length_map|].
  intros c Hc. rewrite reindex_cell by exact Hc.
  destruct (has_label t c) eqn:E; [reflexivity|now apply tcell_absent].
Qed.

(** C3, as amended. Whatever the column sets of the run files, once each
    file loads, [load_results] raises nothing and returns one combined
    table. Its columns are the union of the files' columns in order of
    first appearance, each label once. Its records are the records of the
    files, file after file: each has one cell per column of the combined
    table, keeps its value under every label of its own file and holds a
    missing value under the labels its file lacks. *)
Theorem C3_concat_unions_columns
    (d : Disk) (results_dir : string) (dfs : list Table) :
  glob_stats d <> [] ->
  load_files d (glob_stats d) = Ok dfs ->
  exists all,
    load_results d results_dir = ([], Ok (Some all)) /\
    tcolumns all = first_appearances (all_labels dfs) /\
    List.NoDup (tcolumns all) /\
    (forall c, In c (tcolumns all) <-> exists t, In t dfs /\ In c (tcolumns t)) /\
    List.Forall2
      (fun out src =>
         length out = length (tcolumns all) /\
         forall c, In c (tcolumns all) ->
           tcell (tcolumns all) out c
           = if has_label (fst src) c then tcell (tcolumns (fst src)) (snd src) c
             else VNaN)
      (trows all) (records dfs).
Proof.
  intros Hne Hload. exists (concat dfs). split; [|split; [|split; [|split]]].
  - unfold load_results. destruct (glob_stats d) as [|f fs]; [contradiction|].
    rewrite Hload. reflexivity.
  - apply union_columns_first_appearances.
  - cbn [concat tcolumns]. rewrite union_columns_first_appearances.
    apply first_appearances_NoDup.
  - intros c. apply union_columns_In.
  - apply concat_records.
Qed.

Lemma C3_witness :
  exists all,
    load_results disk_mismatch "results/" = ([], Ok (Some all)) /\
    tcolumns all
    = ["Return [%]"; "Sharpe Ratio"; "filename"; "timestamp"; "# Trades"].
Proof.
  destruct (C3_concat_unions_columns disk_mismatch "results/"
              [tset (tset run_a "filename" (VStr "stats_20240101_120000.csv"))
                    "timestamp" (VTime 1704110400000000000);
               tset (tset run_b "filename" (VStr "stats_20240102_120000.csv"))
                    "timestamp" (VTime 1704196800000000000)])
    as (all & Hload & Hcols & _).
  - discriminate.
  - vm_compute. reflexivity.
  - exists all. split; [exact Hload|]. rewrite Hcols. vm_compute. reflexivity.
Defined.

(** The claim C3 as stated fails: two run files whose column sets differ
    ("Sharpe Ratio" only in the first, "# Trades" only in the second) are
    combined into one table without any error, the gaps filled with
    missing values. *)
Lemma C3_counterexample :
  tcolumns run_a <> tcolumns run_b /\
  load_results disk_mismatch "results/"
  = ([], Ok (Some
       {| tcolumns := ["Return [%]"; "Sharpe Ratio"; "filename"; "timestamp"; "# Trades"];
          trows :=
            [[VNum 5; VNum 0.5; VStr "stats_20240101_120000.csv";
              VTime 1704110400000000000; VNaN];
             [VNum 7; VNaN; VStr "stats_20240102_120000.csv";
              VTime 1704196800000000000; VNum 9]] |})).
Proof.
  split; [discriminate|]. vm_compute. reflexivity.
Qed.

(** ** Calendar facts *)

Ltac zdiv := Z.div_mod_to_equations; lia.

Lemma day_of_midnight (d : Z) : day_of (d * ns_per_day) = d.
Proof. unfold day_of. apply Z.div_mul. discriminate. Qed.

Lemma day_of_mono (t1 t2 : Z) : t1 <= t2 -> day_of t1 <= day_of t2.
Proof. intros H. unfold day_of. apply Z.div_le_mono; [reflexivity|assumption]. Qed.

Lemma year_start_split (era c q a : Z) :
  0 <= c <= 3 -> 0 <= q <= 24 -> 0 <= a <= 3 ->
  year_start (400 * era + 100 * c + 4 * q + a)
  = 146097 * era + 36524 * c + 1461 * q + 365 * a.
Proof. intros. unfold year_start. zdiv. Qed.

Lemma month_start_step (k : Z) :
  month_start k + 28 <= month_start (k + 1) <= month_start k + 31.
Proof. unfold month_start, year_start. zdiv. Qed.

Lemma month_start_lt_nat (k : Z) (n : nat) :
  month_start k < month_start (k + 1 + Z.of_nat n).
Proof.
  induction n as [|n IH].
  - replace (k + 1 + Z.of_nat 0) with (k + 1) by lia.
    pose proof (month_start_step k). lia.
  - replace (k + 1 + Z.of_nat (S n)) with (k + 1 + Z.of_nat n + 1) by lia.
    pose proof (month_start_step (k + 1 + Z.of_nat n)). lia.
Qed.

Lemma month_start_lt (k1 k2 : Z) : k1 < k2 -> month_start k1 < month_start k2.
Proof.
  intros H. replace k2 with (k1 + 1 + Z.of_nat (Z.to_nat (k2 - k1 - 1))) by lia.
  apply month_start_lt_nat.
Qed.

Lemma month_start_le (k1 k2 : Z) : k1 <= k2 -> month_start k1 <= month_start k2.
Proof.
  intros H. destruct (Z.eq_dec k1 k2) as [->|Hne]; [lia|].
  apply Z.lt_le_incl, month_start_lt. lia.
Qed.

(** Day [d] lies in the month [month_index d]. *)
Lemma month_index_spec (d : Z) :
  month_start (month_index d) <= d < month_start (month_index d + 1).
Proof.
  unfold month_index.
  set (z := d + 719468).
  set (era := z / 146097). set (doe := z mod 146097).
  assert (Hz : z = 146097 * era + doe) by (subst era doe; zdiv).
  assert (Hdoe : 0 <= doe < 146097) by (subst doe; zdiv).
  clearbody era doe.
  set (c := Z.min 3 (doe / 36524)).
  assert (Hc : 0 <= c <= 3 /\ 0 <= doe - 36524 * c /\
               (doe - 36524 * c < 36524 \/ c = 3 /\ doe - 36524 * c = 36524))
    by (subst c; zdiv).
  clearbody c. set (doc := doe - 36524 * c) in *.
  assert (Hdoc : doe = doc + 36524 * c) by (subst doc; lia). clearbody doc.
  set (q := doc / 1461). set (doq := doc mod 1461).
  assert (Hq : doc = 1461 * q + doq /\ 0 <= doq < 1461 /\ 0 <= q <= 24)
    by (subst q doq; zdiv).
  clearbody q doq.
  set (a := Z.min 3 (doq / 365)).
  assert (Ha : 0 <= a <= 3 /\ 0 <= doq - 365 * a /\
               (doq - 365 * a < 365 \/ a = 3 /\ doq = 1460))
    by (subst a; zdiv).
  clearbody a. set (doy := doq - 365 * a) in *.
  assert (Hdoy : doq = doy + 365 * a) by (subst doy; lia). clearbody doy.
  set (y := 400 * era + 100 * c + 4 * q + a).
  set (mp := (5 * doy + 2) / 153).
  assert (Hmp : 0 <= mp <= 11 /\ (153 * mp + 2) / 5 <= doy /\
                (mp < 11 -> doy < (153 * (mp + 1) + 2) / 5))
    by (subst mp; zdiv).
  clearbody mp.
  assert (Hys : year_start y = 146097 * era + 36524 * c + 1461 * q + 365 * a)
    by (apply year_start_split; lia).
  unfold month_start.
  replace ((12 * y + mp) / 12) with y by zdiv.
  replace ((12 * y + mp) mod 12) with mp by zdiv.
  split; [lia|].
  destruct (Z.eq_dec mp 11) as [->|Hne].
  - replace ((12 * y + 11 + 1) / 12) with (y + 1) by zdiv.
    replace ((12 * y + 11 + 1) mod 12) with 0 by zdiv.
    change ((153 * 0 + 2) / 5) with 0.
    destruct (Z.eq_dec a 3) as [->|Ha3].
    + destruct (Z.eq_dec q 24) as [->|Hq24].
      * destruct (Z.eq_dec c 3) as [->|Hc3].
        -- replace (y + 1) with (400 * (era + 1) + 100 * 0 + 4 * 0 + 0)
             by (subst y; lia).
           rewrite year_start_split by lia. lia.
        -- replace (y + 1) with (400 * era + 100 * (c + 1) + 4 * 0 + 0)
             by (subst y; lia).
           rewrite year_start_split by lia. lia.
      * replace (y + 1) with (400 * era + 100 * c + 4 * (q + 1) + 0)
          by (subst y; lia).
        rewrite year_start_split by lia. lia.
    + replace (y + 1) with (400 * era + 100 * c + 4 * q + (a + 1))
        by (subst y; lia).
      rewrite year_start_split by lia. lia.
  - replace ((12 * y + mp + 1) / 12) with y by zdiv.
    replace ((12 * y + mp + 1) mod 12) with (mp + 1) by zdiv.
    lia.
Qed.

Lemma month_index_unique (d k : Z) :
  month_start k <= d < month_start (k + 1) -> month_index d = k.
Proof.
  intros H. pose proof (month_index_spec d) as S.
  destruct (Z.lt_trichotomy (month_index d) k) as [L|[E|G]]; [|assumption|].
  - pose proof (month_start_le (month_index d + 1) k ltac:(lia)). lia.
  - pose proof (month_start_le (k + 1) (month_index d) ltac:(lia)). lia.
Qed.

Lemma month_index_mono (d1 d2 : Z) : d1 <= d2 -> month_index d1 <= month_index d2.
Proof.
  intros H. pose proof (month_index_spec d1) as S1.
  pose proof (month_index_spec d2) as S2.
  destruct (Z_le_gt_dec (month_index d1) (month_index d2)) as [L|G]; [assumption|].
  pose proof (month_start_le (month_index d2 + 1) (month_index d1) ltac:(lia)). lia.
Qed.

(** Later timestamps fall in later (or the same) buckets. *)
Lemma bucket_of_mono (f : freq) (t1 t2 : Z) :
  t1 <= t2 -> bucket_of f t1 <= bucket_of f t2.
Proof.
  intros H. apply day_of_mono in H. destruct f; cbn.
  - assumption.
  - apply Z.div_le_mono; lia.
  - now apply month_index_mono.
Qed.

(** Later buckets carry later labels. *)
Lemma bucket_label_lt (f : freq) (k1 k2 : Z) :
  k1 < k2 -> bucket_label f k1 < bucket_label f k2.
Proof.
  intros H. assert (Hd : 0 < ns_per_day) by reflexivity.
  destruct f; cbn.
  - nia.
  - nia.
  - pose proof (month_start_lt (k1 + 1) (k2 + 1) ltac:(lia)). nia.
Qed.

(** The label of a bucket is a timestamp of that bucket. *)
Lemma bucket_of_label (f : freq) (k : Z) : bucket_of f (bucket_label f k) = k.
Proof.
  destruct f; cbn; rewrite day_of_midnight.
  - reflexivity.
  - zdiv.
  - apply month_index_unique. pose proof (month_start_step k). lia.
Qed.

(** ** Order of the dates *)

Lemma strictly_increasing_NoDup (l : list Z) : strictly_increasing l -> List.NoDup l.
Proof.
  induction 1 as [|x l Hs IH Hx]; constructor; [|assumption].
  intros Hin. rewrite List.Forall_forall in Hx. specialize (Hx x Hin). lia.
Qed.

Lemma strictly_increasing_filter (p : Row -> bool) (l : list Row) :
  strictly_increasing (map Date l) ->
  strictly_increasing (map Date (List.filter p l)).
Proof.
  unfold strictly_increasing. induction l as [|r l IH]; cbn; intros H; [constructor|].
  apply StronglySorted_inv in H as [Hs Hr].
  destruct (p r); cbn; [|now apply IH].
  constructor; [now apply IH|].
  rewrite List.Forall_forall in *. intros d Hd. apply Hr.
  apply in_map_iff in Hd as (r' & <- & Hr').
  apply filter_In in Hr' as [Hr' _]. now apply in_map.
Qed.

Lemma Zrange_from_sorted (g : Z -> Z) (lo : Z) (n s : nat) :
  (forall a b, a < b -> g a < g b) ->
  strictly_increasing (map g (map (fun i => lo + Z.of_nat i) (seq s n))).
Proof.
  intros Hg. revert s. induction n as [|n IH]; intros s; cbn; constructor.
  - apply IH.
  - rewrite List.Forall_forall. intros d Hd.
    apply in_map_iff in Hd as (k & <- & Hk).
    apply in_map_iff in Hk as (i & <- & Hi).
    apply in_seq in Hi. apply Hg. lia.
Qed.

Lemma Zrange_In (lo hi k : Z) : In k (Zrange lo hi) <-> lo <= k <= hi.
Proof.
  unfold Zrange. rewrite in_map_iff. split.
  - intros (i & <- & Hi). apply in_seq in Hi. lia.
  - intros H. exists (Z.to_nat (k - lo)). split; [lia|]. apply in_seq. lia.
Qed.

Lemma Zrange_NoDup (lo hi : Z) : List.NoDup (Zrange lo hi).
Proof.
  apply strictly_increasing_NoDup.
  rewrite <- (map_id (Zrange lo hi)). unfold Zrange.
  apply (Zrange_from_sorted (fun x => x)). auto.
Qed.

Lemma resample_last_dates (f : freq) (df : DataFrame) :
  strictly_increasing (dates (resample_last f df)).
Proof.
  unfold resample_last, dates.
  destruct (sort_by_date (rows df)) as [|first rest]; cbn [rows]; [constructor|].
  rewrite map_map. cbn [Date].
  rewrite <- (map_map (fun k => k) (bucket_label f)), map_id.
  unfold Zrange. apply Zrange_from_sorted. apply bucket_label_lt.
Qed.

Lemma dropna_ordered (df : DataFrame) :
  strictly_increasing (dates df) -> ordered_dates (dropna df).
Proof.
  intros H.
  assert (S : strictly_increasing (dates (dropna df)))
    by (apply strictly_increasing_filter; exact H).
  split; [exact S|now apply strictly_increasing_NoDup].
Qed.

Lemma filter_since_ordered (start : Z) (df : DataFrame) :
  strictly_increasing (dates df) -> ordered_dates (filter_since start df).
Proof.
  intros H.
  assert (S : strictly_increasing (dates (filter_since start df)))
    by (apply strictly_increasing_filter; exact H).
  split; [exact S|now apply strictly_increasing_NoDup].
Qed.

Lemma roll_fill_length (p : Z) (col : list cell) : length (roll_fill p col) = length col.
Proof.
  unfold roll_fill. cbv zeta. destruct (0 <=? p).
  - rewrite length_app, length_firstn, repeat_length. unfold cell. lia.
  - rewrite length_app, length_skipn, repeat_length. unfold cell. lia.
Qed.

Lemma roll_fill_zero (col : list cell) : roll_fill 0 col = col.
Proof.
  unfold roll_fill. cbv zeta.
  replace (Z.to_nat (Z.min (Z.abs 0) (Z.of_nat (length col)))) with O by lia.
  cbn [Z.leb Z.compare repeat app]. rewrite Nat.sub_0_r. apply firstn_all.
Qed.

Lemma roll_fill_nil (p : Z) : roll_fill p [] = [].
Proof.
  unfold roll_fill. cbv zeta. cbn [length].
  replace (Z.to_nat (Z.min (Z.abs p) (Z.of_nat 0))) with O by lia.
  now destruct (0 <=? p).
Qed.

(** When [shift] succeeds its result is the rolled column. *)
Lemma shift_ok (p : Z) (col out : list cell) :
  shift p col = Ok out -> out = roll_fill p col.
Proof.
  unfold shift. destruct (p =? 0) eqn:Ep; cbn [orb].
  - apply Z.eqb_eq in Ep. subst p. intros [= <-]. now rewrite roll_fill_zero.
  - destruct (length col =? 0)%nat eqn:El.
    + apply Nat.eqb_eq in El. destruct col; [|discriminate El].
      intros [= <-]. now rewrite roll_fill_nil.
    + destruct (fits_intp p); [|discriminate]. now intros [= <-].
Qed.

Lemma shift_fits (p : Z) (col : list cell) :
  fits_intp p = true -> shift p col = Ok (roll_fill p col).
Proof.
  intros H. unfold shift. rewrite H.
  destruct ((p =? 0) || (length col =? 0)%nat) eqn:E; [|reflexivity].
  destruct (shift p col) as [out|e] eqn:Es.
  - unfold shift in Es. rewrite E in Es. injection Es as <-.
    f_equal. apply shift_ok. unfold shift. now rewrite E.
  - unfold shift in Es. rewrite E in Es. discriminate Es.
Qed.

Lemma shift_overflow (p : Z) (col : list cell) :
  col <> [] -> fits_intp p = false -> shift p col = Raise OverflowError.
Proof.
  intros Hne H. unfold shift. rewrite H.
  assert (Ep : (p =? 0) = false).
  { apply Z.eqb_neq. intros ->. discriminate H. }
  rewrite Ep. destruct col; [contradiction|reflexivity].
Qed.

Lemma column_at_length (j : nat) (rs : list Row) :
  length (column_at j rs) = length rs.
Proof. unfold column_at. apply length_map. Qed.

Lemma set_column_dates (df : DataFrame) (name : string) (col : list cell) :
  length col = length (rows df) ->
  dates (set_column df name col) = dates df.
Proof.
  unfold dates, set_column. cbn [rows]. generalize (index_of name (columns df)).
  intros j. revert col. induction (rows df) as [|r l IH]; intros [|c col] H;
    try discriminate; [reflexivity|].
  cbn. f_equal; [destruct j; reflexivity|]. apply IH. cbn in H. lia.
Qed.

Lemma set_column_length (df : DataFrame) (name : string) (col : list cell) :
  length col = length (rows df) ->
  length (rows (set_column df name col)) = length (rows df).
Proof.
  intros H. unfold set_column. cbn [rows].
  rewrite length_map, length_combine. lia.
Qed.

Lemma get_column_length (df : DataFrame) (name : string) (col : list cell) :
  get_column df name = Ok col -> length col = length (rows df).
Proof.
  unfold get_column. destruct (index_of name (columns df)); [|discriminate].
  intros [= <-]. apply column_at_length.
Qed.

Lemma add_lag_columns_dates (indices : list nat) (gap : Z) (df pre : DataFrame) :
  add_lag_columns indices gap df = Ok pre -> dates pre = dates df.
Proof.
  revert df. induction indices as [|i rest IH]; cbn; intros df H.
  - now injection H as <-.
  - destruct (get_column df "Close") as [close|e] eqn:E; [|discriminate].
    cbn [rbind] in H.
    destruct (shift (Z.of_nat i * gap) close) as [lag|e] eqn:Es; [|discriminate].
    cbn [rbind] in H. apply shift_ok in Es. subst lag.
    rewrite (IH _ H). apply set_column_dates.
    rewrite roll_fill_length. now apply get_column_length in E.
Qed.

Lemma add_lags_ordered (df out : DataFrame) (K G : Z) :
  strictly_increasing (dates df) ->
  add_lags df K G = Ok out -> ordered_dates out.
Proof.
  intros Hs H. unfold add_lags in H.
  destruct (add_lag_columns (seq 1 (Z.to_nat K)) G df) as [pre|e] eqn:E;
    [|discriminate].
  cbn in H. injection H as <-. apply dropna_ordered.
  now rewrite (add_lag_columns_dates _ _ _ _ E).
Qed.

Lemma fetch_resampled_inv w ticker granularity f tr df :
  granularity_freq granularity = Ok f ->
  fetch_stock_data w ticker granularity = (tr, Ok df) ->
  exists raw, df = dropna (resample_last f (ffill raw)).
Proof.
  intros Hf. unfold fetch_stock_data, requests_get.
  destruct (dict_get get_url_dict ticker) as [url|e]; cbn; [|discriminate].
  destruct (http_get w (download_url url)) as [resp|e]; cbn; [|discriminate].
  destruct (raise_for_status resp) as [[]|e]; cbn; [|discriminate].
  destruct (read_csv w (text resp)) as [raw|e]; cbn; [|discriminate].
  rewrite (granularity_freq_not_minute _ _ Hf), Hf. cbn.
  intros [= _ <-]. now exists raw.
Qed.

(** C8. In the series the fetcher returns for Daily, Weekly or Monthly
    granularity (the result of resampling and [dropna]) the dates increase
    strictly and none occurs twice; the same holds after the date filter,
    after lag augmentation, and after the filter applied to the augmented
    series. *)
Theorem C8_dates_strictly_increasing
    (w : World) (ticker granularity : string) (f : freq)
    (tr : list event) (df : DataFrame) :
  granularity_freq granularity = Ok f ->
  fetch_stock_data w ticker granularity = (tr, Ok df) ->
  ordered_dates df /\
  (forall start, ordered_dates (filter_since start df)) /\
  (forall K G out, add_lags df K G = Ok out ->
     ordered_dates out /\ forall start, ordered_dates (filter_since start out)).
Proof.
  intros Hf Hfetch.
  destruct (fetch_resampled_inv _ _ _ _ _ _ Hf Hfetch) as [raw ->].
  assert (H : ordered_dates (dropna (resample_last f (ffill raw))))
    by apply dropna_ordered, resample_last_dates.
  split; [exact H|]. split.
  - intros start. apply filter_since_ordered, H.
  - intros K G out Hout.
    assert (Ho : ordered_dates out) by (eapply add_lags_ordered; [apply H|exact Hout]).
    split; [exact Ho|]. intros start. apply filter_since_ordered, Ho.
Qed.

Lemma C8_witness :
  ordered_dates (dropna (resample_last W (ffill raw_1970))).
Proof.
  refine (proj1 (C8_dates_strictly_increasing (world_of raw_1970) "TSLA" "Weekly" W
            [HttpGet (download_url tsla_url);
             Print "The set level of Granularity is: W."]
            (dropna (resample_last W (ffill raw_1970))) _ _)).
  - reflexivity.
  - vm_compute. reflexivity.
Defined.

(** ** Columns of a price frame *)

Lemma decimal_inj (i j : nat) : decimal i = decimal j -> i = j.
Proof.
  unfold decimal. intros H.
  apply Unsigned.to_uint_inj.
  pose proof (NilEmpty.usu (Nat.to_uint i)) as Hi.
  pose proof (NilEmpty.usu (Nat.to_uint j)) as Hj.
  rewrite H in Hi. congruence.
Qed.

Lemma lag_name_inj (i j : nat) : lag_name i = lag_name j -> i = j.
Proof. unfold lag_name. cbn. intros [= H]. now apply decimal_inj. Qed.

Lemma lag_name_not_close (i : nat) : lag_name i <> "Close".
Proof. unfold lag_name. cbn. discriminate. Qed.

Lemma index_of_Some (name : string) (cols : list string) (j : nat) :
  index_of name cols = Some j ->
  (j < length cols)%nat /\ nth j cols EmptyString = name.
Proof.
  revert j. induction cols as [|x cols IH]; cbn; intros j H; [discriminate|].
  destruct (String.eqb x name) eqn:E.
  - injection H as <-. apply String.eqb_eq in E. split; [lia|assumption].
  - destruct (index_of name cols) as [i|]; [|discriminate].
    injection H as <-. destruct (IH i eq_refl). split; [lia|assumption].
Qed.

Lemma index_of_In (name : string) (cols : list string) :
  In name cols -> exists j, index_of name cols = Some j.
Proof.
  induction cols as [|x cols IH]; cbn; intros H; [contradiction|].
  destruct (String.eqb x name) eqn:E; [eauto|].
  destruct H as [->|H]; [rewrite String.eqb_refl in E; discriminate|].
  destruct (IH H) as [j ->]. cbn. eauto.
Qed.

Lemma index_of_app_Some (name : string) (cols extra : list string) (j : nat) :
  index_of name cols = Some j -> index_of name (cols ++ extra) = Some j.
Proof.
  revert j. induction cols as [|x cols IH]; cbn; intros j H; [discriminate|].
  destruct (String.eqb x name); [assumption|].
  destruct (index_of name cols) as [i|]; [|discriminate].
  now rewrite (IH i eq_refl).
Qed.

Lemma index_of_app_None (name other : string) (cols : list string) :
  index_of name cols = None ->
  index_of name (cols ++ [other])
  = if String.eqb other name then Some (length cols) else None.
Proof.
  induction cols as [|x cols IH]; cbn; intros H.
  - destruct (String.eqb other name); reflexivity.
  - destruct (String.eqb x name); [discriminate|].
    destruct (index_of name cols) as [i|]; [discriminate|].
    rewrite (IH eq_refl). destruct (String.eqb other name); reflexivity.
Qed.

Lemma nth_insert_eq {A} (l : list A) (j : nat) (c d : A) :
  (j < length l)%nat -> nth j (<[j := c]> l) d = c.
Proof.
  revert j. induction l as [|x l IH]; intros [|j] H; cbn in *; try lia; [reflexivity|].
  apply IH. lia.
Qed.

Lemma nth_insert_ne {A} (l : list A) (j j' : nat) (c d : A) :
  j <> j' -> nth j' (<[j := c]> l) d = nth j' l d.
Proof.
  revert j j'. induction l as [|x l IH]; intros [|j] [|j'] H; cbn;
    try reflexivity; try congruence.
  apply IH. congruence.
Qed.

Lemma forallb_insert {A} (p : A -> bool) (l : list A) (j : nat) (c : A) :
  forallb p l = true -> p c = true -> forallb p (<[j := c]> l) = true.
Proof.
  revert j. induction l as [|x l IH]; intros [|j] Hl Hc; cbn in *; try reflexivity.
  - apply andb_true_iff in Hl as [_ Hl]. now rewrite Hc, Hl.
  - apply andb_true_iff in Hl as [Hx Hl]. rewrite Hx. cbn. now apply IH.
Qed.

(** Row [j] of a frame after [df[name] = col]. *)
Lemma set_column_row (df : DataFrame) (name : string) (col : list cell)
    (j : nat) (r : Row) :
  length col = length (rows df) ->
  nth_error (rows df) j = Some r ->
  nth_error (rows (set_column df name col)) j
  = Some (assign_cell (index_of name (columns df)) (r, nth j col None)).
Proof.
  unfold set_column. cbn [rows]. generalize (index_of name (columns df)). intros idx.
  revert col j. induction (rows df) as [|x l IH]; intros [|c col] [|j] Hlen H;
    cbn in *; try discriminate.
  - now injection H as ->.
  - apply IH; [lia|assumption].
Qed.

Lemma set_column_well_formed (df : DataFrame) (name : string) (col : list cell) :
  well_formed df -> well_formed (set_column df name col).
Proof.
  unfold well_formed, set_column. cbn [rows columns]. intros H.
  rewrite List.Forall_forall in *. intros r' Hr'.
  apply in_map_iff in Hr' as ([r c] & <- & Hin).
  apply in_combine_l in Hin. specialize (H r Hin).
  destruct (index_of name (columns df)); cbn.
  - now rewrite length_insert.
  - rewrite !length_app. cbn. unfold cell in *. lia.
Qed.

Lemma column_at_nth (p j : nat) (rs : list Row) (r : Row) :
  nth_error rs j = Some r -> nth j (column_at p rs) None = nth p (cells r) None.
Proof.
  revert j. induction rs as [|x rs IH]; intros [|j] H; cbn in *; try discriminate.
  - now injection H as ->.
  - now apply IH.
Qed.

Lemma column_at_ext (p p' : nat) (rs rs' : list Row) :
  length rs = length rs' ->
  (forall j r r', nth_error rs j = Some r -> nth_error rs' j = Some r' ->
                  nth p (cells r) None = nth p' (cells r') None) ->
  column_at p rs = column_at p' rs'.
Proof.
  revert rs'. induction rs as [|x rs IH]; intros [|x' rs'] Hlen H;
    cbn in *; try discriminate; [reflexivity|].
  f_equal.
  - apply (H O); reflexivity.
  - apply IH; [lia|]. intros j r r' Hr Hr'. apply (H (S j)); assumption.
Qed.

Lemma nth_error_Some_lt {A} (l : list A) (j : nat) (x : A) :
  nth_error l j = Some x -> (j < length l)%nat.
Proof. intros H. apply nth_error_Some. congruence. Qed.

Lemma nth_error_lt_Some {A} (l : list A) (j : nat) :
  (j < length l)%nat -> exists x, nth_error l j = Some x.
Proof.
  intros H. destruct (nth_error l j) eqn:E; [eauto|].
  apply nth_error_None in E. lia.
Qed.

Lemma column_at_assign_same (idx : option nat) (p : nat) (rs : list Row)
    (col : list cell) :
  length col = length rs ->
  (forall r c, In r rs -> nth p (cells (assign_cell idx (r, c))) None = c) ->
  column_at p (map (assign_cell idx) (combine rs col)) = col.
Proof.
  revert col. induction rs as [|x rs IH]; intros [|c col] Hlen H;
    cbn in *; try discriminate; [reflexivity|].
  f_equal.
  - apply H. now left.
  - apply IH; [lia|]. intros r c' Hr. apply H. now right.
Qed.

Lemma column_at_assign_other (idx : option nat) (p : nat) (rs : list Row)
    (col : list cell) :
  length col = length rs ->
  (forall r c, In r rs ->
     nth p (cells (assign_cell idx (r, c))) None = nth p (cells r) None) ->
  column_at p (map (assign_cell idx) (combine rs col)) = column_at p rs.
Proof.
  revert col. induction rs as [|x rs IH]; intros [|c col] Hlen H;
    cbn in *; try discriminate; [reflexivity|].
  f_equal.
  - apply H. now left.
  - apply IH; [lia|]. intros r c' Hr. apply H. now right.
Qed.

(** Reading back the column just assigned. *)
Lemma get_set_same (df : DataFrame) (name : string) (col : list cell) :
  well_formed df -> length col = length (rows df) ->
  get_column (set_column df name col) name = Ok col.
Proof.
  intros Hwf Hlen. unfold well_formed in Hwf. rewrite List.Forall_forall in Hwf.
  unfold get_column, set_column. cbn [columns rows].
  destruct (index_of name (columns df)) as [j|] eqn:E.
  - rewrite E. f_equal. apply column_at_assign_same; [assumption|].
    intros r c Hr. cbn. apply nth_insert_eq.
    rewrite (Hwf r Hr). now apply index_of_Some in E.
  - rewrite (index_of_app_None _ _ _ E), String.eqb_refl. f_equal.
    apply column_at_assign_same; [assumption|].
    intros r c Hr. cbn. rewrite <- (Hwf r Hr).
    rewrite app_nth2 by lia. now rewrite Nat.sub_diag.
Qed.

(** The other columns are untouched. *)
Lemma get_set_other (df : DataFrame) (name name' : string) (col : list cell) :
  well_formed df -> length col = length (rows df) -> name' <> name ->
  get_column (set_column df name col) name' = get_column df name'.
Proof.
  intros Hwf Hlen Hne. unfold well_formed in Hwf. rewrite List.Forall_forall in Hwf.
  unfold get_column, set_column. cbn [columns rows].
  destruct (index_of name (columns df)) as [j|] eqn:E.
  - destruct (index_of name' (columns df)) as [j'|] eqn:E'; [|reflexivity].
    f_equal. apply column_at_assign_other; [assumption|].
    intros r c Hr. cbn. apply nth_insert_ne. intros ->.
    apply index_of_Some in E as [_ E]. apply index_of_Some in E' as [_ E'].
    congruence.
  - destruct (index_of name' (columns df)) as [j'|] eqn:E'.
    + rewrite (index_of_app_Some _ _ [name] _ E'). f_equal.
      apply column_at_assign_other; [assumption|].
      intros r c Hr. cbn. apply app_nth1.
      rewrite (Hwf r Hr). now apply index_of_Some in E'.
    + rewrite (index_of_app_None _ _ _ E').
      destruct (String.eqb name name') eqn:Eq; [|reflexivity].
      apply String.eqb_eq in Eq. congruence.
Qed.

Lemma assign_cell_complete (idx : option nat) (r : Row) (c : cell) :
  complete r = true -> is_valid c = true ->
  complete (assign_cell idx (r, c)) = true.
Proof.
  unfold complete. intros Hr Hc. destruct idx as [j|]; cbn.
  - now apply forallb_insert.
  - rewrite forallb_app, Hr. cbn. now rewrite Hc.
Qed.

Lemma assign_cell_date (idx : option nat) (r : Row) (c : cell) :
  Date (assign_cell idx (r, c)) = Date r.
Proof. destruct idx; reflexivity. Qed.

(** What the loop of [add_lags] leaves behind: a well-formed frame with
    the same close column, the lag columns as shifted closes, every other
    column as before, and a row complete wherever it was complete and all
    the shifted closes written into it are valid. *)
Lemma add_lag_columns_spec (gap : Z) (close : list cell) (indices : list nat) :
  forall df,
    well_formed df ->
    get_column df "Close" = Ok close ->
    (forall i, In i indices ->
       shift (Z.of_nat i * gap) close = Ok (roll_fill (Z.of_nat i * gap) close)) ->
    exists pre,
      add_lag_columns indices gap df = Ok pre /\
      well_formed pre /\
      length (rows pre) = length (rows df) /\
      (forall name, (forall i, In i indices -> lag_name i <> name) ->
                    get_column pre name = get_column df name) /\
      (forall i, In i indices ->
                 get_column pre (lag_name i) = Ok (roll_fill (Z.of_nat i * gap) close)) /\
      (forall j r, nth_error (rows df) j = Some r ->
         exists r', nth_error (rows pre) j = Some r' /\ Date r' = Date r /\
           (complete r = true ->
            (forall i, In i indices ->
               is_valid (nth j (roll_fill (Z.of_nat i * gap) close) None) = true) ->
            complete r' = true)).
Proof.
  induction indices as [|i0 rest IH]; intros df Hwf Hclose Hshift.
  - exists df. cbn. repeat split; try tauto.
    intros j r Hr. exists r. tauto.
  - cbn [add_lag_columns]. rewrite Hclose. cbn [rbind].
    rewrite (Hshift i0 (or_introl eq_refl)). cbn [rbind].
    assert (Hshift1 : forall i, In i rest ->
              shift (Z.of_nat i * gap) close
              = Ok (roll_fill (Z.of_nat i * gap) close))
      by (intros i Hi; apply Hshift; now right).
    set (col := roll_fill (Z.of_nat i0 * gap) close).
    assert (Hlen : length col = length (rows df)).
    { subst col. rewrite roll_fill_length. now apply get_column_length in Hclose. }
    set (df1 := set_column df (lag_name i0) col).
    assert (Hwf1 : well_formed df1) by now apply set_column_well_formed.
    assert (Hclose1 : get_column df1 "Close" = Ok close).
    { subst df1. rewrite (get_set_other df (lag_name i0) "Close" col Hwf Hlen);
        [exact Hclose|].
      intros E. symmetry in E. now apply lag_name_not_close in E. }
    destruct (IH df1 Hwf1 Hclose1 Hshift1)
      as (pre & Hrun & Hwfp & Hlenp & Hother & Hlag & Hrows).
    exists pre. split; [exact Hrun|]. split; [exact Hwfp|]. split.
    { rewrite Hlenp. subst df1. now apply set_column_length. }
    split; [|split].
    + intros name Hname. rewrite Hother by (intros i Hi; apply Hname; now right).
      subst df1. apply get_set_other; auto.
      intros ->. now apply (Hname i0); [left|].
    + intros i [<-|Hi]; [|now apply Hlag].
      destruct (in_dec Nat.eq_dec i0 rest) as [Hin|Hnot]; [now apply Hlag|].
      rewrite Hother.
      * subst df1. now apply get_set_same.
      * intros i Hi E. apply lag_name_inj in E. subst i. contradiction.
    + intros j r Hr.
      pose proof (set_column_row df (lag_name i0) col j r Hlen Hr) as Hr1.
      fold df1 in Hr1.
      destruct (Hrows j _ Hr1) as (r' & Hr' & Hdate & Hcomp).
      exists r'. split; [exact Hr'|]. split.
      { rewrite Hdate. apply assign_cell_date. }
      intros Hc Hvalid. apply Hcomp.
      * apply assign_cell_complete; [exact Hc|]. apply Hvalid. now left.
      * intros i Hi. apply Hvalid. now right.
Qed.

(** ** Lag augmentation *)

Lemma roll_fill_nth (p : Z) (col : list cell) (j : nat) :
  0 <= p -> (j < length col)%nat ->
  nth j (roll_fill p col) None
  = if (j <? Z.to_nat p)%nat then None else nth (j - Z.to_nat p) col None.
Proof.
  intros Hp Hj. unfold roll_fill. cbv zeta.
  assert (E : (0 <=? p) = true) by now apply Z.leb_le.
  rewrite E.
  set (k := Z.to_nat (Z.min (Z.abs p) (Z.of_nat (length col)))).
  destruct (j <? Z.to_nat p)%nat eqn:L.
  - apply Nat.ltb_lt in L. rewrite app_nth1 by (rewrite repeat_length; lia).
    apply nth_repeat.
  - apply Nat.ltb_ge in L. rewrite app_nth2 by (rewrite repeat_length; lia).
    rewrite repeat_length.
    assert (Hk : k = Z.to_nat p) by lia. rewrite Hk.
    rewrite nth_firstn.
    assert (E' : (j - Z.to_nat p <? length col - Z.to_nat p)%nat = true)
      by (apply Nat.ltb_lt; lia).
    now rewrite E'.
Qed.

Lemma complete_nth (r : Row) (p : nat) :
  complete r = true -> (p < length (cells r))%nat ->
  is_valid (nth p (cells r) None) = true.
Proof.
  unfold complete. intros H Hp. rewrite forallb_forall in H.
  apply H. now apply nth_In.
Qed.

Lemma incomplete_nth (r : Row) (p : nat) :
  (p < length (cells r))%nat -> nth p (cells r) None = None ->
  complete r = false.
Proof.
  intros Hp Hn. destruct (complete r) eqn:E; [|reflexivity].
  pose proof (complete_nth r p E Hp) as V. rewrite Hn in V. discriminate.
Qed.

(** In a frame without missing values every entry of a column is valid. *)
Lemma column_valid (df : DataFrame) (name : string) (col : list cell) (j : nat) :
  well_formed df -> no_missing df -> get_column df name = Ok col ->
  (j < length col)%nat -> is_valid (nth j col None) = true.
Proof.
  unfold well_formed, no_missing, get_column. intros Hwf Hnm Hcol Hj.
  rewrite List.Forall_forall in Hwf, Hnm.
  destruct (index_of name (columns df)) as [p|] eqn:E; [|discriminate].
  injection Hcol as <-. rewrite column_at_length in Hj.
  destruct (nth_error_lt_Some _ _ Hj) as [r Hr].
  rewrite (column_at_nth _ _ _ _ Hr).
  pose proof (nth_error_In _ _ Hr) as Hin.
  apply complete_nth; [now apply Hnm|].
  rewrite (Hwf r Hin). now apply index_of_Some in E.
Qed.

(** A filter that rejects exactly the first [m] elements is [skipn m]. *)
Lemma filter_skipn {A} (p : A -> bool) (l : list A) (m : nat) :
  (forall j x, nth_error l j = Some x -> p x = true <-> (m <= j)%nat) ->
  List.filter p l = skipn m l.
Proof.
  revert m. induction l as [|x l IH]; intros m H; cbn.
  - now destruct m.
  - destruct m as [|m].
    + cbn. assert (Hx : p x = true) by (apply (H O x); [reflexivity|lia]).
      rewrite Hx. f_equal.
      rewrite (IH O); [reflexivity|].
      intros j y Hy. specialize (H (S j) y Hy). split; [lia|]. intros _. apply H. lia.
    + assert (Hx : p x = false).
      { destruct (p x) eqn:E; [|reflexivity].
        apply (H O x eq_refl) in E. lia. }
      rewrite Hx. cbn. apply IH.
      intros j y Hy. specialize (H (S j) y Hy). rewrite H. lia.
Qed.

Lemma cell_at_column (df : DataFrame) (name : string) (col : list cell)
    (j : nat) (r : Row) :
  get_column df name = Ok col -> nth_error (rows df) j = Some r ->
  cell_at df r name = nth j col None.
Proof.
  unfold get_column, cell_at. destruct (index_of name (columns df)); [|discriminate].
  intros [= <-] Hr. symmetry. now apply column_at_nth.
Qed.

Lemma fits_intp_spec (p : Z) :
  fits_intp p = true <-> - 2 ^ 63 <= p <= 2 ^ 63 - 1.
Proof.
  unfold fits_intp. rewrite andb_true_iff, !Z.leb_le. reflexivity.
Qed.

Lemma set_column_columns_In (df : DataFrame) (name c : string) (col : list cell) :
  In c (columns df) -> In c (columns (set_column df name col)).
Proof.
  unfold set_column. cbn [columns].
  destruct (index_of name (columns df)); [auto|].
  intros H. apply in_or_app. now left.
Qed.

(** One lag whose periods do not fit makes the loop raise, on a frame that
    has rows and a close column. *)
Lemma add_lag_columns_overflow (gap : Z) (indices : list nat) :
  forall df,
    In "Close" (columns df) -> rows df <> [] ->
    (exists i, In i indices /\ fits_intp (Z.of_nat i * gap) = false) ->
    add_lag_columns indices gap df = Raise OverflowError.
Proof.
  induction indices as [|i0 rest IH]; intros df Hclose Hrows (i & Hi & Hfit);
    [contradiction|].
  cbn [add_lag_columns]. unfold get_column.
  destruct (index_of_In _ _ Hclose) as [j Hj]. rewrite Hj. cbn [rbind].
  assert (Hlen : length (column_at j (rows df)) = length (rows df))
    by apply column_at_length.
  assert (Hne : column_at j (rows df) <> []).
  { intros E. rewrite E in Hlen. destruct (rows df); [contradiction|discriminate]. }
  destruct (fits_intp (Z.of_nat i0 * gap)) eqn:E0.
  - rewrite (shift_fits _ _ E0). cbn [rbind]. apply IH.
    + now apply set_column_columns_In.
    + intros E.
      pose proof (set_column_length df (lag_name i0)
                    (roll_fill (Z.of_nat i0 * gap) (column_at j (rows df)))) as L.
      rewrite roll_fill_length in L. specialize (L Hlen). rewrite E in L.
      destruct (rows df); [contradiction|discriminate].
    + exists i. split; [|exact Hfit]. destruct Hi as [<-|Hi]; [congruence|exact Hi].
  - now rewrite (shift_overflow _ _ Hne E0).
Qed.

(** C5, as amended. For a well-formed price series without missing
    values, lag count [K >= 1] and lag gap [G >= 1]:
    when [K * G] is below [2 ^ 63], [add_lags] removes the earliest
    [K * G] bars, or all bars when there are fewer than [K * G], so the row
    count of the result is [max 0 (n - K * G)] for an input of [n] rows, and
    the retained row at position [r] of the pre-drop series carries under
    [Lag_i], for each [i] from 1 to [K], the close of position [r - i * G]
    of the pre-drop series, whose close column and dates are those of the
    input; when [K * G] is [2 ^ 63] or more and the series has a bar, the
    shift of the close column raises [OverflowError] and nothing is
    returned. *)
Theorem C5_add_lags_drops_leading_rows
    (df : DataFrame) (K G : Z) (close : list cell) :
  well_formed df -> no_missing df -> get_column df "Close" = Ok close ->
  1 <= K -> 1 <= G ->
  (K * G < 2 ^ 63 ->
   exists pre out,
     add_lag_columns (seq 1 (Z.to_nat K)) G df = Ok pre /\
     add_lags df K G = Ok out /\
     get_column pre "Close" = Ok close /\
     dates pre = dates df /\
     rows out = skipn (Z.to_nat (K * G)) (rows pre) /\
     Z.of_nat (length (rows out)) = Z.max 0 (Z.of_nat (length (rows df)) - K * G) /\
     forall (r i : Z) (row : Row),
       K * G <= r -> 1 <= i <= K ->
       nth_error (rows out) (Z.to_nat (r - K * G)) = Some row ->
       nth_error (rows pre) (Z.to_nat r) = Some row /\
       cell_at out row (lag_name (Z.to_nat i)) = nth (Z.to_nat (r - i * G)) close None /\
       cell_at out row "Close" = nth (Z.to_nat r) close None) /\
  (2 ^ 63 <= K * G -> rows df <> [] -> add_lags df K G = Raise OverflowError).
Proof.
  intros Hwf Hnm Hclose HK HG. split.
  2:{ intros Hbig Hrows. unfold add_lags.
      rewrite (add_lag_columns_overflow G (seq 1 (Z.to_nat K)) df); [reflexivity| |exact Hrows|].
      - unfold get_column in Hclose.
        destruct (index_of "Close" (columns df)) as [j|] eqn:E; [|discriminate].
        destruct (index_of_Some _ _ _ E) as [Hlt Hnth]. rewrite <- Hnth.
        now apply nth_In.
      - exists (Z.to_nat K). split; [apply in_seq; lia|].
        destruct (fits_intp (Z.of_nat (Z.to_nat K) * G)) eqn:E; [|reflexivity].
        apply fits_intp_spec in E. rewrite Z2Nat.id in E by lia. lia. }
  intros Hbound.
  assert (Hshift : forall i, In i (seq 1 (Z.to_nat K)) ->
            shift (Z.of_nat i * G) close = Ok (roll_fill (Z.of_nat i * G) close)).
  { intros i Hi. apply in_seq in Hi. apply shift_fits, fits_intp_spec.
    assert (0 <= Z.of_nat i * G <= K * G) by nia.
    assert (0 < 2 ^ 63) by reflexivity. lia. }
  destruct (add_lag_columns_spec G close (seq 1 (Z.to_nat K)) df Hwf Hclose Hshift)
    as (pre & Hrun & Hwfp & Hlenp & Hother & Hlag & Hrows).
  assert (Hn : length close = length (rows df)) by now apply get_column_length in Hclose.
  assert (HKG : 0 <= K * G) by nia.
  assert (Hclosep : get_column pre "Close" = Ok close).
  { rewrite Hother; [exact Hclose|]. intros i _. apply lag_name_not_close. }
  assert (Hidx : forall i, 1 <= i <= K ->
            get_column pre (lag_name (Z.to_nat i)) = Ok (roll_fill (i * G) close)).
  { intros i Hi. rewrite Hlag by (apply in_seq; lia). do 3 f_equal. lia. }
  assert (Hdrop : List.filter complete (rows pre) = skipn (Z.to_nat (K * G)) (rows pre)).
  { apply filter_skipn. intros j x Hx.
    pose proof (nth_error_Some_lt _ _ _ Hx) as Hj. rewrite Hlenp in Hj.
    split.
    - intros Hc. destruct (le_lt_dec (Z.to_nat (K * G)) j) as [L|L]; [exact L|exfalso].
      pose proof (Hidx K ltac:(lia)) as HcolK.
      pose proof (cell_at_column _ _ _ _ _ HcolK Hx) as Hcell.
      rewrite roll_fill_nth in Hcell by lia.
      assert (E : (j <? Z.to_nat (K * G))%nat = true) by now apply Nat.ltb_lt.
      rewrite E in Hcell. unfold cell_at in Hcell. unfold get_column in HcolK.
      destruct (index_of (lag_name (Z.to_nat K)) (columns pre)) as [p|] eqn:Ep;
        [|discriminate].
      assert (Hinc : complete x = false).
      { apply (incomplete_nth x p); [|exact Hcell].
        unfold well_formed in Hwfp. rewrite List.Forall_forall in Hwfp.
        rewrite (Hwfp x (nth_error_In _ _ Hx)). now apply index_of_Some in Ep. }
      congruence.
    - intros L. destruct (nth_error_lt_Some _ _ Hj) as [r0 Hr0].
      destruct (Hrows j r0 Hr0) as (r' & Hr' & _ & Hcomp).
      assert (r' = x) by congruence. subst r'. apply Hcomp.
      + unfold no_missing in Hnm. rewrite List.Forall_forall in Hnm.
        apply Hnm. now apply nth_error_In in Hr0.
      + intros i Hi. apply in_seq in Hi.
        assert (Hle : Z.of_nat i * G <= K * G) by nia.
        rewrite roll_fill_nth by nia.
        assert (E : (j <? Z.to_nat (Z.of_nat i * G))%nat = false)
          by (apply Nat.ltb_ge; lia).
        rewrite E. apply (column_valid df "Close"); auto. lia. }
  exists pre, (dropna pre).
  split; [exact Hrun|]. split; [unfold add_lags; now rewrite Hrun|].
  split; [exact Hclosep|]. split; [now apply add_lag_columns_dates in Hrun|].
  split; [exact Hdrop|]. split.
  { cbn [dropna rows]. rewrite Hdrop, length_skipn, Hlenp. lia. }
  intros r i row Hr Hi Hrow. cbn [dropna rows] in Hrow. rewrite Hdrop in Hrow.
  rewrite nth_error_skipn in Hrow.
  replace (Z.to_nat (K * G) + Z.to_nat (r - K * G))%nat with (Z.to_nat r) in Hrow by lia.
  split; [exact Hrow|].
  pose proof (nth_error_Some_lt _ _ _ Hrow) as Hlt. rewrite Hlenp in Hlt.
  assert (HiG : 0 <= i * G <= K * G) by nia.
  change (cell_at (dropna pre) row) with (cell_at pre row).
  split.
  - rewrite (cell_at_column _ _ _ _ _ (Hidx i Hi) Hrow).
    rewrite roll_fill_nth by lia.
    assert (E : (Z.to_nat r <? Z.to_nat (i * G))%nat = false)
      by (apply Nat.ltb_ge; lia).
    rewrite E. f_equal. lia.
  - apply (cell_at_column _ _ _ _ _ Hclosep Hrow).
Qed.

Lemma C5_witness :
  exists pre out,
    add_lags raw_2026 2 1 = Ok out /\
    rows out = skipn 2 (rows pre) /\
    Z.of_nat (length (rows out)) = 1.
Proof.
  assert (Hwf : well_formed raw_2026) by repeat constructor.
  assert (Hnm : no_missing raw_2026) by repeat constructor.
  assert (HK : 1 <= 2) by lia.
  assert (HG : 1 <= 1) by lia.
  assert (Hb : 2 * 1 < 2 ^ 63) by reflexivity.
  destruct (proj1 (C5_add_lags_drops_leading_rows raw_2026 2 1
                     [price 11; price 12; price 13] Hwf Hnm eq_refl HK HG) Hb)
    as (pre & out & _ & Hout & _ & _ & Hrows & Hlen & _).
  exists pre, out. split; [exact Hout|]. split; [exact Hrows|exact Hlen].
Defined.

(** The claim C5 as stated fails when the series is shorter than [K * G]:
    three complete bars with [K = 2] and [G = 2] leave no row, whereas the
    input row count minus [K * G] is [-1]. It also fails for a gap that
    does not fit a 64-bit integer: with [K = 1] and [G = 2 ^ 63] nothing is
    returned. *)
Lemma C5_counterexample :
  well_formed raw_2026 /\ no_missing raw_2026 /\
  (exists out,
     add_lags raw_2026 2 2 = Ok out /\
     rows out = [] /\
     Z.of_nat (length (rows out)) <> Z.of_nat (length (rows raw_2026)) - 2 * 2) /\
  add_lags raw_2026 1 (2 ^ 63) = Raise OverflowError.
Proof.
  split; [repeat constructor|]. split; [repeat constructor|]. split.
  - eexists. split; [vm_compute; reflexivity|]. split; [reflexivity|].
    cbn. lia.
  - vm_compute. reflexivity.
Qed.

(** ** Forward fill *)

Lemma ffill_rows_dates (prev : list cell) (rs : list Row) :
  map Date (ffill_rows prev rs) = map Date rs.
Proof.
  revert prev. induction rs as [|r rs IH]; intros prev; cbn; [reflexivity|].
  now rewrite IH.
Qed.

Lemma fill_cells_length (prev cur : list cell) :
  length (fill_cells prev cur) = length cur.
Proof.
  revert prev. induction cur as [|c cur IH]; intros prev; cbn; [reflexivity|].
  now rewrite IH.
Qed.

Lemma fill_cells_complete_id (prev cur : list cell) :
  forallb is_valid cur = true -> fill_cells prev cur = cur.
Proof.
  revert prev. induction cur as [|c cur IH]; intros prev H; cbn in *; [reflexivity|].
  apply andb_true_iff in H as [Hc H]. rewrite (IH _ H).
  destruct c; [reflexivity|discriminate].
Qed.

Lemma fill_cells_complete (prev cur : list cell) :
  forallb is_valid prev = true -> length prev = length cur ->
  forallb is_valid (fill_cells prev cur) = true.
Proof.
  revert prev. induction cur as [|c cur IH]; intros [|p prev] Hp Hlen;
    cbn in *; try discriminate; [reflexivity|].
  apply andb_true_iff in Hp as [Hp Hprev].
  rewrite IH by (auto; lia). rewrite andb_true_r.
  destruct c; [reflexivity|exact Hp].
Qed.

Lemma ffill_rows_full (n : nat) (rs : list Row) :
  forall prev,
    Forall (fun r => length (cells r) = n) rs ->
    forallb is_valid prev = true -> length prev = n ->
    Forall (full n) (ffill_rows prev rs).
Proof.
  induction rs as [|r rs IH]; intros prev Hwf Hp Hlen; cbn; constructor;
    inversion Hwf as [|? ? Hr Hrs].
  - split; cbn.
    + unfold complete. cbn. apply fill_cells_complete; [assumption|lia].
    + rewrite fill_cells_length. exact Hr.
  - apply IH; [assumption| |rewrite fill_cells_length; exact Hr].
    apply fill_cells_complete; [assumption|lia].
Qed.

(** After forward filling a well-formed document whose first bar is
    complete, no value is missing. *)
Lemma ffill_full (raw : DataFrame) :
  well_formed raw -> first_row_complete raw ->
  Forall (full (length (columns raw))) (rows (ffill raw)).
Proof.
  unfold well_formed, first_row_complete, ffill. cbn [rows].
  destruct (rows raw) as [|r rs]; intros Hwf Hfirst; cbn; constructor;
    inversion Hwf as [|? ? Hr Hrs]; unfold complete in Hfirst;
    rewrite (fill_cells_complete_id _ _ Hfirst).
  - split; [exact Hfirst|exact Hr].
  - apply ffill_rows_full; assumption.
Qed.

Lemma ffill_dates (raw : DataFrame) : dates (ffill raw) = dates raw.
Proof. apply ffill_rows_dates. Qed.

(** ** The stable sort by date *)

Lemma insert_by_date_perm (r : Row) (l : list Row) :
  Permutation (insert_by_date r l) (r :: l).
Proof.
  induction l as [|x l IH]; cbn; [reflexivity|].
  destruct (Date r <=? Date x); [reflexivity|].
  rewrite IH. apply perm_swap.
Qed.

Lemma sort_by_date_perm (l : list Row) : Permutation (sort_by_date l) l.
Proof.
  induction l as [|r l IH]; cbn; [reflexivity|].
  rewrite insert_by_date_perm. now constructor.
Qed.

Lemma insert_by_date_sorted (r : Row) (l : list Row) :
  date_sorted l -> date_sorted (insert_by_date r l).
Proof.
  unfold date_sorted. induction l as [|x l IH]; cbn; intros H.
  - repeat constructor.
  - apply StronglySorted_inv in H as [Hl Hx].
    destruct (Date r <=? Date x) eqn:E.
    + apply Z.leb_le in E. constructor; [now constructor|].
      constructor; [exact E|].
      rewrite List.Forall_forall in *. intros y Hy. specialize (Hx y Hy).
      unfold date_le in *. lia.
    + apply Z.leb_gt in E. constructor; [now apply IH|].
      rewrite List.Forall_forall in *. intros y Hy.
      apply (Permutation_in _ (insert_by_date_perm r l)) in Hy.
      destruct Hy as [<-|Hy]; [unfold date_le; lia|now apply Hx].
Qed.

Lemma sort_by_date_sorted (l : list Row) : date_sorted (sort_by_date l).
Proof.
  induction l as [|r l IH]; cbn; [constructor|].
  now apply insert_by_date_sorted.
Qed.

Lemma insert_by_date_front (r : Row) (l : list Row) :
  Forall (date_le r) l -> insert_by_date r l = r :: l.
Proof.
  destruct l as [|x l]; cbn; intros H; [reflexivity|].
  inversion H as [|? ? Hx _]. unfold date_le in Hx.
  apply Z.leb_le in Hx. now rewrite Hx.
Qed.

Lemma date_sorted_filter (p : Row -> bool) (l : list Row) :
  date_sorted l -> date_sorted (List.filter p l).
Proof.
  unfold date_sorted. induction l as [|x l IH]; cbn; intros H; [constructor|].
  apply StronglySorted_inv in H as [Hl Hx].
  destruct (p x); [|now apply IH].
  constructor; [now apply IH|].
  rewrite List.Forall_forall in *. intros y Hy.
  apply filter_In in Hy as [Hy _]. now apply Hx.
Qed.

(** Filtering commutes with inserting into a sorted list. *)
Lemma filter_insert_by_date (p : Row -> bool) (r : Row) (l : list Row) :
  date_sorted l ->
  List.filter p (insert_by_date r l)
  = if p r then insert_by_date r (List.filter p l) else List.filter p l.
Proof.
  unfold date_sorted. induction l as [|x l IH]; intros H.
  - cbn. destruct (p r); reflexivity.
  - pose proof H as Hsorted.
    apply StronglySorted_inv in H as [Hl Hx]. cbn [insert_by_date].
    destruct (Date r <=? Date x) eqn:E.
    + apply Z.leb_le in E. cbn [List.filter].
      destruct (p r) eqn:Er; [|reflexivity].
      rewrite insert_by_date_front; [reflexivity|].
      rewrite List.Forall_forall. intros y Hy.
      change (In y (List.filter p (x :: l))) in Hy.
      apply filter_In in Hy as [[<-|Hy] _]; [exact E|].
      rewrite List.Forall_forall in Hx. specialize (Hx y Hy).
      unfold date_le in *. lia.
    + cbn [List.filter]. rewrite (IH Hl).
      destruct (p x) eqn:Ex; destruct (p r) eqn:Er; try reflexivity.
      cbn [insert_by_date]. now rewrite E.
Qed.

Lemma filter_sort_by_date (p : Row -> bool) (l : list Row) :
  List.filter p (sort_by_date l) = sort_by_date (List.filter p l).
Proof.
  induction l as [|r l IH]; [reflexivity|].
  change (sort_by_date (r :: l)) with (insert_by_date r (sort_by_date l)).
  rewrite filter_insert_by_date by apply sort_by_date_sorted.
  rewrite IH. cbn [List.filter]. destruct (p r); reflexivity.
Qed.

(** Every row of a sorted list lies between its first and its last. *)
Lemma date_sorted_last (l : list Row) (d r : Row) :
  date_sorted l -> In r l -> Date r <= Date (List.last l d).
Proof.
  unfold date_sorted. revert r.
  induction l as [|x l IH]; intros r H Hr; [contradiction|].
  apply StronglySorted_inv in H as [Hl Hx].
  destruct l as [|y l]; [destruct Hr as [E|[]]; subst r; cbn; lia|].
  change (List.last (x :: y :: l) d) with (List.last (y :: l) d).
  destruct Hr as [E|Hr]; [subst r|now apply IH].
  rewrite List.Forall_forall in Hx.
  assert (Hy : Date x <= Date y) by (apply Hx; now left).
  specialize (IH y Hl (or_introl eq_refl)). lia.
Qed.

Lemma last_insert_by_date (r d : Row) (l : list Row) :
  date_sorted l -> l <> [] ->
  List.last (insert_by_date r l) d
  = if Date (List.last l d) <? Date r then r else List.last l d.
Proof.
  unfold date_sorted. induction l as [|x l IH]; intros H Hne; [contradiction|].
  pose proof H as Hsorted. apply StronglySorted_inv in H as [Hl Hx].
  cbn [insert_by_date]. destruct (Date r <=? Date x) eqn:E.
  - apply Z.leb_le in E.
    change (List.last (r :: x :: l) d) with (List.last (x :: l) d).
    pose proof (date_sorted_last (x :: l) d x Hsorted (or_introl eq_refl)) as Hlast.
    assert (L : (Date (List.last (x :: l) d) <? Date r) = false)
      by (apply Z.ltb_ge; lia).
    now rewrite L.
  - apply Z.leb_gt in E. destruct l as [|y l].
    + cbn. assert (L : (Date x <? Date r) = true) by now apply Z.ltb_lt.
      now rewrite L.
    + change (List.last (x :: y :: l) d) with (List.last (y :: l) d).
      rewrite <- IH by (auto; discriminate).
      cbn [insert_by_date]. destruct (Date r <=? Date y); reflexivity.
Qed.

Lemma sort_by_date_nil (l : list Row) : sort_by_date l = [] -> l = [].
Proof.
  intros H. pose proof (sort_by_date_perm l) as P. rewrite H in P.
  now apply Permutation_nil in P.
Qed.

(** The last row of the sorted list is the latest bar. *)
Lemma latest_sort_by_date (l : list Row) (d : Row) :
  l <> [] -> latest l = Some (List.last (sort_by_date l) d).
Proof.
  induction l as [|r l IH]; intros Hne; [contradiction|].
  change (sort_by_date (r :: l)) with (insert_by_date r (sort_by_date l)).
  cbn [latest].
  destruct l as [|x l]; [reflexivity|].
  rewrite IH by discriminate.
  rewrite last_insert_by_date;
    [|apply sort_by_date_sorted
     |intros E; apply sort_by_date_nil in E; discriminate].
  destruct (Date (List.last (sort_by_date (x :: l)) d) <? Date r); reflexivity.
Qed.

Lemma latest_In (l : list Row) (r : Row) : latest l = Some r -> In r l.
Proof.
  revert r. induction l as [|x l IH]; cbn; intros r H; [discriminate|].
  destruct (latest l) as [b|].
  - destruct (Date b <? Date x); injection H as <-; auto.
  - injection H as <-. auto.
Qed.

(** ** The last values of a bucket *)

Lemma last_valid_all_valid (col : list cell) (acc : cell) :
  col <> [] -> forallb is_valid col = true ->
  fold_left fill_cell col acc = List.last col None.
Proof.
  revert acc. induction col as [|c col IH]; intros acc Hne H; [contradiction|].
  cbn in H. apply andb_true_iff in H as [Hc H].
  destruct col as [|c' col].
  - cbn. destruct c; [reflexivity|discriminate].
  - change (fold_left fill_cell (c :: c' :: col) acc)
      with (fold_left fill_cell (c' :: col) (fill_cell acc c)).
    rewrite IH by (auto; discriminate). reflexivity.
Qed.

Lemma last_column_at (j : nat) (g : list Row) (d : Row) :
  g <> [] -> List.last (column_at j g) None = nth j (cells (List.last g d)) None.
Proof.
  induction g as [|x g IH]; intros Hne; [contradiction|].
  destruct g as [|y g]; [reflexivity|].
  change (List.last (column_at j (x :: y :: g)) None)
    with (List.last (column_at j (y :: g)) None).
  rewrite IH by discriminate. reflexivity.
Qed.

Lemma nth_seq_id {A} (l : list A) (d : A) :
  map (fun j => nth j l d) (seq 0 (length l)) = l.
Proof.
  induction l as [|x l IH]; [reflexivity|].
  cbn [length seq map nth]. f_equal.
  rewrite <- seq_shift, map_map. exact IH.
Qed.

Lemma last_In {A} (l : list A) (d : A) : l <> [] -> In (List.last l d) l.
Proof.
  induction l as [|x l IH]; intros Hne; [contradiction|].
  destruct l as [|y l]; [now left|]. right. apply IH. discriminate.
Qed.

(** On a bucket that is not empty and has no missing value, the last
    values per column are the cells of the last row. *)
Lemma group_last_full (n : nat) (g : list Row) (d : Row) :
  Forall (full n) g -> g <> [] -> group_last n g = cells (List.last g d).
Proof.
  intros Hfull Hne. rewrite List.Forall_forall in Hfull.
  destruct (Hfull _ (last_In g d Hne)) as [_ Hlen].
  rewrite <- (nth_seq_id (cells (List.last g d)) None) at 1. rewrite Hlen.
  unfold group_last. apply map_ext_in. intros j Hj. apply in_seq in Hj.
  unfold last_valid. rewrite last_valid_all_valid.
  - now apply last_column_at.
  - destruct g; [contradiction|discriminate].
  - apply forallb_forall. intros c Hc. unfold column_at in Hc.
    apply in_map_iff in Hc as (r & <- & Hr).
    destruct (Hfull r Hr) as [Hcomp Hl]. apply complete_nth; [exact Hcomp|lia].
Qed.

Lemma group_last_empty (n : nat) (t : Z) :
  n <> O -> complete (mkRow t (group_last n [])) = false.
Proof. destruct n; [contradiction|reflexivity]. Qed.

Lemma filter_map_swap' {A B} (p : B -> bool) (g : A -> B) (l : list A) :
  List.filter p (map g l) = map g (List.filter (fun x => p (g x)) l).
Proof.
  induction l as [|x l IH]; cbn; [reflexivity|].
  rewrite IH. destruct (p (g x)); reflexivity.
Qed.

Lemma existsb_filter_nil {A} (p : A -> bool) (l : list A) :
  existsb p l = false -> List.filter p l = [].
Proof.
  induction l as [|x l IH]; cbn; [reflexivity|].
  destruct (p x); cbn; [discriminate|exact IH].
Qed.

Lemma existsb_filter_cons {A} (p : A -> bool) (l : list A) :
  existsb p l = true -> List.filter p l <> [].
Proof.
  induction l as [|x l IH]; cbn; [discriminate|].
  destruct (p x); cbn; [discriminate|exact IH].
Qed.

(** The bars of the sorted frame all fall in buckets between the bucket
    of the first and the bucket of the last. *)
Lemma sorted_bucket_range (f : freq) (first : Row) (rest : list Row) (r : Row) :
  date_sorted (first :: rest) -> In r (first :: rest) ->
  bucket_of f (Date first) <= bucket_of f (Date r)
  <= bucket_of f (Date (List.last (first :: rest) first)).
Proof.
  intros Hs Hr. split; apply bucket_of_mono.
  - destruct Hr as [<-|Hr]; [lia|].
    apply StronglySorted_inv in Hs as [_ Hx].
    rewrite List.Forall_forall in Hx. now apply Hx.
  - now apply date_sorted_last.
Qed.

(** The frame left by resampling and [dropna], for a frame without missing
    values and with at least one column: one bar per bucket that holds a
    row, labelled with the bucket and carrying the cells of the last row of
    the bucket in date order. *)
Lemma resample_dropna_rows (f : freq) (df : DataFrame) :
  Forall (full (length (columns df))) (rows df) ->
  columns df <> [] ->
  exists Ks,
    rows (dropna (resample_last f df))
    = map (fun k => mkRow (bucket_label f k)
                      (cells (List.last (List.filter (in_bucket f k)
                                           (sort_by_date (rows df)))
                                        (mkRow 0 []))))
          Ks /\
    List.NoDup Ks /\
    forall k, In k Ks <-> exists r, In r (rows df) /\ bucket_of f (Date r) = k.
Proof.
  intros Hfull Hcols.
  assert (Hn : length (columns df) <> O) by (destruct (columns df); [contradiction|discriminate]).
  pose proof (sort_by_date_perm (rows df)) as Hperm.
  pose proof (sort_by_date_sorted (rows df)) as Hsorted.
  assert (HfullS : Forall (full (length (columns df))) (sort_by_date (rows df))).
  { rewrite List.Forall_forall in *. intros r Hr. apply Hfull.
    now apply (Permutation_in _ Hperm). }
  unfold dropna, resample_last. cbn [rows columns].
  remember (sort_by_date (rows df)) as S eqn:ES.
  destruct S as [|first rest].
  - exists []. cbn. split; [reflexivity|]. split; [constructor|].
    intros k. split; [contradiction|]. intros (r & Hr & _).
    symmetry in ES. apply sort_by_date_nil in ES. rewrite ES in Hr. contradiction.
  - cbn [rows].
    set (lo := bucket_of f (Date first)).
    set (hi := bucket_of f (Date (List.last (first :: rest) first))).
    exists (List.filter (fun k => existsb (in_bucket f k) (first :: rest)) (Zrange lo hi)).
    assert (Hcomplete : forall k,
      complete (mkRow (bucket_label f k)
                  (group_last (length (columns df))
                     (List.filter (in_bucket f k) (first :: rest))))
      = existsb (in_bucket f k) (first :: rest)).
    { intros k. destruct (existsb (in_bucket f k) (first :: rest)) eqn:E.
      - assert (Hg : Forall (full (length (columns df)))
                       (List.filter (in_bucket f k) (first :: rest))).
        { rewrite List.Forall_forall in *. intros r Hr.
          apply filter_In in Hr as [Hr _]. now apply HfullS. }
        pose proof (existsb_filter_cons _ _ E) as Hne.
        rewrite (group_last_full _ _ (mkRow 0 []) Hg Hne).
        rewrite List.Forall_forall in Hg.
        now destruct (Hg _ (last_In _ (mkRow 0 []) Hne)).
      - rewrite (existsb_filter_nil _ _ E). now apply group_last_empty. }
    split; [|split].
    + rewrite filter_map_swap'.
      rewrite (filter_ext _ _ Hcomplete).
      apply map_ext_in. intros k Hk. apply filter_In in Hk as [_ E].
      f_equal. apply group_last_full.
      * rewrite List.Forall_forall in *. intros r Hr.
        apply filter_In in Hr as [Hr _]. now apply HfullS.
      * now apply existsb_filter_cons.
    + apply List.NoDup_filter, Zrange_NoDup.
    + intros k. rewrite filter_In, Zrange_In, existsb_exists. split.
      * intros (_ & r & Hr & Hk). exists r. split.
        -- now apply (Permutation_in _ Hperm).
        -- unfold in_bucket in Hk. now apply Z.eqb_eq in Hk.
      * intros (r & Hr & Hk).
        assert (HrS : In r (first :: rest))
          by now apply (Permutation_in _ (Permutation_sym Hperm)).
        split.
        -- rewrite <- Hk. now apply sorted_bucket_range.
        -- exists r. split; [exact HrS|]. unfold in_bucket. now apply Z.eqb_eq.
Qed.

Lemma bucket_keys_In (f : freq) (l : list Row) (k : Z) :
  In k (bucket_keys f l) <-> In k (map (bucket_of f) (map Date l)).
Proof. unfold bucket_keys. now rewrite nodup_In, map_map. Qed.

Lemma bucket_exists_In (f : freq) (l : list Row) (k : Z) :
  (exists r, In r l /\ bucket_of f (Date r) = k)
  <-> In k (map (bucket_of f) (map Date l)).
Proof.
  rewrite map_map, in_map_iff. split; intros (r & H1 & H2); exists r; tauto.
Qed.

(** C1, as amended. For a document that is well formed, has at least one
    column besides the date, and whose first bar has no missing value, and
    for Daily, Weekly or Monthly granularity, [fetch_stock_data] returns
    one bar per bucket that holds a raw row, so that the bar count equals
    the number of distinct bucket keys with at least one raw row; each
    returned bar is dated with the label of its bucket and carries the
    values of the last forward-filled bar of that bucket (the bar of the
    greatest date, the later one in the document among equal dates). *)
Theorem C1_resampled_bar_is_last_of_bucket
    (w : World) (ticker url granularity : string) (f : freq) (raw : DataFrame) :
  serves w ticker url raw ->
  granularity_freq granularity = Ok f ->
  well_formed raw -> columns raw <> [] -> first_row_complete raw ->
  exists tr out,
    fetch_stock_data w ticker granularity = (tr, Ok out) /\
    length (rows out) = length (bucket_keys f (rows raw)) /\
    (forall k, In k (bucket_keys f (rows raw)) ->
       exists b, In b (rows out) /\ Date b = bucket_label f k) /\
    (forall b, In b (rows out) ->
       exists k r,
         In k (bucket_keys f (rows raw)) /\
         Date b = bucket_label f k /\ bucket_of f (Date b) = k /\
         latest (bucket_rows f k (rows (ffill raw))) = Some r /\
         cells b = cells r).
Proof.
  intros Hserves Hf Hwf Hcols Hfirst.
  eexists. exists (dropna (resample_last f (ffill raw))).
  split; [exact (fetch_resampled _ _ _ _ _ _ Hserves Hf)|].
  pose proof (ffill_full raw Hwf Hfirst) as Hfull.
  destruct (resample_dropna_rows f (ffill raw) Hfull Hcols) as (Ks & Hrows & Hnd & HKs).
  assert (Hkeys : forall k, In k Ks <-> In k (bucket_keys f (rows raw))).
  { intros k. rewrite HKs, bucket_keys_In, bucket_exists_In.
    change (map Date (rows (ffill raw))) with (dates (ffill raw)).
    now rewrite ffill_dates. }
  rewrite Hrows. split; [|split].
  - rewrite length_map. apply Permutation_length.
    apply Stdlib.Sorting.Permutation.NoDup_Permutation; [exact Hnd|apply List.NoDup_nodup|exact Hkeys].
  - intros k Hk. apply Hkeys in Hk. eexists. split.
    + apply in_map_iff. exists k. split; [reflexivity|exact Hk].
    + reflexivity.
  - intros b Hb. apply in_map_iff in Hb as (k & <- & Hk).
    exists k. eexists. split; [now apply Hkeys|]. cbn [Date cells].
    split; [reflexivity|]. split; [apply bucket_of_label|].
    split; [|reflexivity].
    unfold bucket_rows. rewrite filter_sort_by_date.
    apply latest_sort_by_date.
    apply HKs in Hk as (r & Hr & Hkr). intros E.
    assert (Hin : In r (List.filter (in_bucket f k) (rows (ffill raw)))).
    { apply filter_In. split; [exact Hr|]. unfold in_bucket. now apply Z.eqb_eq. }
    rewrite E in Hin. contradiction.
Qed.

Lemma C1_witness :
  exists tr out,
    fetch_stock_data (world_of raw_2026) "TSLA" "Monthly" = (tr, Ok out) /\
    length (rows out) = length (bucket_keys M (rows raw_2026)).
Proof.
  destruct (C1_resampled_bar_is_last_of_bucket (world_of raw_2026) "TSLA" tsla_url
              "Monthly" M raw_2026) as (tr & out & Hfetch & Hlen & _).
  - split; [reflexivity|].
    exists (mkResponse 200 "Date,Open,High,Low,Close,Volume"). repeat split.
  - reflexivity.
  - repeat constructor.
  - discriminate.
  - reflexivity.
  - exists tr, out. split; [exact Hfetch|exact Hlen].
Defined.

(** The claim C1 as stated fails on a document whose first bar lacks a
    value: a single raw bar without volume stays incomplete after the
    forward fill, its bucket is dropped by [dropna], and the returned
    series is empty although one bucket holds a raw row. *)
Lemma C1_counterexample :
  fetch_stock_data (world_of raw_no_volume) "TSLA" "Daily"
  = ([HttpGet (download_url tsla_url);
      Print "The set level of Granularity is: D."],
     Ok (mkDF ohlcv [])) /\
  bucket_keys D (rows raw_no_volume) = [20000] /\
  length (rows (mkDF ohlcv [])) <> length (bucket_keys D (rows raw_no_volume)).
Proof.
  split; [vm_compute; reflexivity|]. split; [vm_compute; reflexivity|].
  vm_compute. discriminate.
Qed.

(** * Further properties of the code *)

(** ** The fetcher: download address, failures *)

Lemma contains_app_r (needle a b : string) :
  contains needle b = true -> contains needle (a +:+ b) = true.
Proof.
  intros H. induction a as [|c a IH]; [exact H|].
  change (String.prefix needle (String c (a +:+ b))
          || contains needle (a +:+ b) = true).
  rewrite IH. apply orb_true_r.
Qed.

(** X1. The download address is stable: an address that already asks for
    the download is left alone, so adding the parameter twice is the same
    as adding it once; and every address then contains it. *)
Theorem X1_download_url_idempotent (url : string) :
  contains "download=1" (download_url url) = true /\
  download_url (download_url url) = download_url url.
Proof.
  assert (H : contains "download=1" (download_url url) = true).
  { unfold download_url. destruct (contains "download=1" url) eqn:E; [exact E|].
    apply contains_app_r. destruct (contains "?" url); reflexivity. }
  split; [exact H|]. unfold download_url at 1. now rewrite H.
Qed.

(** X2. A granularity that is neither "Minute" nor one of Daily, Weekly,
    Monthly makes the fetcher raise [KeyError], but only after the
    document has been requested and parsed: the request is in the trace
    and no frequency notice is printed. *)
Theorem X2_unknown_granularity_raises_after_download
    (w : World) (ticker url granularity : string) (raw : DataFrame) :
  serves w ticker url raw ->
  granularity <> "Minute" ->
  (forall f, granularity_freq granularity <> Ok f) ->
  fetch_stock_data w ticker granularity
  = ([HttpGet (download_url url)], Raise KeyError).
Proof.
  intros (Hu & resp & Hget & Hst & Hcsv) Hmin Hfreq.
  unfold fetch_stock_data, dict_get, requests_get. rewrite Hu. cbn.
  rewrite Hget. cbn. rewrite Hst. cbn. rewrite Hcsv. cbn.
  assert (E : String.eqb granularity "Minute" = false)
    by now apply String.eqb_neq.
  rewrite E. cbn.
  destruct (granularity_freq granularity) as [f|e] eqn:G.
  - now destruct (Hfreq f).
  - unfold granularity_freq in G.
    destruct (String.eqb granularity "Daily"); [discriminate|].
    destruct (String.eqb granularity "Weekly"); [discriminate|].
    destruct (String.eqb granularity "Monthly"); [discriminate|].
    injection G as <-. reflexivity.
Qed.

Lemma X2_witness :
  fetch_stock_data (world_of raw_2026) "TSLA" "Hourly"
  = ([HttpGet (download_url tsla_url)], Raise KeyError).
Proof.
  refine (X2_unknown_granularity_raises_after_download (world_of raw_2026)
            "TSLA" tsla_url "Hourly" raw_2026 _ _ _).
  - split; [reflexivity|].
    exists (mkResponse 200 "Date,Open,High,Low,Close,Volume"). repeat split.
  - discriminate.
  - intros f. discriminate.
Defined.

(** X3. When the server answers a known ticker with a client or server
    error status (400 to 599), the fetcher raises [HTTPError] right after
    the request, whatever the body and the granularity are. *)
Theorem X3_error_status_raises_http_error
    (w : World) (ticker url granularity : string) (resp : Response) :
  get_url_dict !! ticker = Some url ->
  http_get w (download_url url) = Ok resp ->
  400 <= status_code resp < 600 ->
  fetch_stock_data w ticker granularity
  = ([HttpGet (download_url url)], Raise HTTPError).
Proof.
  intros Hu Hget Hst.
  unfold fetch_stock_data, dict_get, requests_get. rewrite Hu. cbn.
  rewrite Hget. cbn. unfold raise_for_status.
  assert (E : (400 <=? status_code resp) && (status_code resp <? 600) = true).
  { apply andb_true_iff. split; [apply Z.leb_le|apply Z.ltb_lt]; lia. }
  rewrite E. reflexivity.
Qed.

Lemma X3_witness :
  fetch_stock_data
    {| http_get := fun _ => Ok (mkResponse 404 "Not Found");
       read_csv := fun _ => Ok raw_2026;
       now := 0 |} "TSLA" "Daily"
  = ([HttpGet (download_url tsla_url)], Raise HTTPError).
Proof.
  refine (X3_error_status_raises_http_error _ "TSLA" tsla_url "Daily"
            (mkResponse 404 "Not Found") _ _ _).
  - reflexivity.
  - reflexivity.
  - cbn. lia.
Defined.

(** ** Lag augmentation: failures and what it leaves alone *)

Lemma index_of_not_In (name : string) (cols : list string) :
  ~ In name cols -> index_of name cols = None.
Proof.
  intros H. destruct (index_of name cols) as [j|] eqn:E; [|reflexivity].
  destruct (index_of_Some _ _ _ E) as [Hlt Hnth]. exfalso. apply H.
  rewrite <- Hnth. now apply nth_In.
Qed.

Lemma set_column_columns (df : DataFrame) (name : string) (col : list cell) :
  exists extra, columns (set_column df name col) = columns df ++ extra.
Proof.
  unfold set_column. cbn [columns].
  destruct (index_of name (columns df)).
  - exists []. now rewrite app_nil_r.
  - now exists [name].
Qed.

Lemma add_lag_columns_columns (indices : list nat) (gap : Z) :
  forall df pre,
    add_lag_columns indices gap df = Ok pre ->
    exists extra, columns pre = columns df ++ extra.
Proof.
  induction indices as [|i rest IH]; intros df pre H.
  - injection H as <-. exists []. now rewrite app_nil_r.
  - cbn [add_lag_columns] in H.
    destruct (get_column df "Close") as [close|e]; [|discriminate].
    cbn [rbind] in H.
    destruct (shift (Z.of_nat i * gap) close) as [lag|e]; [|discriminate].
    cbn [rbind] in H.
    destruct (IH _ _ H) as [e2 He2].
    destruct (set_column_columns df (lag_name i) lag) as [e1 He1].
    exists (e1 ++ e2). now rewrite He2, He1, app_assoc.
Qed.

Lemma shift_total_ok (p : Z) (col : list cell) :
  col = [] \/ fits_intp p = true -> shift p col = Ok (roll_fill p col).
Proof.
  intros [->|H]; [|now apply shift_fits].
  unfold shift. cbn [length Nat.eqb]. rewrite orb_true_r. now rewrite roll_fill_nil.
Qed.

Lemma fits_intp_between (K G : Z) (i : nat) :
  (1 <= i <= Z.to_nat K)%nat -> fits_intp (K * G) = true ->
  fits_intp (Z.of_nat i * G) = true.
Proof.
  intros Hi H. apply fits_intp_spec in H. apply fits_intp_spec.
  assert (Hpos : 0 < 2 ^ 63) by reflexivity.
  destruct (Z_lt_ge_dec G 0) as [L|L].
  - assert (K * G <= Z.of_nat i * G <= 0) by nia. lia.
  - assert (0 <= Z.of_nat i * G <= K * G) by nia. lia.
Qed.

(** The shifts of the loop succeed when there is no lag to add, when the
    column is empty, or when the largest periods [K * G] fit. *)
Lemma lag_shifts_ok (K G : Z) (col : list cell) :
  K <= 0 \/ col = [] \/ fits_intp (K * G) = true ->
  forall i, In i (seq 1 (Z.to_nat K)) ->
    shift (Z.of_nat i * G) col = Ok (roll_fill (Z.of_nat i * G) col).
Proof.
  intros H i Hi. apply in_seq in Hi. apply shift_total_ok.
  destruct H as [H|[H|H]]; [lia|now left|right].
  apply (fits_intp_between K); [lia|exact H].
Qed.

Lemma add_lag_columns_runs (indices : list nat) (gap : Z) :
  forall df,
    In "Close" (columns df) ->
    rows df = [] \/ (forall i, In i indices -> fits_intp (Z.of_nat i * gap) = true) ->
    exists pre, add_lag_columns indices gap df = Ok pre.
Proof.
  induction indices as [|i rest IH]; intros df Hclose Hfit; [now exists df|].
  cbn [add_lag_columns]. unfold get_column.
  destruct (index_of_In _ _ Hclose) as [j Hj]. rewrite Hj. cbn [rbind].
  assert (Hlen : length (column_at j (rows df)) = length (rows df))
    by apply column_at_length.
  rewrite shift_total_ok; cycle 1.
  { destruct Hfit as [E|Hfit]; [left|right; apply Hfit; now left].
    now rewrite E. }
  cbn [rbind]. apply IH.
  - now apply set_column_columns_In.
  - destruct Hfit as [E|Hfit]; [left|right; intros i' Hi'; apply Hfit; now right].
    pose proof (set_column_length df (lag_name i)
                  (roll_fill (Z.of_nat i * gap) (column_at j (rows df)))) as L.
    rewrite roll_fill_length in L. specialize (L Hlen).
    apply length_zero_iff_nil. rewrite L. now rewrite E.
Qed.

(** X4. The failures of [add_lags]. With a lag count of zero or less it
    adds nothing and only drops the incomplete rows, also on a frame without
    "Close". Asked for at least one lag, it raises [KeyError] on a frame
    without a "Close" column; with the column, it succeeds when the frame
    has no row or the largest periods [K * G] fit a 64-bit signed integer,
    and raises [OverflowError] when the frame has a row and they do not. *)
Theorem X4_add_lags_key_error (df : DataFrame) (K G : Z) :
  (1 <= K -> ~ In "Close" (columns df) -> add_lags df K G = Raise KeyError) /\
  (1 <= K -> In "Close" (columns df) ->
   rows df = [] \/ - 2 ^ 63 <= K * G <= 2 ^ 63 - 1 ->
   exists out, add_lags df K G = Ok out) /\
  (1 <= K -> In "Close" (columns df) ->
   rows df <> [] -> ~ (- 2 ^ 63 <= K * G <= 2 ^ 63 - 1) ->
   add_lags df K G = Raise OverflowError) /\
  (K <= 0 -> add_lags df K G = Ok (dropna df)).
Proof.
  split; [|split; [|split]].
  - intros HK Hno. unfold add_lags.
    destruct (Z.to_nat K) as [|n] eqn:E; [lia|].
    cbn [seq add_lag_columns]. unfold get_column.
    now rewrite (index_of_not_In _ _ Hno).
  - intros HK Hclose Hfit. unfold add_lags.
    destruct (add_lag_columns_runs (seq 1 (Z.to_nat K)) G df Hclose) as [pre Hrun].
    + destruct Hfit as [E|Hfit]; [now left|right].
      intros i Hi. apply in_seq in Hi.
      apply (fits_intp_between K); [lia|now apply fits_intp_spec].
    + rewrite Hrun. now eexists.
  - intros HK Hclose Hrows Hbig. unfold add_lags.
    rewrite (add_lag_columns_overflow G (seq 1 (Z.to_nat K)) df Hclose Hrows);
      [reflexivity|].
    exists (Z.to_nat K). split; [apply in_seq; lia|].
    destruct (fits_intp (Z.of_nat (Z.to_nat K) * G)) eqn:E; [|reflexivity].
    apply fits_intp_spec in E. rewrite Z2Nat.id in E by lia. contradiction.
  - intros HK. unfold add_lags.
    replace (Z.to_nat K) with O by lia. reflexivity.
Qed.

Lemma X4_witness :
  add_lags (mkDF ["Open"] [mkRow 0 [price 1]]) 2 1 = Raise KeyError.
Proof.
  refine (proj1 (X4_add_lags_key_error (mkDF ["Open"] [mkRow 0 [price 1]]) 2 1) _ _).
  - lia.
  - cbn. intros [H|[]]. discriminate H.
Defined.

(** X5. Lag augmentation is additive. When there is no lag to add, the
    frame has no row, or the largest periods [K * G] fit a 64-bit signed
    integer, [add_lags] succeeds on a frame with a "Close" column: the
    columns of the result are the columns of the input followed by the new
    lag columns, the dates before the drop are the input's, and every
    column whose name is not a lag name reads, before the drop, exactly as
    in the input. *)
Theorem X5_add_lags_additive
    (df : DataFrame) (K G : Z) (name : string) :
  well_formed df -> In "Close" (columns df) ->
  K <= 0 \/ rows df = [] \/ - 2 ^ 63 <= K * G <= 2 ^ 63 - 1 ->
  (forall i, name <> lag_name i) ->
  exists pre extra,
    add_lag_columns (seq 1 (Z.to_nat K)) G df = Ok pre /\
    add_lags df K G = Ok (dropna pre) /\
    columns (dropna pre) = columns df ++ extra /\
    dates pre = dates df /\
    get_column pre name = get_column df name.
Proof.
  intros Hwf Hclose Hfit Hname.
  destruct (index_of_In _ _ Hclose) as [j Hj].
  assert (Hget : get_column df "Close" = Ok (column_at j (rows df)))
    by (unfold get_column; now rewrite Hj).
  assert (Hshift : forall i, In i (seq 1 (Z.to_nat K)) ->
            shift (Z.of_nat i * G) (column_at j (rows df))
            = Ok (roll_fill (Z.of_nat i * G) (column_at j (rows df)))).
  { apply lag_shifts_ok. destruct Hfit as [H|[H|H]]; [now left|right; left|right; right].
    - unfold column_at. now rewrite H.
    - now apply fits_intp_spec. }
  destruct (add_lag_columns_spec G _ (seq 1 (Z.to_nat K)) df Hwf Hget Hshift)
    as (pre & Hrun & _ & _ & Hother & _).
  destruct (add_lag_columns_columns _ _ _ _ Hrun) as [extra Hcols].
  exists pre, extra. split; [exact Hrun|].
  split; [unfold add_lags; now rewrite Hrun|].
  split; [exact Hcols|].
  split; [now apply add_lag_columns_dates in Hrun|].
  apply Hother. intros i _ E. now apply (Hname i).
Qed.

Lemma X5_witness :
  exists pre extra,
    add_lags raw_2026 1 1 = Ok (dropna pre) /\
    columns (dropna pre) = columns raw_2026 ++ extra /\
    get_column pre "Volume" = get_column raw_2026 "Volume".
Proof.
  destruct (X5_add_lags_additive raw_2026 1 1 "Volume")
    as (pre & extra & _ & Hout & Hcols & _ & Hvol).
  - repeat constructor.
  - cbn. tauto.
  - right. right. cbn. lia.
  - intros i. unfold lag_name. cbn. discriminate.
  - exists pre, extra. split; [exact Hout|]. split; [exact Hcols|exact Hvol].
Defined.

(** ** The backtesting frame: required columns, trailing window *)

Lemma check_columns_missing (required : list string) (df : DataFrame) :
  (exists c, In c required /\ ~ In c (columns df)) ->
  check_columns required df = Raise ValueError.
Proof.
  induction required as [|c rest IH]; intros (c' & Hin & Hno); [contradiction|].
  cbn. destruct (has_column df c) eqn:E; [|reflexivity].
  apply IH. exists c'. split; [|exact Hno].
  destruct Hin as [->|Hin]; [|exact Hin].
  apply has_column_In in E. contradiction.
Qed.

(** X6. When the fetched frame lacks one of Open, High, Low, Close, Volume
    (and the cutoff is a datetime), [get_data_for_backtesting] raises
    [ValueError]; the download has already happened by then, so the events
    are those of the fetch. *)
Theorem X6_missing_required_column_raises
    (w : World) (ticker granularity : string) (Y : Z)
    (tr : list event) (df : DataFrame) (start : Z) (c : string) :
  fetch_stock_data w ticker granularity = (tr, Ok df) ->
  start_date (now w) Y = Ok start ->
  In c ["Open"; "High"; "Low"; "Close"; "Volume"] ->
  ~ In c (columns df) ->
  get_data_for_backtesting w ticker granularity Y = (tr, Raise ValueError).
Proof.
  intros Hf Hs Hc Hno. unfold get_data_for_backtesting. rewrite Hf.
  cbn -[check_columns required_columns start_date filter_since].
  rewrite Hs. cbn -[check_columns required_columns filter_since].
  rewrite check_columns_missing; [cbn; now rewrite app_nil_r|].
  exists c. split; [exact Hc|exact Hno].
Qed.

Lemma X6_witness :
  get_data_for_backtesting
    (world_of (mkDF ["Open"; "Close"] [mkRow 0 [price 1; price 2]]))
    "TSLA" "Minute" 5
  = ([HttpGet (download_url tsla_url)], Raise ValueError).
Proof.
  refine (X6_missing_required_column_raises _ "TSLA" "Minute" 5 _
            (ffill (mkDF ["Open"; "Close"] [mkRow 0 [price 1; price 2]]))
            (1793750400 * 1000000000 - 365 * 5 * ns_per_day) "High" _ _ _ _).
  - vm_compute. reflexivity.
  - vm_compute. reflexivity.
  - cbn. tauto.
  - cbn. intros [H|[H|[]]]; discriminate H.
Defined.

Lemma filter_sorted_suffix (start : Z) (l : list Row) :
  strictly_increasing (map Date l) ->
  exists m, List.filter (fun r => start <=? Date r) l = skipn m l.
Proof.
  unfold strictly_increasing. induction l as [|x l IH]; intros H.
  - now exists O.
  - cbn in H. apply StronglySorted_inv in H as [Hl Hx].
    destruct (start <=? Date x) eqn:E.
    + exists O. cbn [skipn List.filter]. rewrite E. f_equal.
      apply Z.leb_le in E. rewrite List.Forall_forall in Hx.
      clear IH Hl. induction l as [|y l IHl]; [reflexivity|].
      cbn. assert (Hy : (start <=? Date y) = true).
      { apply Z.leb_le. assert (Date x < Date y) by (apply Hx; now left). lia. }
      rewrite Hy. f_equal. apply IHl. intros d Hd. apply Hx. now right.
    + destruct (IH Hl) as [m Hm]. exists (S m).
      cbn [skipn List.filter]. now rewrite E.
Qed.

(** X7. On a series fetched with Daily, Weekly or Monthly granularity the
    date filter keeps a trailing window: the retained bars are the series
    with some number of its earliest bars removed, never a bar in the
    middle. *)
Theorem X7_filter_keeps_trailing_window
    (w : World) (ticker granularity : string) (f : freq)
    (tr : list event) (df : DataFrame) (start : Z) :
  granularity_freq granularity = Ok f ->
  fetch_stock_data w ticker granularity = (tr, Ok df) ->
  exists m, rows (filter_since start df) = skipn m (rows df).
Proof.
  intros Hf Hfetch.
  destruct (fetch_resampled_inv _ _ _ _ _ _ Hf Hfetch) as [raw ->].
  apply filter_sorted_suffix.
  apply (dropna_ordered (resample_last f (ffill raw))), resample_last_dates.
Qed.

Lemma X7_witness :
  exists m,
    rows (filter_since (20728 * ns_per_day) (dropna (resample_last D (ffill raw_2026))))
    = skipn m (rows (dropna (resample_last D (ffill raw_2026)))).
Proof.
  refine (X7_filter_keeps_trailing_window (world_of raw_2026) "TSLA" "Daily" D
            [HttpGet (download_url tsla_url);
             Print "The set level of Granularity is: D."]
            (dropna (resample_last D (ffill raw_2026)))
            (20728 * ns_per_day) _ _).
  - reflexivity.
  - vm_compute. reflexivity.
Defined.

(** ** The aggregator: shape of the combined table *)

Lemma tset_label (t : Table) (name : string) (v : value) :
  In name (tcolumns (tset t name v)).
Proof.
  unfold tset. destruct (tindex name (tcolumns t)) as [j|] eqn:E; cbn.
  - destruct (tindex_Some _ _ _ E) as [Hlt Hnth]. rewrite <- Hnth. now apply nth_In.
  - apply in_or_app. right. now left.
Qed.

Lemma tset_keeps_labels (t : Table) (name c : string) (v : value) :
  In c (tcolumns t) -> In c (tcolumns (tset t name v)).
Proof.
  unfold tset. destruct (tindex name (tcolumns t)); cbn; [auto|].
  intros H. apply in_or_app. now left.
Qed.

Lemma tset_rows_length (t : Table) (name : string) (v : value) :
  length (trows (tset t name v)) = length (trows t).
Proof.
  unfold tset. destruct (tindex name (tcolumns t)); cbn; apply length_map.
Qed.

(** What a successfully loaded file looks like. *)
Lemma load_file_inv (d : Disk) (file : string) (df : Table) :
  load_file d file = Ok df ->
  exists t time,
    read_stats d file = Ok t /\ trows t <> [] /\
    df = tset (tset t "filename" (VStr file)) "timestamp" time.
Proof.
  unfold load_file. destruct (read_stats d file) as [t|e]; [|discriminate].
  cbn [rbind].
  destruct (trows (tset t "filename" (VStr file))) as [|r rs] eqn:Er;
    [discriminate|].
  cbn [rbind].
  assert (Hne : trows t <> []).
  { intros E. pose proof (tset_rows_length t "filename" (VStr file)) as L.
    rewrite Er, E in L. discriminate L. }
  destruct (extract_stamp file) as [s|].
  - destruct (to_datetime d s) as [ts|e]; [|discriminate]. cbn [rbind].
    intros [= <-]. exists t, (VTime ts). repeat split; assumption.
  - cbn [rbind]. intros [= <-]. exists t, VNaN. repeat split; assumption.
Qed.

Lemma load_files_length (d : Disk) (files : list string) (dfs : list Table) :
  load_files d files = Ok dfs -> length dfs = length files.
Proof.
  revert dfs. induction files as [|f fs IH]; cbn; intros dfs H.
  - now injection H as <-.
  - destruct (load_file d f) as [df|e]; [|discriminate]. cbn [rbind] in H.
    destruct (load_files d fs) as [rest|e]; [|discriminate]. cbn [rbind] in H.
    injection H as <-. cbn. now rewrite (IH rest).
Qed.

Lemma load_files_In (d : Disk) (files : list string) (dfs : list Table) (df : Table) :
  load_files d files = Ok dfs -> In df dfs ->
  exists f, In f files /\ load_file d f = Ok df.
Proof.
  revert dfs. induction files as [|f fs IH]; cbn; intros dfs H Hin.
  - injection H as <-. contradiction.
  - destruct (load_file d f) as [df0|e] eqn:E0; [|discriminate]. cbn [rbind] in H.
    destruct (load_files d fs) as [rest|e]; [|discriminate]. cbn [rbind] in H.
    injection H as <-. destruct Hin as [<-|Hin].
    + exists f. auto.
    + destruct (IH rest eq_refl Hin) as (f' & Hf' & Hl). exists f'. auto.
Qed.

Lemma load_results_inv (d : Disk) (dir : string) (tr : list event) (t : Table) :
  load_results d dir = (tr, Ok (Some t)) ->
  tr = [] /\ glob_stats d <> [] /\
  exists dfs, load_files d (glob_stats d) = Ok dfs /\ t = concat dfs.
Proof.
  unfold load_results. destruct (glob_stats d) as [|f fs] eqn:G.
  - cbn. discriminate.
  - destruct (load_files d (f :: fs)) as [dfs|e]; cbn; [|discriminate].
    intros [= <- <-]. split; [reflexivity|]. split; [discriminate|].
    now exists dfs.
Qed.

Lemma concat_rows_length (dfs : list Table) :
  length (trows (concat dfs))
  = list_sum (map (fun t => length (trows t)) dfs).
Proof.
  unfold concat. cbn [trows]. generalize (union_columns dfs). intros cols.
  induction dfs as [|t dfs IH]; cbn; [reflexivity|].
  now rewrite length_app, length_map, IH.
Qed.

Lemma concat_well_formed (dfs : list Table) :
  Forall (fun r => length r = length (tcolumns (concat dfs))) (trows (concat dfs)).
Proof.
  unfold concat. cbn [trows tcolumns]. rewrite List.Forall_forall. intros r Hr.
  apply in_flat_map in Hr as (t & _ & Hr).
  apply in_map_iff in Hr as (r0 & <- & _).
  unfold reindex. apply length_map.
Qed.

Lemma load_results_shape
    (d : Disk) (dir : string) (tr : list event) (t : Table) :
  load_results d dir = (tr, Ok (Some t)) ->
  table_empty t = false /\
  In "filename" (tcolumns t) /\ In "timestamp" (tcolumns t) /\
  (length (glob_stats d) <= length (trows t))%nat.
Proof.
  intros H. apply load_results_inv in H as (_ & Hne & dfs & Hl & ->).
  assert (Hlabels : forall df, In df dfs ->
            In "filename" (tcolumns df) /\ In "timestamp" (tcolumns df) /\
            (1 <= length (trows df))%nat).
  { intros df Hdf. destruct (load_files_In _ _ _ _ Hl Hdf) as (f & _ & Hf).
    apply load_file_inv in Hf as (t0 & time & _ & Hrows & ->).
    split; [apply tset_keeps_labels, tset_label|].
    split; [apply tset_label|].
    rewrite !tset_rows_length. destruct (trows t0); [contradiction|cbn; lia]. }
  assert (Hlen : (length dfs <= length (trows (concat dfs)))%nat).
  { rewrite concat_rows_length. clear Hl Hne.
    induction dfs as [|df dfs IH]; [cbn; lia|].
    change (S (length dfs)
            <= length (trows df) + list_sum (map (fun t => length (trows t)) dfs))%nat.
    assert (H1 : (1 <= length (trows df))%nat) by (apply Hlabels; now left).
    assert (H2 : (length dfs <= list_sum (map (fun t => length (trows t)) dfs))%nat).
    { apply IH. intros df' Hdf'. apply Hlabels. now right. }
    lia. }
  pose proof (load_files_length _ _ _ Hl) as Hn.
  destruct dfs as [|df dfs].
  { destruct (glob_stats d); [contradiction|discriminate]. }
  destruct (Hlabels df (or_introl eq_refl)) as (Hf & Hts & _).
  assert (Hfc : In "filename" (tcolumns (concat (df :: dfs)))).
  { apply union_columns_In. exists df. split; [now left|assumption]. }
  assert (Htc : In "timestamp" (tcolumns (concat (df :: dfs)))).
  { apply union_columns_In. exists df. split; [now left|assumption]. }
  split; [|split; [exact Hfc|split; [exact Htc|]]].
  - unfold table_empty. apply orb_false_iff. split; apply Nat.eqb_neq.
    + destruct (tcolumns (concat (df :: dfs))); [contradiction|discriminate].
    + cbn [length] in Hlen. lia.
  - rewrite <- Hn. exact Hlen.
Qed.

(** X9. Whatever [load_results] returns as a table is not empty: it has at
    least one record per matching file and carries the columns [filename]
    and [timestamp], so the guard [not results.empty] of [main] never
    skips a loaded table. *)
Theorem X9_load_results_never_empty
    (d : Disk) (dir : string) (tr : list event) (t : Table) :
  load_results d dir = (tr, Ok (Some t)) ->
  table_empty t = false /\
  In "filename" (tcolumns t) /\ In "timestamp" (tcolumns t) /\
  (length (glob_stats d) <= length (trows t))%nat.
Proof. apply load_results_shape. Qed.

Lemma X9_witness :
  table_empty (concat
       [tset (tset run_a "filename" (VStr "stats_20240101_120000.csv"))
             "timestamp" (VTime 1704110400000000000);
        tset (tset run_b "filename" (VStr "stats_20240102_120000.csv"))
             "timestamp" (VTime 1704196800000000000)]) = false.
Proof.
  refine (proj1 (X9_load_results_never_empty disk_mismatch "results/" [] _ _)).
  vm_compute. reflexivity.
Defined.

(** X10. The table [load_results] returns is rectangular: every record
    holds exactly one cell per column of the combined table, there is one
    frame per matching file, and the number of records is the sum of the
    numbers of records of the files. *)
Theorem X10_combined_table_rectangular
    (d : Disk) (dir : string) (tr : list event) (t : Table) :
  load_results d dir = (tr, Ok (Some t)) ->
  exists dfs,
    load_files d (glob_stats d) = Ok dfs /\
    length dfs = length (glob_stats d) /\
    Forall (fun r => length r = length (tcolumns t)) (trows t) /\
    length (trows t) = list_sum (map (fun df => length (trows df)) dfs).
Proof.
  intros H. apply load_results_inv in H as (_ & _ & dfs & Hl & ->).
  exists dfs. split; [exact Hl|]. split; [exact (load_files_length _ _ _ Hl)|].
  split; [apply concat_well_formed|apply concat_rows_length].
Qed.

Lemma X10_witness :
  exists dfs,
    load_files disk_two_runs (glob_stats disk_two_runs) = Ok dfs /\
    length dfs = 2%nat /\
    Forall (fun r => length r = 7%nat) (trows (concat dfs)) /\
    length (trows (concat dfs)) = 2%nat.
Proof.
  destruct (X10_combined_table_rectangular disk_two_runs "results/" []
              (concat
                 [tset (tset run_1 "filename" (VStr "stats_20240101_120000.csv"))
                       "timestamp" (VTime 1704110400000000000);
                  tset (tset run_2 "filename" (VStr "stats_20240102_120000.csv"))
                       "timestamp" (VTime 1704196800000000000)]))
    as (dfs & Hl & Hn & Hw & Hs).
  - vm_compute. reflexivity.
  - exists dfs. vm_compute in Hl. injection Hl as <-.
    split; [reflexivity|]. split; [exact Hn|]. split; [exact Hw|exact Hs].
Defined.

Lemma load_files_raise (d : Disk) (files : list string) (f : string) (e : exn) :
  In f files -> load_file d f = Raise e ->
  exists e', load_files d files = Raise e'.
Proof.
  induction files as [|x files IH]; intros Hin Hf; [contradiction|].
  cbn [load_files]. destruct Hin as [->|Hin].
  - rewrite Hf. cbn. eauto.
  - destruct (load_file d x) as [df|e1]; cbn [rbind]; [|eauto].
    destruct (IH Hin Hf) as [e' ->]. cbn. eauto.
Qed.

Lemma glob_stats_exists (d : Disk) (f : string) :
  In f (glob_stats d) -> dir_exists d = true.
Proof.
  unfold glob_stats. destruct (dir_exists d); [reflexivity|contradiction].
Qed.

(** X11. A statistics file with a header and no record makes the loop of
    [load_results] raise an [IndexError] at that file, and one such file
    among the matching ones aborts the whole analysis: [load_results] and
    [main] raise without having printed or written anything, however many
    good files there are. *)
Theorem X11_empty_run_file_aborts_analysis
    (c : Config) (d : Disk) (f : string) (t : Table) :
  In f (glob_stats d) -> read_stats d f = Ok t -> trows t = [] ->
  load_file d f = Raise IndexError /\
  exists e,
    load_results d (RESULTS_PATH c) = ([], Raise e) /\
    main c d = ([], Raise e).
Proof.
  intros Hin Hread Hrows.
  assert (Hf : load_file d f = Raise IndexError).
  { unfold load_file. rewrite Hread. cbn [rbind].
    pose proof (tset_rows_length t "filename" (VStr f)) as L.
    rewrite Hrows in L.
    destruct (trows (tset t "filename" (VStr f))); [reflexivity|discriminate L]. }
  split; [exact Hf|].
  destruct (load_files_raise _ _ _ _ Hin Hf) as [e He].
  exists e.
  assert (Hl : load_results d (RESULTS_PATH c) = ([], Raise e)).
  { unfold load_results. destruct (glob_stats d) as [|x xs]; [contradiction|].
    rewrite He. reflexivity. }
  split; [exact Hl|].
  unfold main. rewrite (glob_stats_exists _ _ Hin). cbn [negb].
  rewrite Hl. reflexivity.
Qed.

Lemma X11_witness :
  load_file disk_empty_run "stats_20240102_120000.csv" = Raise IndexError /\
  exists e,
    load_results disk_empty_run (RESULTS_PATH config) = ([], Raise e) /\
    main config disk_empty_run = ([], Raise e).
Proof.
  apply (X11_empty_run_file_aborts_analysis config disk_empty_run
           "stats_20240102_120000.csv" (mkTable headline [])).
  - vm_compute. right. left. reflexivity.
  - reflexivity.
  - reflexivity.
Defined.

(** ** From the runner to the aggregator: the name of the statistics file *)

Lemma is_stamp_chars (ts : string) :
  is_stamp ts = true ->
  exists c1 c2 c3 c4 c5 c6 c7 c8 c9 c10 c11 c12 c13 c14 c15,
    ts = String c1 (String c2 (String c3 (String c4 (String c5 (String c6
         (String c7 (String c8 (String c9 (String c10 (String c11
         (String c12 (String c13 (String c14 (String c15 EmptyString)))))))))))))).
Proof.
  unfold is_stamp. intros H.
  apply andb_prop in H as [H _]. apply andb_prop in H as [H _].
  apply andb_prop in H as [H _]. apply Nat.eqb_eq in H.
  do 15 (destruct ts as [|? ts]; [discriminate H|]).
  destruct ts; [|discriminate H].
  repeat eexists.
Qed.

Lemma extract_stamp_head (s m : string) :
  stamp_at s = Some m -> extract_stamp s = Some m.
Proof. intros H. destruct s; cbn [extract_stamp]; now rewrite H. Qed.

(** X12. The file a run saves its statistics in is found again by the
    aggregator: for a timestamp of the shape [strftime] gives it (eight
    digits, an underscore, six digits) the name [stats_<timestamp>.csv]
    matches the pattern [stats_*.csv], and the timestamp extracted from
    the name is the one the run wrote. *)
Theorem X12_stats_name_round_trip (timestamp : string) :
  is_stamp timestamp = true ->
  stats_match (stats_name timestamp) = true /\
  extract_stamp (stats_name timestamp) = Some timestamp.
Proof.
  intros H.
  destruct (is_stamp_chars _ H)
    as (c1 & c2 & c3 & c4 & c5 & c6 & c7 & c8 & c9 & c10 & c11 & c12 & c13
        & c14 & c15 & ->).
  split; [reflexivity|].
  apply extract_stamp_head. unfold stamp_at.
  cbv -[is_digit Ascii.eqb] in H. cbv -[is_digit Ascii.eqb].
  rewrite H. reflexivity.
Qed.

Lemma X12_witness :
  stats_match (stats_name "20240101_120000") = true /\
  extract_stamp (stats_name "20240101_120000") = Some "20240101_120000".
Proof.
  apply (X12_stats_name_round_trip "20240101_120000"). reflexivity.
Defined.

(** ** The summary and the dashboard *)





Lemma column_mean_tget (t : Table) (name : string) (v : value) :
  column_mean t name = Ok v -> exists col, tget t name = Ok col.
Proof.
  unfold column_mean. destruct (tget t name) as [col|e]; [eauto|discriminate].
Qed.

Lemma column_mean_missing (t : Table) (name : string) :
  ~ In name (tcolumns t) -> column_mean t name = Raise KeyError.
Proof.
  intros H. unfold column_mean, tget.
  destruct (tindex name (tcolumns t)) as [j|] eqn:E; [|reflexivity].
  destruct (tindex_Some _ _ _ E) as [Hlt Hnth]. exfalso. apply H.
  rewrite <- Hnth. now apply nth_In.
Qed.

(** What a summary that [analyze_trades] returns was made of. *)
Lemma analyze_trades_inv (c : Config) (d : Disk) (t : Table)
    (tr : list event) (s : Summary) :
  analyze_trades c d (Some t) = (tr, Ok (Some s)) ->
  table_empty t = false /\
  column_mean t "Return [%]" = Ok (avg_return s) /\
  column_mean t "Sharpe Ratio" = Ok (avg_sharpe s) /\
  column_mean t "Max. Drawdown [%]" = Ok (avg_drawdown s) /\
  column_mean t "Win Rate [%]" = Ok (avg_win_rate s) /\
  column_mean t "# Trades" = Ok (avg_trades s) /\
  num_backtests s = length (trows t) /\
  ticker s = TICKER c /\
  tr = [PrintReport s;
        WriteCsv (path_join (RESULTS_PATH c)
                    ("strategy_summary_" +:+ clock_compact d +:+ ".csv")) s;
        Print ("Strategy summary saved to " +:+
               path_join (RESULTS_PATH c)
                 ("strategy_summary_" +:+ clock_compact d +:+ ".csv"))].
Proof.
  unfold analyze_trades. destruct (table_empty t); [cbn; discriminate|].
  destruct (column_mean t "Return [%]") as [r|e]; [|cbn; discriminate].
  destruct (column_mean t "Sharpe Ratio") as [sh|e]; [|cbn; discriminate].
  destruct (column_mean t "Max. Drawdown [%]") as [dd|e]; [|cbn; discriminate].
  destruct (column_mean t "Win Rate [%]") as [wr|e]; [|cbn; discriminate].
  destruct (column_mean t "# Trades") as [nt|e]; [|cbn; discriminate].
  cbn -[path_join]. intros [= <- <-]. cbn. repeat split; reflexivity.
Qed.



(** X14. When one of the five headline columns is missing from a loaded,
    non-empty table, [analyze_trades] raises before it has printed or
    written anything, and so does [main]: no summary file and no plot are
    produced. *)
Theorem X14_missing_metric_no_output
    (c : Config) (d : Disk) (t : Table) (name : string) :
  load_results d (RESULTS_PATH c) = ([], Ok (Some t)) ->
  In name ["Return [%]"; "Sharpe Ratio"; "Max. Drawdown [%]"; "Win Rate [%]";
           "# Trades"] ->
  ~ In name (tcolumns t) ->
  exists e,
    analyze_trades c d (Some t) = ([], Raise e) /\
    main c d = ([], Raise e).
Proof.
  intros Hl Hname Hmiss.
  destruct (load_results_shape _ _ _ _ Hl) as (Hne & _).
  pose proof (column_mean_missing _ _ Hmiss) as Hk.
  assert (Ha : exists e, analyze_trades c d (Some t) = ([], Raise e)).
  { unfold analyze_trades. rewrite Hne.
    destruct (column_mean t "Return [%]") as [r|e] eqn:E1; [|cbn; eauto].
    destruct (column_mean t "Sharpe Ratio") as [sh|e] eqn:E2; [|cbn; eauto].
    destruct (column_mean t "Max. Drawdown [%]") as [dd|e] eqn:E3; [|cbn; eauto].
    destruct (column_mean t "Win Rate [%]") as [wr|e] eqn:E4; [|cbn; eauto].
    destruct (column_mean t "# Trades") as [nt|e] eqn:E5; [|cbn; eauto].
    exfalso. cbn [In] in Hname.
    destruct Hname as [<-|[<-|[<-|[<-|[<-|[]]]]]]; congruence. }
  destruct Ha as [e Ha]. exists e. split; [exact Ha|].
  unfold main.
  assert (Hex : dir_exists d = true).
  { unfold load_results, glob_stats in Hl.
    destruct (dir_exists d); [reflexivity|discriminate Hl]. }
  rewrite Hex. cbn [negb]. rewrite Hl. cbn [bind app]. rewrite Hne. cbn [negb].
  rewrite Ha. reflexivity.
Qed.

Lemma X14_witness :
  exists e,
    analyze_trades config disk_mismatch
      (Some (concat
         [tset (tset run_a "filename" (VStr "stats_20240101_120000.csv"))
               "timestamp" (VTime 1704110400000000000);
          tset (tset run_b "filename" (VStr "stats_20240102_120000.csv"))
               "timestamp" (VTime 1704196800000000000)]))
    = ([], Raise e) /\
    main config disk_mismatch = ([], Raise e).
Proof.
  apply (X14_missing_metric_no_output config disk_mismatch _ "Win Rate [%]").
  - reflexivity.
  - cbn. tauto.
  - cbn. intros H. repeat (destruct H as [H|H]; [discriminate H|]). exact H.
Defined.

(** X15. Once the summary has been computed, no column lookup of the
    dashboard can fail: [timestamp] is a column of every loaded table and
    the metric columns have been read for the summary already. So [main]
    on a directory whose files load and whose summary is made goes on to
    the figure: what it does is the report, the summary file, then saving
    [performance_metrics_<time>.png] and showing the plot, in this
    order. *)
Theorem X15_main_reports_then_plots
    (c : Config) (d : Disk) (t : Table) (tr0 tr : list event) (s : Summary) :
  load_results d (RESULTS_PATH c) = (tr0, Ok (Some t)) ->
  analyze_trades c d (Some t) = (tr, Ok (Some s)) ->
  main c d
  = (tr ++
     [SaveFig (path_join (RESULTS_PATH c)
                 ("performance_metrics_" +:+ clock_compact d +:+ ".png"));
      Print ("Performance metrics plot saved to " +:+
             path_join (RESULTS_PATH c)
               ("performance_metrics_" +:+ clock_compact d +:+ ".png"));
      ShowPlot],
     Ok tt).
Proof.
  intros Hl Ha.
  destruct (load_results_shape _ _ _ _ Hl) as (Hne & _ & Hts & _).
  pose proof (load_results_inv _ _ _ _ Hl) as (-> & Hg & _).
  assert (Hex : dir_exists d = true).
  { unfold glob_stats in Hg. destruct (dir_exists d); [reflexivity|contradiction]. }
  destruct (analyze_trades_inv _ _ _ _ _ Ha)
    as (_ & Hr & Hs & Hd & Hw & _).
  apply column_mean_tget in Hr as [cr Hr]. apply column_mean_tget in Hs as [cs Hs].
  apply column_mean_tget in Hd as [cd Hd]. apply column_mean_tget in Hw as [cw Hw].
  assert (Ht : exists ct, tget t "timestamp" = Ok ct).
  { unfold tget. destruct (tindex_In _ _ Hts) as [j ->]. eauto. }
  destruct Ht as [ct Ht].
  unfold main. rewrite Hex. cbn [negb]. rewrite Hl. cbn [bind app].
  rewrite Hne. cbn [negb]. rewrite Ha. cbn [bind].
  unfold plot_performance_metrics. rewrite Hne, Ht, Hr, Hs, Hd, Hw.
  cbn -[path_join]. reflexivity.
Qed.

Lemma X15_witness :
  exists tr,
    main config disk_two_runs
    = (tr ++
       [SaveFig "results/performance_metrics_20261104_000000.png";
        Print "Performance metrics plot saved to results/performance_metrics_20261104_000000.png";
        ShowPlot],
       Ok tt).
Proof.
  eexists.
  refine (X15_main_reports_then_plots config disk_two_runs _ [] _ _ _ _).
  - reflexivity.
  - reflexivity.
Defined.

(** ** The runner *)

Lemma get_data_unknown_ticker (w : World) (ticker granularity : string) (Y : Z) :
  get_url_dict !! ticker = None ->
  get_data_for_backtesting w ticker granularity Y = ([], Raise KeyError).
Proof.
  intros H. unfold get_data_for_backtesting.
  rewrite (fetch_unknown_ticker _ _ _ H). reflexivity.
Qed.

(** X16. A failure of the plot does not lose the results of a run: when
    the data are there and the engine has produced its statistics,
    [run_backtest] with [visualize=True] returns these statistics whatever
    [bt.plot] does, and with [save_results=True] the statistics file
    [stats_<timestamp>.csv] has been written before the plot is
    attempted. *)
Theorem X16_plot_failure_keeps_results
    (c : Config) (w : World) (eng : Engine) (path_exists save_results : bool)
    (timestamp : string) (tr : list event) (data : DataFrame) (stats : Stats) :
  get_data_for_backtesting w (TICKER c) (DATA_GRANULARITY c) (LOOKBACK_YEARS c)
  = (tr, Ok data) ->
  bt_run eng data (next (init c)) (INITIAL_CASH c) (COMMISSION_RATE c) = Ok stats ->
  exists before filename after,
    run_backtest c w eng path_exists timestamp true save_results
    = (before ++ Plot filename :: after, Ok stats) /\
    List.filter writes_file after = [] /\
    (save_results = true ->
     In (ToCsv (RESULTS_PATH c +:+ "/" +:+ stats_name timestamp) (stats_frame stats))
        before).
Proof.
  intros Hd Hr. unfold run_backtest. rewrite Hd, Hr.
  exists (map Fetch tr ++ [PrintStats stats]
          ++ (if save_results && negb path_exists then [MkDir (RESULTS_PATH c)] else [])
          ++ (if save_results
              then [ToCsv (RESULTS_PATH c +:+ "/" +:+ stats_name timestamp)
                          (stats_frame stats)]
              else [])).
  exists (if save_results
          then Some (RESULTS_PATH c +:+ "/backtest_plot_" +:+ timestamp +:+ ".html")
          else None).
  eexists. split; [|split].
  - cbv zeta. rewrite <- !app_assoc. reflexivity.
  - destruct (bt_plot eng _); reflexivity.
  - intros ->. apply in_or_app. right. apply in_or_app. right.
    apply in_or_app. right. now left.
Qed.

Lemma X16_witness :
  exists before filename after,
    run_backtest config (world_of raw_2026) engine_no_plot false
      "20261104_000000" true true
    = (before ++ Plot filename :: after, Ok sample_stats) /\
    List.filter writes_file after = [] /\
    In (ToCsv "results//stats_20261104_000000.csv" (stats_frame sample_stats))
       before.
Proof.
  destruct (X16_plot_failure_keeps_results config (world_of raw_2026)
              engine_no_plot false true "20261104_000000"
              [HttpGet (download_url tsla_url);
               Print "The set level of Granularity is: D."]
              raw_2026 sample_stats)
    as (before & filename & after & H1 & H2 & H3).
  - vm_compute. reflexivity.
  - reflexivity.
  - exists before, filename, after.
    split; [exact H1|]. split; [exact H2|exact (H3 eq_refl)].
Defined.

(** X17. With [save_results=False] [run_backtest] saves nothing of its
    own, whether it succeeds or fails and whether it plots or not: it
    creates no directory, writes no statistics file, and calls [bt.plot]
    with [filename=None] only, leaving the choice of a file to the
    plotting library. *)
Theorem X17_no_save_writes_no_results
    (c : Config) (w : World) (eng : Engine) (path_exists visualize : bool)
    (timestamp : string) :
  List.filter writes_file
    (fst (run_backtest c w eng path_exists timestamp visualize false)) = [].
Proof.
  unfold run_backtest.
  assert (Hf : forall tr, List.filter writes_file (map Fetch tr) = []).
  { induction tr as [|e tr IH]; [reflexivity|exact IH]. }
  destruct (get_data_for_backtesting _ _ _ _) as [tr [data|e]]; [|apply Hf].
  destruct (bt_run eng data _ _ _) as [stats|e]; [|apply Hf].
  cbn [fst andb]. rewrite List.filter_app, Hf.
  destruct visualize; [|reflexivity].
  destruct (bt_plot eng None); reflexivity.
Qed.

(** X18. A ticker that is not in the table stops [run_backtest] at once:
    the [KeyError] of the lookup comes through the data pipeline
    unchanged, no request is sent, the engine is not run and nothing is
    printed or written. *)
Theorem X18_unknown_ticker_stops_run
    (c : Config) (w : World) (eng : Engine) (path_exists visualize save_results : bool)
    (timestamp : string) :
  get_url_dict !! TICKER c = None ->
  run_backtest c w eng path_exists timestamp visualize save_results
  = ([], Raise KeyError).
Proof.
  intros H. unfold run_backtest.
  now rewrite (get_data_unknown_ticker _ _ _ _ H).
Qed.

Lemma X18_witness :
  run_backtest (mkConfig "MSFT" 10000 5 "Daily" 0x1.0624dd2f1a9fcp-10 100000 "results/")
    (world_of raw_2026) engine_no_plot false "20261104_000000" true true
  = ([], Raise KeyError).
Proof.
  apply X18_unknown_ticker_stops_run. reflexivity.
Defined.

(** ** The forward fill *)

Lemma fill_cells_nth (prev cur : list cell) (j : nat) :
  (j < length cur)%nat ->
  nth j (fill_cells prev cur) None = fill_cell (nth j prev None) (nth j cur None).
Proof.
  revert prev j. induction cur as [|c cur IH]; intros prev j Hj; [cbn in Hj; lia|].
  destruct j as [|j]; cbn [fill_cells nth].
  - now destruct prev.
  - cbn [length] in Hj. rewrite IH by lia. destruct prev; [|reflexivity].
    now destruct j.
Qed.

(** Down a column, a filled cell is the raw cell if it has a value, the
    filled cell above it otherwise. *)
Lemma ffill_rows_nth (j : nat) (rs : list Row) :
  Forall (fun r => (j < length (cells r))%nat) rs ->
  forall (prev : list cell) (i : nat), (i < length rs)%nat ->
  nth i (column_at j (ffill_rows prev rs)) None
  = fill_cell (match i with
               | O => nth j prev None
               | S i' => nth i' (column_at j (ffill_rows prev rs)) None
               end)
              (nth i (column_at j rs) None).
Proof.
  induction 1 as [|r rs Hr _ IH]; intros prev i Hi; [cbn in Hi; lia|].
  destruct i as [|i].
  - cbn. now apply fill_cells_nth.
  - cbn [length] in Hi.
    change (nth (S i) (column_at j (ffill_rows prev (r :: rs))) None)
      with (nth i (column_at j (ffill_rows (fill_cells prev (cells r)) rs)) None).
    change (nth (S i) (column_at j (r :: rs)) None)
      with (nth i (column_at j rs) None).
    rewrite IH by lia. reflexivity.
Qed.

Lemma fill_seq_spec (a b : nat -> cell) (n : nat) :
  a O = b O ->
  (forall i, (S i < n)%nat -> a (S i) = fill_cell (a i) (b (S i))) ->
  forall i, (i < n)%nat ->
    (a i = None <-> forall k, (k <= i)%nat -> b k = None) /\
    (forall q, a i = Some q <->
       exists k, (k <= i)%nat /\ b k = Some q /\
                 forall m, (k < m <= i)%nat -> b m = None).
Proof.
  intros H0 Hstep. induction i as [|i IH]; intros Hi.
  - rewrite H0. split.
    + split.
      * intros Hb k Hk. now replace k with O by lia.
      * intros Hall. apply Hall. lia.
    + intros q. split.
      * intros Hb. exists O. split; [lia|]. split; [exact Hb|]. intros m Hm. lia.
      * intros (k & Hk & Hb & _). now replace k with O in Hb by lia.
  - destruct (IH ltac:(lia)) as [IHn IHs]. rewrite (Hstep i Hi).
    destruct (b (S i)) as [v|] eqn:Eb; cbn [fill_cell].
    + split.
      * split; [discriminate|]. intros Hall.
        specialize (Hall (S i) ltac:(lia)). congruence.
      * intros q. split.
        -- intros [= <-]. exists (S i). split; [lia|]. split; [exact Eb|].
           intros m Hm. lia.
        -- intros (k & Hk & Hb & Hgap).
           destruct (Nat.eq_dec k (S i)) as [->|Hne]; [congruence|].
           specialize (Hgap (S i) ltac:(lia)). congruence.
    + split.
      * rewrite IHn. split.
        -- intros Hall k Hk. destruct (Nat.eq_dec k (S i)) as [->|Hne];
             [exact Eb|apply Hall; lia].
        -- intros Hall k Hk. apply Hall. lia.
      * intros q. rewrite IHs. split.
        -- intros (k & Hk & Hb & Hgap). exists k. split; [lia|].
           split; [exact Hb|]. intros m Hm.
           destruct (Nat.eq_dec m (S i)) as [->|Hne]; [exact Eb|apply Hgap; lia].
        -- intros (k & Hk & Hb & Hgap).
           destruct (Nat.eq_dec k (S i)) as [->|Hne]; [congruence|].
           exists k. split; [lia|]. split; [exact Hb|].
           intros m Hm. apply Hgap. lia.
Qed.

Lemma ffill_rows_lengths (n : nat) (rs : list Row) :
  Forall (fun r => length (cells r) = n) rs ->
  forall prev, Forall (fun r => length (cells r) = n) (ffill_rows prev rs).
Proof.
  induction 1 as [|r rs Hr _ IH]; intros prev; cbn [ffill_rows]; constructor.
  - cbn [cells]. now rewrite fill_cells_length.
  - apply IH.
Qed.

(** C9. With the granularity "Minute" the fetcher returns the document
    forward-filled and otherwise untouched. There is no resampling: the
    result has the columns of the document and its dates, bar for bar in
    the order of the document. It is forward-filled: in a well-formed
    document every cell of the result holds the latest value the document
    has at that bar or above it in the same column, and is missing when
    there is none. No notice of a frequency is printed (the only event is
    the request) and no error is raised. *)
Theorem C9_minute_returns_unresampled
    (w : World) (ticker url : string) (raw : DataFrame) :
  serves w ticker url raw ->
  exists out,
    fetch_stock_data w ticker "Minute"
    = ([HttpGet (download_url url)], Ok out) /\
    columns out = columns raw /\
    dates out = dates raw /\
    (well_formed raw ->
     well_formed out /\
     forall j i, (j < length (columns raw))%nat -> (i < length (rows raw))%nat ->
       nth i (column_at j (rows out)) None
       = latest_value (column_at j (rows raw)) i).
Proof.
  intros Hs. exists (ffill raw).
  split; [now apply fetch_minute|]. split; [reflexivity|].
  split; [apply ffill_dates|].
  intros Hwf. split.
  { unfold well_formed, ffill. cbn [rows columns]. now apply ffill_rows_lengths. }
  intros j i Hj Hi.
  assert (Hw : Forall (fun r => (j < length (cells r))%nat) (rows raw)).
  { unfold well_formed in Hwf. rewrite List.Forall_forall in Hwf |- *.
    intros r Hr. rewrite (Hwf r Hr). exact Hj. }
  unfold ffill. cbn [rows].
  induction i as [|i IH].
  - rewrite (ffill_rows_nth j _ Hw [] O Hi). cbn [latest_value].
    replace (nth j (@nil cell) None) with (@None Q) by now destruct j.
    now destruct (nth 0 (column_at j (rows raw)) None).
  - rewrite (ffill_rows_nth j _ Hw [] (S i) Hi). rewrite IH by lia.
    cbn [latest_value].
    now destruct (nth (S i) (column_at j (rows raw)) None).
Qed.

Lemma C9_witness :
  exists out,
    fetch_stock_data (world_of raw_1970) "TSLA" "Minute"
    = ([HttpGet (download_url tsla_url)], Ok out) /\
    dates out = dates raw_1970 /\
    nth 1 (column_at 4 (rows out)) None = Some (inject_Z 500).
Proof.
  destruct (C9_minute_returns_unresampled (world_of raw_1970) "TSLA" tsla_url
              raw_1970 (serves_example raw_1970))
    as (out & Hfetch & _ & Hdates & Hfill).
  exists out. split; [exact Hfetch|]. split; [exact Hdates|].
  assert (Hwf : well_formed raw_1970)
    by (unfold well_formed; cbn; repeat constructor).
  destruct (Hfill Hwf) as [_ Hcell].
  rewrite (Hcell 4%nat 1%nat); [reflexivity|cbn; lia|cbn; lia].
Defined.

(** X19. The forward fill that every fetch applies, seen on the series
    returned for the granularity "Minute": the dates are those of the
    document, and down each column a cell holds the latest value the
    document has at or above it. A cell is missing in the result exactly
    when the document has no value at or above it, so only the gaps at the
    head of a column survive, and no value of the document is altered. *)
Theorem X19_forward_fill_takes_latest_value
    (w : World) (ticker url : string) (raw out : DataFrame) (tr : list event)
    (j i : nat) :
  serves w ticker url raw -> well_formed raw ->
  (j < length (columns raw))%nat -> (i < length (rows raw))%nat ->
  fetch_stock_data w ticker "Minute" = (tr, Ok out) ->
  dates out = dates raw /\
  (nth i (column_at j (rows out)) None = None <->
   forall k, (k <= i)%nat -> nth k (column_at j (rows raw)) None = None) /\
  (forall q,
     nth i (column_at j (rows out)) None = Some q <->
     exists k, (k <= i)%nat /\ nth k (column_at j (rows raw)) None = Some q /\
               forall m, (k < m <= i)%nat ->
                 nth m (column_at j (rows raw)) None = None).
Proof.
  intros Hs Hwf Hj Hi Hfetch.
  rewrite (fetch_minute _ _ _ _ Hs) in Hfetch. injection Hfetch as _ <-.
  split; [apply ffill_dates|].
  assert (Hw : Forall (fun r => (j < length (cells r))%nat) (rows raw)).
  { unfold well_formed in Hwf. rewrite List.Forall_forall in Hwf |- *.
    intros r Hr. rewrite (Hwf r Hr). exact Hj. }
  apply (fill_seq_spec
           (fun i => nth i (column_at j (rows (ffill raw))) None)
           (fun i => nth i (column_at j (rows raw)) None)
           (length (rows raw))); [| |exact Hi].
  - unfold ffill. cbn [rows]. rewrite (ffill_rows_nth j _ Hw [] O) by lia.
    destruct j; cbn [nth]; now destruct (nth 0 (column_at _ (rows raw)) None).
  - intros i' Hi'. unfold ffill. cbn [rows].
    now rewrite (ffill_rows_nth j _ Hw [] (S i')) by lia.
Qed.

Lemma X19_witness :
  nth 1 (column_at 4 (rows (ffill raw_1970))) None = Some (inject_Z 500).
Proof.
  assert (Hwf : well_formed raw_1970)
    by (unfold well_formed; cbn; repeat constructor).
  assert (Hj : (4 < length (columns raw_1970))%nat) by (cbn; lia).
  assert (Hi : (1 < length (rows raw_1970))%nat) by (cbn; lia).
  assert (Hf : fetch_stock_data (world_of raw_1970) "TSLA" "Minute"
               = ([HttpGet (download_url tsla_url)], Ok (ffill raw_1970)))
    by reflexivity.
  apply (proj2 (proj2 (X19_forward_fill_takes_latest_value
                  (world_of raw_1970) "TSLA" tsla_url raw_1970 (ffill raw_1970)
                  [HttpGet (download_url tsla_url)] 4 1
                  (serves_example raw_1970) Hwf Hj Hi Hf))).
  exists O. split; [lia|]. split; [reflexivity|].
  intros m Hm. replace m with 1%nat by lia. reflexivity.
Defined.

(** ** The date of a resampled bar *)

Lemma bucket_label_day (f : freq) (t : Z) :
  bucket_label f (bucket_of f t)
  = day_of (bucket_label f (bucket_of f t)) * ns_per_day /\
  day_of t <= day_of (bucket_label f (bucket_of f t))
           <= day_of t + match f with D => 0 | W => 6 | M => 30 end.
Proof.
  destruct f; cbn [bucket_label bucket_of]; rewrite day_of_midnight.
  - split; [reflexivity|lia].
  - split; [reflexivity|]. generalize (day_of t). intros d. zdiv.
  - split; [reflexivity|].
    pose proof (month_index_spec (day_of t)) as S.
    pose proof (month_start_step (month_index (day_of t))) as T. lia.
Qed.

(** The day a bucket is labelled with is its last: the next day lies in
    the next bucket. *)
Lemma bucket_label_closing (f : freq) (k : Z) :
  bucket_of f ((day_of (bucket_label f k) + 1) * ns_per_day) = k + 1.
Proof.
  destruct f; cbn [bucket_label bucket_of]; rewrite !day_of_midnight.
  - reflexivity.
  - zdiv.
  - apply month_index_unique. pose proof (month_start_step (k + 1)). lia.
Qed.

Lemma resample_dropna_row_source (f : freq) (df : DataFrame) (b : Row) :
  columns df <> [] ->
  In b (rows (dropna (resample_last f df))) ->
  exists r, In r (rows df) /\ Date b = bucket_label f (bucket_of f (Date r)).
Proof.
  intros Hcols Hb. unfold dropna in Hb. cbn [rows] in Hb.
  apply filter_In in Hb as [Hb Hcomp].
  unfold resample_last in Hb.
  destruct (sort_by_date (rows df)) as [|first rest] eqn:Es;
    cbn [rows] in Hb; [contradiction|].
  apply in_map_iff in Hb as (k & <- & _).
  destruct (List.filter (in_bucket f k) (first :: rest)) as [|r0 g] eqn:Eg.
  - rewrite group_last_empty in Hcomp; [discriminate|].
    destruct (columns df); [contradiction|discriminate].
  - assert (Hr0 : In r0 (List.filter (in_bucket f k) (first :: rest)))
      by (rewrite Eg; now left).
    apply filter_In in Hr0 as [Hin Hk].
    unfold in_bucket in Hk. apply Z.eqb_eq in Hk.
    exists r0. split.
    + apply (Permutation_in _ (sort_by_date_perm (rows df))). now rewrite Es.
    + cbn [Date]. now rewrite Hk.
Qed.

(** X20. A bar the fetcher returns for Daily, Weekly or Monthly is dated
    at midnight of the closing day of its period, not at the time of the
    data it holds: its date is the label of the period of some bar of the
    document, a midnight whose day is the last of the period (the day
    after it lies in the next period), and that bar of the document lies
    on the same day for Daily, up to 6 days before the date of the bar for
    Weekly and up to 30 days before it for Monthly. *)
Theorem X20_bar_dated_at_period_end
    (w : World) (ticker url granularity : string) (f : freq)
    (raw out : DataFrame) (tr : list event) (b : Row) :
  serves w ticker url raw ->
  granularity_freq granularity = Ok f ->
  columns raw <> [] ->
  fetch_stock_data w ticker granularity = (tr, Ok out) ->
  In b (rows out) ->
  Date b = day_of (Date b) * ns_per_day /\
  bucket_of f ((day_of (Date b) + 1) * ns_per_day) = bucket_of f (Date b) + 1 /\
  exists r,
    In r (rows raw) /\
    Date b = bucket_label f (bucket_of f (Date r)) /\
    bucket_of f (Date r) = bucket_of f (Date b) /\
    day_of (Date r) <= day_of (Date b)
                    <= day_of (Date r) + match f with D => 0 | W => 6 | M => 30 end.
Proof.
  intros Hs Hf Hcols Hfetch Hb.
  rewrite (fetch_resampled _ _ _ _ _ _ Hs Hf) in Hfetch.
  injection Hfetch as _ <-.
  apply resample_dropna_row_source in Hb as (r0 & Hr0 & Hd); [|exact Hcols].
  assert (Hraw : exists r, In r (rows raw) /\ Date r = Date r0).
  { assert (Hin : In (Date r0) (dates (ffill raw))) by (apply in_map; exact Hr0).
    rewrite ffill_dates in Hin. apply in_map_iff in Hin as (r & E & Hr). eauto. }
  destruct Hraw as (r & Hr & E). rewrite <- E in Hd.
  destruct (bucket_label_day f (Date r)) as [Hmid Hday].
  rewrite Hd. split; [exact Hmid|].
  split; [now rewrite bucket_label_closing, bucket_of_label|].
  exists r. split; [exact Hr|]. split; [reflexivity|].
  split; [now rewrite bucket_of_label|exact Hday].
Qed.

Lemma X20_witness :
  exists r,
    In r (rows raw_1970) /\
    30 * ns_per_day = bucket_label M (bucket_of M (Date r)) /\
    bucket_of M (Date r) = bucket_of M (30 * ns_per_day) /\
    day_of (Date r) <= day_of (30 * ns_per_day) <= day_of (Date r) + 30.
Proof.
  refine (proj2 (proj2 (X20_bar_dated_at_period_end (world_of raw_1970) "TSLA" tsla_url
                   "Monthly" M raw_1970
                   (dropna (resample_last M (ffill raw_1970)))
                   [HttpGet (download_url tsla_url);
                    Print "The set level of Granularity is: M."]
                   (mkRow (30 * ns_per_day) [price 12; price 14; price 11; price 13; price 700])
                   (serves_example raw_1970) _ _ _ _))).
  - reflexivity.
  - discriminate.
  - vm_compute. reflexivity.
  - vm_compute. left. reflexivity.
Defined.

(** ** What the engine is given *)

Lemma get_data_inv (w : World) (ticker granularity : string) (Y : Z)
    (tr : list event) (data : DataFrame) :
  get_data_for_backtesting w ticker granularity Y = (tr, Ok data) ->
  exists df start,
    fetch_stock_data w ticker granularity = (tr, Ok df) /\
    start_date (now w) Y = Ok start /\
    data = filter_since start df /\
    check_columns required_columns data = Ok tt.
Proof.
  unfold get_data_for_backtesting.
  destruct (fetch_stock_data w ticker granularity) as [tr0 [df|e]];
    cbn -[check_columns required_columns start_date filter_since];
    [|discriminate].
  destruct (start_date (now w) Y) as [start|e];
    cbn -[check_columns required_columns filter_since]; [|discriminate].
  destruct (check_columns required_columns (filter_since start df)) as [[]|e] eqn:E;
    cbn -[filter_since]; [|discriminate].
  rewrite app_nil_r. intros [= <- <-]. exists df, start. auto.
Qed.

Lemma check_columns_In (required : list string) (df : DataFrame) :
  check_columns required df = Ok tt ->
  forall c, In c required -> In c (columns df).
Proof.
  induction required as [|x rest IH]; cbn [check_columns]; intros H c Hc;
    [contradiction|].
  destruct (has_column df x) eqn:E; [|discriminate].
  destruct Hc as [<-|Hc]; [now apply has_column_In|now apply IH].
Qed.

(** X21. The series [get_data_for_backtesting] hands to the engine for
    Daily, Weekly or Monthly data is clean: its dates increase strictly,
    no bar has a missing value, the five columns Open, High, Low, Close and
    Volume are there, and every bar is dated at or after the cutoff
    [now - 365 * Y days]. *)
Theorem X21_series_for_engine_is_clean
    (w : World) (ticker granularity : string) (f : freq) (Y : Z)
    (tr : list event) (data : DataFrame) :
  granularity_freq granularity = Ok f ->
  get_data_for_backtesting w ticker granularity Y = (tr, Ok data) ->
  ordered_dates data /\ no_missing data /\
  (forall c, In c ["Open"; "High"; "Low"; "Close"; "Volume"] ->
             In c (columns data)) /\
  (forall r, In r (rows data) -> now w - 365 * Y * ns_per_day <= Date r).
Proof.
  intros Hf Hget.
  apply get_data_inv in Hget as (df & start & Hfetch & Hstart & -> & Hcheck).
  destruct (fetch_resampled_inv _ _ _ _ _ _ Hf Hfetch) as [raw ->].
  apply start_date_ok in Hstart as (_ & _ & ->).
  split; [|split; [|split]].
  - apply filter_since_ordered. apply dropna_ordered, resample_last_dates.
  - unfold no_missing. apply List.Forall_forall. intros r Hr.
    apply filter_since_In in Hr as [Hr _].
    unfold dropna in Hr. cbn [rows] in Hr. now apply filter_In in Hr as [_ Hr].
  - exact (check_columns_In _ _ Hcheck).
  - intros r Hr. now apply filter_since_In in Hr as [_ Hr].
Qed.

Lemma X21_witness : ordered_dates raw_2026 /\ no_missing raw_2026.
Proof.
  assert (Hget : get_data_for_backtesting (world_of raw_2026) "TSLA" "Daily" 5
                 = ([HttpGet (download_url tsla_url);
                     Print "The set level of Granularity is: D."],
                    Ok raw_2026))
    by (vm_compute; reflexivity).
  destruct (X21_series_for_engine_is_clean (world_of raw_2026) "TSLA" "Daily" D 5
              _ raw_2026 eq_refl Hget) as (H1 & H2 & _).
  split; [exact H1|exact H2].
Defined.

(** X22. A transport failure ends a run after a single request: when the
    request raises, or is answered with an error status, [run_backtest]
    raises that very exception, has sent exactly one request and has done
    nothing else; there is no second attempt. *)
Theorem X22_transport_failure_single_request
    (c : Config) (w : World) (eng : Engine) (path_exists visualize save_results : bool)
    (timestamp url : string) (e : exn) :
  get_url_dict !! TICKER c = Some url ->
  (http_get w (download_url url) = Raise e \/
   exists resp, http_get w (download_url url) = Ok resp /\
                raise_for_status resp = Raise e) ->
  run_backtest c w eng path_exists timestamp visualize save_results
  = ([Fetch (HttpGet (download_url url))], Raise e).
Proof.
  intros Hu Hfail.
  assert (Hfetch : fetch_stock_data w (TICKER c) (DATA_GRANULARITY c)
                   = ([HttpGet (download_url url)], Raise e)).
  { unfold fetch_stock_data, dict_get, requests_get. rewrite Hu. cbn.
    destruct Hfail as [Hget|(resp & Hget & Hst)]; rewrite Hget; cbn;
      [reflexivity|]. rewrite Hst. reflexivity. }
  unfold run_backtest, get_data_for_backtesting. rewrite Hfetch. reflexivity.
Qed.

Lemma X22_witness :
  run_backtest config
    (mkWorld (fun _ => Raise ConnectionError) (fun _ => Ok raw_2026) 0)
    engine_no_plot false "20261104_000000" true true
  = ([Fetch (HttpGet (download_url tsla_url))], Raise ConnectionError).
Proof.
  apply X22_transport_failure_single_request.
  - reflexivity.
  - left. reflexivity.
Defined.
